(** * star-alignment-workflow: the allocation and prediction engine

    A shallow embedding of [scripts/advanced_features.py]
    ([StorageFailurePredictor], [ResourceExhaustionPredictor]), of
    [scripts/resource_manager.py] ([AdvancedResourceManager],
    [AdvancedQueueManager], [ResourcePredictor], [CostOptimizer],
    [WorkloadBalancer]) and of the chunk cutting of [run.py], followed by
    the properties of the specification that are settled on it and by
    further properties of the code.

    Conventions of the embedding.
    - A Python [int] is a [Z].  A Python [float] is an exact rational,
      extended in [Py.pyfloat] with the two infinities and NaN; rounding of
      binary64 arithmetic is not modelled.  Every constant of the source is a
      short decimal literal and every decision is a comparison against such a
      constant, and the concrete inputs used below stay away from the
      thresholds.
    - An [int] that meets a float is converted first.  Where the [int] is
      data handed to the code, the [OverflowError] of an [int] beyond the
      range of a float is part of the model: in [float(x)]
      ([Py.float_of_int]), in the true division of the queue counts
      ([Py.int_true_div]) and in the duration formula
      ([ResourceManager.int_times_float]).  Elsewhere (the telemetry
      sample, the usage fraction of the manager, the cost estimate and the
      success probability) the integers are sizes that the operating system
      reports and amounts of cpus and memory, and their conversion is taken
      to be exact.
    - A Python exception is the name of its class; [str(e)] is that name.
    - A [dict] is an association list in insertion order.
    - What the code reads from the host ([psutil], [iostat], [smartctl],
      [bqueues], the clock) and the builtins [float(str)] and [int(str)] are
      parameters of the model. *)

From Stdlib Require Import ZArith QArith Qminmax Qabs List String Bool Lia Lqa.
From Stdlib Require Import Permutation Sorted.
Import ListNotations.
Open Scope string_scope.
Open Scope Z_scope.

(** ** Python values, exceptions and dictionaries *)

Module Py.

Inductive pyfloat : Type :=
| FFin (q : Q)
| FInf
| FNegInf
| FNaN.

#[local] Set Warnings "-register-all".
Inductive pyval : Type :=
| VNone
| VBool (b : bool)
| VInt (z : Z)
| VFloat (f : pyfloat)
| VStr (s : string)
| VList (l : list pyval)
| VDict (d : list (string * pyval)).

Inductive result (A : Type) : Type :=
| Ok (a : A)
| Raise (exc : string).
Arguments Ok {A} a.
Arguments Raise {A} exc.

Definition bind {A B} (m : result A) (f : A -> result B) : result B :=
  match m with
  | Ok a => f a
  | Raise e => Raise e
  end.

(** [try: m except (c1, c2, ...): h] *)
Definition try_except {A} (m : result A) (classes : list string)
    (h : result A) : result A :=
  match m with
  | Ok a => Ok a
  | Raise e => if existsb (String.eqb e) classes then h else Raise e
  end.

(** [try: m except Exception as e: h e] *)
Definition try_except_all {A} (m : result A) (h : string -> A) : A :=
  match m with
  | Ok a => a
  | Raise e => h e
  end.

Declare Scope py_scope.
Delimit Scope py_scope with py.
Notation "x <- m ;; k" := (bind m (fun x => k))
  (at level 61, m at next level, right associativity) : py_scope.
Notation "' pat <- m ;; k" := (bind m (fun pat => k))
  (at level 61, pat pattern, m at next level, right associativity)
  : py_scope.
Local Open Scope py_scope.

Definition Qlt_bool (a b : Q) : bool := negb (Qle_bool b a).

(** [a < b] on floats; every comparison with NaN is false. *)
Definition flt (a b : pyfloat) : bool :=
  match a, b with
  | FNaN, _ | _, FNaN => false
  | FFin p, FFin q => Qlt_bool p q
  | FNegInf, FNegInf => false
  | FNegInf, _ => true
  | _, FNegInf => false
  | FInf, _ => false
  | FFin _, FInf => true
  end.

(** [a <= b] on floats. *)
Definition fle (a b : pyfloat) : bool :=
  match a, b with
  | FNaN, _ | _, FNaN => false
  | FFin p, FFin q => Qle_bool p q
  | FNegInf, _ => true
  | _, FInf => true
  | FInf, _ => false
  | FFin _, FNegInf => false
  end.

(** The builtins [max(a, b)] and [min(a, b)]: the first argument is kept
    unless the second is strictly greater (smaller). *)
Definition pymax (a b : pyfloat) : pyfloat := if flt a b then b else a.
Definition pymin (a b : pyfloat) : pyfloat := if flt b a then b else a.

Definition of_Z (z : Z) : pyfloat := FFin (inject_Z z).

(** [a - b] on floats. *)
Definition fsub (a b : pyfloat) : pyfloat :=
  match a, b with
  | FNaN, _ | _, FNaN => FNaN
  | FFin p, FFin q => FFin (p - q)
  | FInf, FInf | FNegInf, FNegInf => FNaN
  | FInf, _ | _, FNegInf => FInf
  | FNegInf, _ | _, FInf => FNegInf
  end.

(** [a * b] on floats. *)
Definition fmul (a b : pyfloat) : pyfloat :=
  let inf_times (positive : bool) (q : Q) :=
    if Qeq_bool q 0 then FNaN
    else if Bool.eqb positive (Qlt_bool 0 q) then FInf else FNegInf in
  match a, b with
  | FNaN, _ | _, FNaN => FNaN
  | FFin p, FFin q => FFin (p * q)
  | FInf, FFin q | FFin q, FInf => inf_times true q
  | FNegInf, FFin q | FFin q, FNegInf => inf_times false q
  | FInf, FInf | FNegInf, FNegInf => FInf
  | FInf, FNegInf | FNegInf, FInf => FNegInf
  end.

(** [a / b] on floats; a zero divisor raises whatever the dividend is.
    Signed zeros are not modelled. *)
Definition fdiv (a b : pyfloat) : result pyfloat :=
  match b with
  | FFin q =>
      if Qeq_bool q 0 then Raise "ZeroDivisionError"
      else Ok match a with
              | FFin p => FFin (p / q)
              | FInf => if Qlt_bool 0 q then FInf else FNegInf
              | FNegInf => if Qlt_bool 0 q then FNegInf else FInf
              | FNaN => FNaN
              end
  | FNaN => Ok FNaN
  | FInf | FNegInf => Ok match a with
                         | FFin _ => FFin 0
                         | _ => FNaN
                         end
  end.

(** [int(q)]: truncation towards zero. *)
Definition Qtrunc (q : Q) : Z := Z.quot (Qnum q) (Zpos (Qden q)).

(** [int(x)] on a float. *)
Definition int_of_float (f : pyfloat) : result Z :=
  match f with
  | FFin q => Ok (Qtrunc q)
  | FInf | FNegInf => Raise "OverflowError"
  | FNaN => Raise "ValueError"
  end.

Definition Z_of_bool (b : bool) : Z := if b then 1 else 0.

(** The least magnitude that is too large for a float: a number below it
    rounds to a finite float, the largest being [2 ^ 1024 - 2 ^ 971]. *)
Definition float_overflow_bound : Z := 2 ^ 1024 - 2 ^ 970.

Definition float_overflows (q : Q) : bool :=
  Qle_bool (inject_Z float_overflow_bound) (Qabs q).

(** The conversion of an [int] that the builtin [float] makes; an [int]
    beyond the range of a float is an [OverflowError]. *)
Definition float_of_int (z : Z) : result pyfloat :=
  if float_overflows (inject_Z z) then Raise "OverflowError" else Ok (of_Z z).

(** [a / b] on two [int]s: the quotient as a float, an [OverflowError]
    when it is beyond the range of a float. *)
Definition int_true_div (a b : Z) : result pyfloat :=
  if b =? 0 then Raise "ZeroDivisionError"
  else
    let q := (inject_Z a / inject_Z b)%Q in
    if float_overflows q then Raise "OverflowError" else Ok (FFin q).

(** [float(x)], given the builtin's reading of strings ([None] is
    [ValueError]). *)
Definition py_float (float_of_str : string -> option pyfloat) (x : pyval)
    : result pyfloat :=
  match x with
  | VStr s =>
      match float_of_str s with
      | Some f => Ok f
      | None => Raise "ValueError"
      end
  | VBool b => Ok (of_Z (Z_of_bool b))
  | VInt z => float_of_int z
  | VFloat f => Ok f
  | _ => Raise "TypeError"
  end.

(** [int(x)], given the builtin's reading of strings. *)
Definition py_int (int_of_str : string -> option Z) (x : pyval) : result Z :=
  match x with
  | VStr s =>
      match int_of_str s with
      | Some z => Ok z
      | None => Raise "ValueError"
      end
  | VBool b => Ok (Z_of_bool b)
  | VInt z => Ok z
  | VFloat f => int_of_float f
  | _ => Raise "TypeError"
  end.

Fixpoint dict_get {V} (k : string) (d : list (string * V)) : option V :=
  match d with
  | [] => None
  | (k', v) :: d' => if String.eqb k k' then Some v else dict_get k d'
  end.

(** [d.get(k, default)] *)
Definition dict_get_default {V} (k : string) (default : V)
    (d : list (string * V)) : V :=
  match dict_get k d with
  | Some v => v
  | None => default
  end.

(** [k in d] *)
Definition dict_mem {V} (k : string) (d : list (string * V)) : bool :=
  match dict_get k d with
  | Some _ => true
  | None => false
  end.

(** [d[k] = v]: an existing key keeps its position. *)
Fixpoint dict_set {V} (k : string) (v : V) (d : list (string * V))
    : list (string * V) :=
  match d with
  | [] => [(k, v)]
  | (k', v') :: d' =>
      if String.eqb k k' then (k, v) :: d' else (k', v') :: dict_set k v d'
  end.

(** [k in x] for a value that the code knows to be a dict. *)
Definition has_key (k : string) (x : pyval) : bool :=
  match x with
  | VDict d => dict_mem k d
  | _ => false
  end.

(** Whether a value can be a dictionary key or be looked up in one. *)
Definition hashable (x : pyval) : bool :=
  match x with
  | VList _ | VDict _ => false
  | _ => true
  end.

(** A list comprehension whose element expression may raise. *)
Fixpoint map_result {A B} (f : A -> result B) (l : list A) : result (list B) :=
  match l with
  | [] => Ok []
  | a :: l' => b <- f a ;; bs <- map_result f l' ;; Ok (b :: bs)
  end.

(** A [for] loop over [l] that updates an accumulator and may raise. *)
Fixpoint fold_result {A B} (f : A -> B -> result A) (l : list B) (a : A)
    : result A :=
  match l with
  | [] => Ok a
  | b :: l' => a' <- f a b ;; fold_result f l' a'
  end.

(** [x > c] for a float constant [c]; ordering a non-number against a
    float is a [TypeError]. *)
Definition py_gt_const (x : pyval) (c : Q) : result bool :=
  match x with
  | VBool b => Ok (flt (FFin c) (of_Z (Z_of_bool b)))
  | VInt z => Ok (flt (FFin c) (of_Z z))
  | VFloat f => Ok (flt (FFin c) f)
  | _ => Raise "TypeError"
  end.

End Py.
Import Py.
Open Scope py_scope.

(** ** scripts/advanced_features.py: StorageFailurePredictor *)

Module StorageFailurePredictor.
Local Open Scope Q_scope.

Section Predictor.

(** The builtin [float(s)] on a string; [None] is [ValueError]. *)
Variable float_of_str : string -> option pyfloat.
(** What [_get_io_error_rate] reads from [iostat]. *)
Variable io_error_rate : Z.
(** What [_check_disk_health] returns or raises. *)
Variable check_disk_health : result pyval.

Definition usage_critical : Q := 0.95.
Definition usage_warning : Q := 0.90.
Definition growth_rate_critical : Q := 0.1.
Definition io_error_threshold : Z := 5%Z.

(** The first validation block of [predict_storage_failure]. *)
Definition validate_usage (current_usage : pyval) : result pyfloat :=
  try_except
    (cu <- match current_usage with
           | VStr _ => f <- py_float float_of_str current_usage ;; Ok (VFloat f)
           | VBool _ | VInt _ | VFloat _ => Ok current_usage
           | _ => Ok (VFloat (FFin 0))
           end ;;
     f <- py_float float_of_str cu ;;
     Ok (pymax (FFin 0) (pymin (FFin 1) f)))
    ["ValueError"; "TypeError"]
    (Ok (FFin 0)).

(** The second validation block of [predict_storage_failure]. *)
Definition validate_growth (growth_rate : pyval) : result pyfloat :=
  try_except
    (gr <- match growth_rate with
           | VStr _ => f <- py_float float_of_str growth_rate ;; Ok (VFloat f)
           | VBool _ | VInt _ | VFloat _ => Ok growth_rate
           | _ => Ok (VFloat (FFin 0))
           end ;;
     f <- py_float float_of_str gr ;;
     Ok (pymax (FFin 0) f))
    ["ValueError"; "TypeError"]
    (Ok (FFin 0)).

Definition _calculate_failure_probability (usage growth_rate : pyfloat)
    : pyfloat :=
  let base_probability : Q := 0 in
  let base_probability :=
    if flt (FFin usage_critical) usage then base_probability + 0.7
    else if flt (FFin usage_warning) usage then base_probability + 0.3
    else base_probability in
  let base_probability :=
    if flt (FFin growth_rate_critical) growth_rate
    then base_probability + 0.4 else base_probability in
  let io_errors := io_error_rate in
  let base_probability :=
    if (io_error_threshold <? io_errors)%Z
    then base_probability + 0.2 else base_probability in
  pymin (FFin base_probability) (FFin 1).

Definition _estimate_time_to_failure (usage growth_rate : pyfloat)
    : result pyfloat :=
  if fle growth_rate (FFin 0) then Ok FInf
  else
    let remaining_capacity := fsub (FFin 1) usage in
    time_to_full <- fdiv remaining_capacity growth_rate ;;
    let safety_margin := FFin 0.02 in
    time_to_failure <-
      fdiv (fsub remaining_capacity safety_margin) growth_rate ;;
    Ok (pymax (FFin 0) time_to_failure).

Definition _get_risk_level (failure_prob : pyfloat) : string :=
  if flt (FFin 0.8) failure_prob then "CRITICAL"
  else if flt (FFin 0.5) failure_prob then "HIGH"
  else if flt (FFin 0.2) failure_prob then "MODERATE"
  else "LOW".

Definition _get_preventive_measures (usage failure_prob : pyfloat)
    : list pyval :=
  if flt (FFin 0.8) failure_prob then
    [VStr "CRITICAL: Immediate storage cleanup required";
     VStr "CRITICAL: Request storage expansion immediately";
     VStr "CRITICAL: Stop new job submissions";
     VStr "CRITICAL: Archive old data to external storage"]
  else if flt (FFin 0.5) failure_prob then
    [VStr "HIGH RISK: Clean up temporary files";
     VStr "HIGH RISK: Compress old BAM files";
     VStr "HIGH RISK: Request additional storage";
     VStr "HIGH RISK: Monitor storage usage closely"]
  else if flt (FFin 0.2) failure_prob then
    [VStr "MODERATE RISK: Regular cleanup schedule";
     VStr "MODERATE RISK: Monitor growth rate";
     VStr "MODERATE RISK: Plan storage expansion"]
  else
    [VStr "LOW RISK: Continue normal operations";
     VStr "LOW RISK: Regular monitoring sufficient"].

Definition _get_recommendations (failure_prob time_to_failure : pyfloat)
    : list pyval :=
  if flt time_to_failure (FFin 24) then
    [VStr "URGENT: Storage will fail within 24 hours";
     VStr "URGENT: Implement emergency cleanup procedures"]
  else if flt time_to_failure (FFin 168) then
    [VStr "WARNING: Storage will fail within 1 week";
     VStr "WARNING: Plan storage expansion immediately"]
  else if flt time_to_failure (FFin 720) then
    [VStr "NOTICE: Storage will fail within 1 month";
     VStr "NOTICE: Schedule storage maintenance"]
  else
    [VStr "OK: Storage stable for extended period"].

(** [predict_storage_failure(current_usage, growth_rate)].  The leading
    pictographs of the message strings are left out. *)
Definition predict_storage_failure (current_usage growth_rate : pyval)
    : pyval :=
  try_except_all
    (current_usage <- validate_usage current_usage ;;
     growth_rate <- validate_growth growth_rate ;;
     let failure_probability :=
       _calculate_failure_probability current_usage growth_rate in
     time_to_failure <- _estimate_time_to_failure current_usage growth_rate ;;
     let preventive_measures :=
       _get_preventive_measures current_usage failure_probability in
     disk_health <- check_disk_health ;;
     Ok (VDict
           [("failure_probability", VFloat failure_probability);
            ("time_to_failure_hours", VFloat time_to_failure);
            ("risk_level", VStr (_get_risk_level failure_probability));
            ("preventive_measures", VList preventive_measures);
            ("disk_health", disk_health);
            ("recommendations",
             VList (_get_recommendations failure_probability
                      time_to_failure))]))
    (fun e =>
       VDict
         [("error", VStr e);
          ("failure_probability", VFloat (FFin 0));
          ("time_to_failure_hours", VFloat (FFin 0));
          ("risk_level", VStr "UNKNOWN");
          ("preventive_measures",
           VList [VStr "Error occurred during prediction"]);
          ("disk_health",
           VDict [("status", VStr "unknown"); ("recent_errors", VInt 0%Z);
                  ("health_score", VFloat (FFin 0))]);
          ("recommendations",
           VList [VStr "Error occurred during prediction"])]).

End Predictor.

End StorageFailurePredictor.

(** ** scripts/advanced_features.py: ResourceExhaustionPredictor *)

Module ResourceExhaustionPredictor.
Local Open Scope Q_scope.

Section Predictor.

Variable float_of_str : string -> option pyfloat.
Variable int_of_str : string -> option Z.

Definition cpu_critical : Q := 0.95.
Definition memory_critical : Q := 0.95.
Definition storage_critical : Q := 0.95.
Definition queue_critical : Q := 0.9.

Definition _get_risk_level (probability : pyfloat) : string :=
  if flt (FFin 0.8) probability then "CRITICAL"
  else if flt (FFin 0.5) probability then "HIGH"
  else if flt (FFin 0.2) probability then "MODERATE"
  else "LOW".

Definition _estimate_cpu_exhaustion_time (usage : pyfloat) (available : Z)
    : pyfloat :=
  if fle (FFin 0.95) usage then FFin 0.1
  else if (available <=? 0)%Z then FFin 0.5
  else
    let remaining_capacity := fsub (FFin 0.95) usage in
    if fle remaining_capacity (FFin 0) then FFin 0.1
    else
      let time_to_exhaustion := fmul remaining_capacity (FFin 24) in
      pymax (FFin 0.1) time_to_exhaustion.

Definition _estimate_memory_exhaustion_time (usage available_gb : pyfloat)
    : pyfloat :=
  if fle (FFin 0.95) usage then FFin 0.1
  else
    let remaining_capacity := fsub (FFin 0.95) usage in
    if fle remaining_capacity (FFin 0) then FFin 0.1
    else
      let time_to_exhaustion := fmul remaining_capacity (FFin 48) in
      pymax (FFin 0.1) time_to_exhaustion.

Definition _estimate_storage_exhaustion_time (usage free_gb : pyfloat)
    : pyfloat :=
  if fle (FFin 0.95) usage then FFin 0.1
  else
    let remaining_capacity := fsub (FFin 0.95) usage in
    if fle remaining_capacity (FFin 0) then FFin 0.1
    else
      let time_to_exhaustion := fmul remaining_capacity (FFin 168) in
      pymax (FFin 0.1) time_to_exhaustion.

(** The block that validates [usage_percent]; the three resource
    predictors repeat it word for word. *)
Definition validate_usage_percent (usage_percent : pyval) : result pyfloat :=
  try_except
    (usage_percent <-
       match usage_percent with
       | VStr _ => py_float float_of_str usage_percent
       | VBool b => Ok (of_Z (Z_of_bool b))
       | VInt z => Ok (of_Z z)
       | VFloat f => Ok f
       | _ => Ok (FFin 0)
       end ;;
     fdiv (pymax (FFin 0) (pymin (FFin 100) usage_percent)) (FFin 100))
    ["ValueError"; "TypeError"]
    (Ok (FFin 0)).

(** The block of [_predict_cpu_exhaustion] that validates [available]. *)
Definition validate_available (available : pyval) : result Z :=
  try_except
    (available <-
       match available with
       | VStr _ => z <- py_int int_of_str available ;; Ok (VInt z)
       | VBool _ | VInt _ | VFloat _ => Ok available
       | _ => Ok (VInt 1)
       end ;;
     z <- py_int int_of_str available ;;
     Ok (Z.max 0 z))
    ["ValueError"; "TypeError"]
    (Ok 1%Z).

(** The block that validates [available_gb] (memory) and [free_gb]
    (storage). *)
Definition validate_gb (gb : pyval) : result pyfloat :=
  try_except
    (gb <-
       match gb with
       | VStr _ => f <- py_float float_of_str gb ;; Ok (VFloat f)
       | VBool _ | VInt _ | VFloat _ => Ok gb
       | _ => Ok (VInt 1)
       end ;;
     f <- py_float float_of_str gb ;;
     Ok (pymax (FFin 0) f))
    ["ValueError"; "TypeError"]
    (Ok (FFin 1)).

Definition _predict_cpu_exhaustion (cpu_info : pyval) : pyval :=
  try_except_all
    (match cpu_info with
     | VDict cpu_info =>
         let usage_percent :=
           dict_get_default "usage_percent" (VInt 0) cpu_info in
         let available := dict_get_default "available" (VInt 1) cpu_info in
         usage <- validate_usage_percent usage_percent ;;
         available <- validate_available available ;;
         let exhaustion_prob :=
           if flt (FFin cpu_critical) usage then 0.8
           else if flt (FFin 0.8) usage then 0.4
           else if flt (FFin 0.6) usage then 0.1
           else 0 in
         let time_to_exhaustion :=
           _estimate_cpu_exhaustion_time usage available in
         Ok (VDict
               [("exhaustion_probability", VFloat (FFin exhaustion_prob));
                ("time_to_exhaustion_hours", VFloat time_to_exhaustion);
                ("current_usage", VFloat usage);
                ("available_cores", VInt available);
                ("risk_level",
                 VStr (_get_risk_level (FFin exhaustion_prob)))])
     | _ =>
         Ok (VDict
               [("error", VStr "Invalid CPU data format");
                ("exhaustion_probability", VFloat (FFin 0));
                ("time_to_exhaustion_hours", VFloat (FFin 0));
                ("current_usage", VFloat (FFin 0));
                ("available_cores", VInt 0);
                ("risk_level", VStr "UNKNOWN")])
     end)
    (fun e =>
       VDict
         [("error", VStr e);
          ("exhaustion_probability", VFloat (FFin 0));
          ("time_to_exhaustion_hours", VFloat (FFin 0));
          ("current_usage", VFloat (FFin 0));
          ("available_cores", VInt 0);
          ("risk_level", VStr "UNKNOWN")]).

Definition _predict_memory_exhaustion (memory_info : pyval) : pyval :=
  try_except_all
    (match memory_info with
     | VDict memory_info =>
         let usage_percent :=
           dict_get_default "usage_percent" (VInt 0) memory_info in
         let available_gb :=
           dict_get_default "available_gb" (VInt 1) memory_info in
         usage <- validate_usage_percent usage_percent ;;
         available_gb <- validate_gb available_gb ;;
         let exhaustion_prob :=
           if flt (FFin memory_critical) usage then 0.9
           else if flt (FFin 0.8) usage then 0.5
           else if flt (FFin 0.6) usage then 0.2
           else 0 in
         let time_to_exhaustion :=
           _estimate_memory_exhaustion_time usage available_gb in
         Ok (VDict
               [("exhaustion_probability", VFloat (FFin exhaustion_prob));
                ("time_to_exhaustion_hours", VFloat time_to_exhaustion);
                ("current_usage", VFloat usage);
                ("available_gb", VFloat available_gb);
                ("risk_level",
                 VStr (_get_risk_level (FFin exhaustion_prob)))])
     | _ =>
         Ok (VDict
               [("error", VStr "Invalid memory data format");
                ("exhaustion_probability", VFloat (FFin 0));
                ("time_to_exhaustion_hours", VFloat (FFin 0));
                ("current_usage", VFloat (FFin 0));
                ("available_gb", VInt 0);
                ("risk_level", VStr "UNKNOWN")])
     end)
    (fun e =>
       VDict
         [("error", VStr e);
          ("exhaustion_probability", VFloat (FFin 0));
          ("time_to_exhaustion_hours", VFloat (FFin 0));
          ("current_usage", VFloat (FFin 0));
          ("available_gb", VInt 0);
          ("risk_level", VStr "UNKNOWN")]).

Definition _predict_storage_exhaustion (storage_info : pyval) : pyval :=
  try_except_all
    (match storage_info with
     | VDict storage_info =>
         let usage_percent :=
           dict_get_default "usage_percent" (VInt 0) storage_info in
         let free_gb := dict_get_default "free_gb" (VInt 1) storage_info in
         usage <- validate_usage_percent usage_percent ;;
         free_gb <- validate_gb free_gb ;;
         let exhaustion_prob :=
           if flt (FFin storage_critical) usage then 0.95
           else if flt (FFin 0.9) usage then 0.7
           else if flt (FFin 0.8) usage then 0.3
           else 0 in
         let time_to_exhaustion :=
           _estimate_storage_exhaustion_time usage free_gb in
         Ok (VDict
               [("exhaustion_probability", VFloat (FFin exhaustion_prob));
                ("time_to_exhaustion_hours", VFloat time_to_exhaustion);
                ("current_usage", VFloat usage);
                ("free_gb", VFloat free_gb);
                ("risk_level",
                 VStr (_get_risk_level (FFin exhaustion_prob)))])
     | _ =>
         Ok (VDict
               [("error", VStr "Invalid storage data format");
                ("exhaustion_probability", VFloat (FFin 0));
                ("time_to_exhaustion_hours", VFloat (FFin 0));
                ("current_usage", VFloat (FFin 0));
                ("free_gb", VInt 0);
                ("risk_level", VStr "UNKNOWN")])
     end)
    (fun e =>
       VDict
         [("error", VStr e);
          ("exhaustion_probability", VFloat (FFin 0));
          ("time_to_exhaustion_hours", VFloat (FFin 0));
          ("current_usage", VFloat (FFin 0));
          ("free_gb", VInt 0);
          ("risk_level", VStr "UNKNOWN")]).

(** [int(x) if isinstance(x, (int, str)) else default] *)
Definition int_if_int_or_str (x : pyval) (default : Z) : result Z :=
  match x with
  | VBool _ | VInt _ | VStr _ => py_int int_of_str x
  | _ => Ok default
  end.

(** The counts of one queue as [_predict_queue_exhaustion] reads them
    from the queue's dictionary: [pending], [running] and [max_jobs] after
    the conversion block and the three clamps. *)
Definition queue_counts (queue_data : list (string * pyval))
    : result (Z * Z * Z) :=
  let pending := dict_get_default "pending" (VInt 0) queue_data in
  let running := dict_get_default "running" (VInt 0) queue_data in
  let max_jobs := dict_get_default "max_jobs" (VInt 100) queue_data in
  '(pending, running, max_jobs) <-
    try_except
      (pending <- int_if_int_or_str pending 0 ;;
       running <- int_if_int_or_str running 0 ;;
       max_jobs <- int_if_int_or_str max_jobs 100 ;;
       Ok (pending, running, max_jobs))
      ["ValueError"; "TypeError"]
      (Ok (0, 0, 100)%Z) ;;
  let pending := Z.max 0 pending in
  let running := Z.max 0 running in
  let max_jobs := Z.max 1 max_jobs in
  Ok (pending, running, max_jobs).

(** The body of the loop of [_predict_queue_exhaustion] for one queue:
    the entry stored under the queue's name. *)
Definition queue_entry (queue_data : pyval) : pyval :=
  try_except_all
    (match queue_data with
     | VDict queue_data =>
         '(pending, running, max_jobs) <- queue_counts queue_data ;;
         utilization <- int_true_div (running + pending) max_jobs ;;
         let exhaustion_prob :=
           if flt (FFin queue_critical) utilization then 0.8
           else if flt (FFin 0.8) utilization then 0.4
           else if flt (FFin 0.6) utilization then 0.1
           else 0 in
         Ok (VDict
               [("exhaustion_probability", VFloat (FFin exhaustion_prob));
                ("utilization", VFloat utilization);
                ("pending_jobs", VInt pending);
                ("running_jobs", VInt running);
                ("max_jobs", VInt max_jobs);
                ("risk_level",
                 VStr (_get_risk_level (FFin exhaustion_prob)))])
     | _ => Ok (VDict [("error", VStr "Invalid queue data")])
     end)
    (fun e => VDict [("error", VStr e)]).

Definition _predict_queue_exhaustion (queue_info : pyval) : pyval :=
  try_except_all
    (match queue_info with
     | VDict queue_info =>
         Ok (VDict
               (fold_left
                  (fun queue_exhaustion '(queue_name, queue_data) =>
                     dict_set queue_name (queue_entry queue_data)
                       queue_exhaustion)
                  queue_info []))
     | _ => Ok (VDict [("error", VStr "Invalid queue data format")])
     end)
    (fun e => VDict [("error", VStr e)]).

Definition risk_scores : list (string * Z) :=
  [("LOW", 1); ("MODERATE", 2); ("HIGH", 3); ("CRITICAL", 4);
   ("UNKNOWN", 0)]%Z.

(** The loop of [_assess_overall_risk] that collects the risk levels. *)
Definition collect_risks (predictions : list (string * pyval))
    : list pyval :=
  fold_left
    (fun risks '(resource_type, prediction) =>
       match prediction with
       | VDict prediction =>
           if dict_mem "error" prediction then risks
           else
             match dict_get "risk_level" prediction with
             | Some risk => (risks ++ [risk])%list
             | None =>
                 let queue_risks :=
                   flat_map
                     (fun '(_, q) =>
                        match q with
                        | VDict q =>
                            match dict_get "risk_level" q with
                            | Some risk => [risk]
                            | None => []
                            end
                        | _ => []
                        end)
                     prediction in
                 (risks ++ queue_risks)%list
             end
       | _ => risks
       end)
    predictions [].

(** [risk_scores.get(risk, 1)] *)
Definition risk_score (risk : pyval) : result Z :=
  if negb (hashable risk) then Raise "TypeError"
  else
    match risk with
    | VStr s => Ok (dict_get_default s 1%Z risk_scores)
    | _ => Ok 1%Z
    end.

Definition _assess_overall_risk (predictions : list (string * pyval))
    : pyval :=
  try_except_all
    (let risks := collect_risks predictions in
     overall_risk_level <-
       match risks with
       | [] => Ok "UNKNOWN"
       | _ :: _ =>
           scores <- map_result risk_score risks ;;
           let max_risk_score :=
             fold_left Z.max (tl scores) (hd 0%Z scores) in
           match
             filter (fun '(k, v) => (v =? max_risk_score)%Z) risk_scores
           with
           | (k, _) :: _ => Ok k
           | [] => Raise "IndexError"
           end
       end ;;
     Ok (VDict
           [("overall_risk_level", VStr overall_risk_level);
            ("resource_risks", VList risks);
            ("critical_resources",
             VList
               (filter
                  (fun r =>
                     match r with
                     | VStr s => String.eqb s "HIGH" || String.eqb s "CRITICAL"
                     | _ => false
                     end)
                  risks))]))
    (fun _ =>
       VDict
         [("overall_risk_level", VStr "UNKNOWN");
          ("resource_risks", VList []);
          ("critical_resources", VList [])]).

Definition _get_exhaustion_recommendations
    (predictions : list (string * pyval)) (overall_risk : pyval)
    : list pyval :=
  try_except_all
    (let risk_level :=
       match overall_risk with
       | VDict d => dict_get_default "overall_risk_level" (VStr "UNKNOWN") d
       | _ => VStr "UNKNOWN"
       end in
     let level_is s := match risk_level with
                       | VStr r => String.eqb r s
                       | _ => false
                       end in
     Ok (if level_is "CRITICAL" then
           [VStr "CRITICAL: Immediate resource management required";
            VStr "CRITICAL: Reduce job concurrency";
            VStr "CRITICAL: Implement emergency resource allocation";
            VStr "CRITICAL: Contact system administrators"]
         else if level_is "HIGH" then
           [VStr "HIGH RISK: Optimize resource allocation";
            VStr "HIGH RISK: Reduce job queue size";
            VStr "HIGH RISK: Monitor resource usage closely";
            VStr "HIGH RISK: Plan resource expansion"]
         else if level_is "MODERATE" then
           [VStr "MODERATE RISK: Continue monitoring";
            VStr "MODERATE RISK: Optimize job scheduling";
            VStr "MODERATE RISK: Plan resource management"]
         else if level_is "UNKNOWN" then
           [VStr "UNKNOWN RISK: Check system status";
            VStr "UNKNOWN RISK: Verify resource data"]
         else
           [VStr "LOW RISK: Normal operations";
            VStr "LOW RISK: Regular monitoring sufficient"]))
    (fun _ => [VStr "Error occurred while generating recommendations"]).

(** One of the three resource blocks of [_get_optimization_suggestions]. *)
Definition suggest_resource (key message : string)
    (predictions : list (string * pyval)) (suggestions : list pyval)
    : result (list pyval) :=
  match dict_get key predictions with
  | Some (VDict pred) =>
      if dict_mem "error" pred then Ok suggestions
      else
        over <-
          py_gt_const
            (dict_get_default "exhaustion_probability" (VInt 0) pred) 0.3 ;;
        Ok (if over : bool then (suggestions ++ [VStr message])%list
            else suggestions)
  | _ => Ok suggestions
  end.

Definition _get_optimization_suggestions
    (predictions : list (string * pyval)) : list pyval :=
  try_except_all
    (suggestions <-
       suggest_resource "cpu"
         "CPU: Reduce job concurrency or increase CPU allocation"
         predictions [] ;;
     suggestions <-
       suggest_resource "memory"
         "Memory: Optimize memory usage or increase memory allocation"
         predictions suggestions ;;
     suggestions <-
       suggest_resource "storage"
         "Storage: Clean up temporary files or expand storage"
         predictions suggestions ;;
     match dict_get "queues" predictions with
     | Some (VDict queues) =>
         fold_result
           (fun suggestions '(queue_name, queue_pred) =>
              match queue_pred with
              | VDict queue_pred =>
                  if dict_mem "error" queue_pred then Ok suggestions
                  else
                    over <-
                      py_gt_const
                        (dict_get_default "exhaustion_probability" (VInt 0)
                           queue_pred) 0.3 ;;
                    Ok (if over : bool then
                          (suggestions ++
                           [VStr ("Queue " ++ queue_name ++
                                  ": Reduce pending jobs or use alternative queues")%string])%list
                        else suggestions)
              | _ => Ok suggestions
              end)
           queues suggestions
     | _ => Ok suggestions
     end)
    (fun _ =>
       [VStr "Error occurred while generating optimization suggestions"]).

(** [predictions[key] = predictor(current_resources[field])] when the field
    is present and not [None], else the error entry. *)
Definition predict_field (current_resources : list (string * pyval))
    (field : string) (predictor : pyval -> pyval) (unavailable : string)
    : pyval :=
  match dict_get field current_resources with
  | None | Some VNone => VDict [("error", VStr unavailable)]
  | Some info => predictor info
  end.

(** [predict_resource_exhaustion(current_resources)].  The leading
    pictographs of the message strings are left out. *)
Definition predict_resource_exhaustion (current_resources : pyval) : pyval :=
  try_except_all
    (match current_resources with
     | VNone =>
         Ok (VDict
               [("error", VStr "No resource data provided");
                ("predictions", VDict []);
                ("overall_risk",
                 VDict [("overall_risk_level", VStr "UNKNOWN")]);
                ("recommendations",
                 VList [VStr "No resource data available"]);
                ("optimization_suggestions", VList [])])
     | VDict current_resources =>
         let predictions := [] in
         let predictions :=
           dict_set "cpu"
             (predict_field current_resources "cpu" _predict_cpu_exhaustion
                "CPU data not available") predictions in
         let predictions :=
           dict_set "memory"
             (predict_field current_resources "memory"
                _predict_memory_exhaustion "Memory data not available")
             predictions in
         let predictions :=
           dict_set "storage"
             (predict_field current_resources "storage"
                _predict_storage_exhaustion "Storage data not available")
             predictions in
         let predictions :=
           dict_set "queues"
             (predict_field current_resources "lsf"
                _predict_queue_exhaustion "Queue data not available")
             predictions in
         let overall_risk := _assess_overall_risk predictions in
         Ok (VDict
               [("predictions", VDict predictions);
                ("overall_risk", overall_risk);
                ("recommendations",
                 VList (_get_exhaustion_recommendations predictions
                          overall_risk));
                ("optimization_suggestions",
                 VList (_get_optimization_suggestions predictions))])
     | _ =>
         Ok (VDict
               [("error", VStr "Invalid resource data format");
                ("predictions", VDict []);
                ("overall_risk",
                 VDict [("overall_risk_level", VStr "UNKNOWN")]);
                ("recommendations",
                 VList [VStr "Invalid resource data format"]);
                ("optimization_suggestions", VList [])])
     end)
    (fun e =>
       VDict
         [("error", VStr e);
          ("predictions", VDict []);
          ("overall_risk", VDict [("overall_risk_level", VStr "UNKNOWN")]);
          ("recommendations",
           VList [VStr "Error occurred during prediction"]);
          ("optimization_suggestions", VList [])]).

End Predictor.

End ResourceExhaustionPredictor.

(** ** scripts/resource_manager.py *)

Module ResourceManager.
Local Open Scope Q_scope.

(** *** Data *)

Record JobRequirements : Type := {
  req_cpus : Z;
  req_memory_gb : Z;
  req_walltime_hours : Q;
  req_storage_gb : Q;
  req_priority : Z;
  queue_preference : option string
}.

Record ResourceAllocation : Type := {
  cpus : Z;
  memory_gb : Z;
  walltime_hours : Q;
  queue : string;
  estimated_cost : Q;
  estimated_duration_hours : Q;
  success_probability : Q
}.

(** One entry of [config["hpc_environment"]["queues"]].  The code reads
    [cost_per_cpu_hour] with [.get] and a default, every other key with
    a subscript. *)
Record QueueConfig : Type := {
  max_jobs : Z;
  max_cpu_per_job : Z;
  max_memory_per_job : Z;
  max_walltime_hours : Q;
  cost_per_cpu_hour : option Q;
  queue_priority : Z;
  speed_factor : Q
}.

(** One entry of [config["optimization"]["chunk_strategies"]]. *)
Record ChunkStrategy : Type := {
  max_chunk_size : Z;
  storage_threshold : Q;
  strategy_priority : string
}.

(** [config["optimization"]["cost_optimization"]] *)
Record CostOptimization : Type := {
  max_cost_per_job : Q;
  cost_weight : Q;
  time_weight : Q;
  reliability_weight : Q
}.

Record Config : Type := {
  queues : list (string * QueueConfig);
  chunk_strategies : list (string * ChunkStrategy);
  cost_optimization : CostOptimization
}.

(** The [default_config] of [load_config]. *)
Definition default_config : Config := {|
  queues :=
    [("normal",
      {| max_jobs := 100; max_cpu_per_job := 16; max_memory_per_job := 256;
         max_walltime_hours := 168; cost_per_cpu_hour := Some 0.1;
         queue_priority := 1; speed_factor := 1.0 |});
     ("hiprio",
      {| max_jobs := 50; max_cpu_per_job := 32; max_memory_per_job := 512;
         max_walltime_hours := 72; cost_per_cpu_hour := Some 0.2;
         queue_priority := 2; speed_factor := 1.5 |});
     ("long",
      {| max_jobs := 20; max_cpu_per_job := 8; max_memory_per_job := 128;
         max_walltime_hours := 720; cost_per_cpu_hour := Some 0.05;
         queue_priority := 3; speed_factor := 0.7 |});
     ("gpu",
      {| max_jobs := 10; max_cpu_per_job := 16; max_memory_per_job := 256;
         max_walltime_hours := 48; cost_per_cpu_hour := Some 0.5;
         queue_priority := 4; speed_factor := 2.0 |})];
  chunk_strategies :=
    [("storage_optimized",
      {| max_chunk_size := 500; storage_threshold := 0.85;
         strategy_priority := "storage_efficiency" |});
     ("time_optimized",
      {| max_chunk_size := 2000; storage_threshold := 0.95;
         strategy_priority := "speed" |});
     ("cost_optimized",
      {| max_chunk_size := 1000; storage_threshold := 0.90;
         strategy_priority := "cost_efficiency" |});
     ("balanced",
      {| max_chunk_size := 1000; storage_threshold := 0.90;
         strategy_priority := "balanced" |})];
  cost_optimization :=
    {| max_cost_per_job := 100.0; cost_weight := 0.3; time_weight := 0.4;
       reliability_weight := 0.3 |}
|}.

(** One line of [bqueues -w] as [_get_lsf_queue_info] keeps it. *)
Record QueueStatus : Type := {
  pending : Z;
  running : Z;
  suspended : Z;
  status_max_jobs : Z;
  cpu_limit : Z
}.

(** What [get_current_resources] reads from [psutil] and from LSF. *)
Record HostReadings : Type := {
  cpu_count : Z;
  cpu_percent : Q;
  memory_total : Z;
  memory_available : Z;
  memory_percent : Q;
  disk_total : Z;
  disk_used : Z;
  disk_free : Z;
  lsf_info : list (string * QueueStatus);
  network_info : list (string * Z)
}.

(** The [resources] dictionary built by [get_current_resources]. *)
Record Resources : Type := {
  res_timestamp : string;
  cpu_total : Z;
  cpu_usage_percent : Q;
  cpu_available : Z;
  memory_total_gb : Q;
  memory_available_gb : Q;
  memory_usage_percent : Q;
  storage_total_gb : Q;
  storage_used_gb : Q;
  storage_free_gb : Q;
  storage_usage_percent : Q;
  lsf : list (string * QueueStatus);
  network : list (string * Z)
}.

(** The ["requirements"] part of a job history record: the preferred queue
    is not among the recorded fields. *)
Record RecordedRequirements : Type := {
  rec_cpus : Z;
  rec_memory_gb : Z;
  rec_walltime_hours : Q;
  rec_storage_gb : Q;
  rec_priority : Z
}.

Record JobRecord : Type := {
  timestamp : string;
  requirements : RecordedRequirements;
  allocation : ResourceAllocation
}.

(** [self.history]; [queue_performance] and [cost_history] are never
    written and are left out. *)
Record History : Type := {
  job_history : list JobRecord;
  resource_usage : list Resources
}.

(** [l[-n:]] for a positive [n] *)
Definition last_n {A} (n : nat) (l : list A) : list A :=
  skipn (List.length l - n) l.

(** [l.append(x)] followed by
    [if len(l) > 1000: l = l[-1000:]]. *)
Definition append_capped {A} (l : list A) (x : A) : list A :=
  let l := (l ++ [x])%list in
  if (1000 <? List.length l)%nat then last_n 1000 l else l.

(** [x / y] on floats that are finite. *)
Definition Qdiv_py (x y : Q) : result Q :=
  if Qeq_bool y 0 then Raise "ZeroDivisionError" else Ok (x / y).

(** *** AdvancedQueueManager *)

Definition get_available_queues (config : Config)
    (requirements : JobRequirements) : list string :=
  map fst
    (filter
       (fun '(queue_name, queue_config) =>
          (req_cpus requirements <=? max_cpu_per_job queue_config)%Z &&
          (req_memory_gb requirements <=? max_memory_per_job queue_config)%Z &&
          Qle_bool (req_walltime_hours requirements)
            (max_walltime_hours queue_config))
       (queues config)).

Definition get_total_queue_capacity (config : Config) : Z :=
  fold_left
    (fun total_capacity '(_, queue_config) =>
       (total_capacity + max_jobs queue_config)%Z)
    (queues config) 0%Z.

(** *** ResourcePredictor *)

Definition _get_queue_speed_factor (queue : string) : Q :=
  dict_get_default queue 1.0
    [("normal", 1.0); ("hiprio", 0.7); ("long", 1.5); ("gpu", 0.5)].

Definition _get_queue_reliability (queue : string) : Q :=
  dict_get_default queue 0.95
    [("normal", 0.95); ("hiprio", 0.98); ("long", 0.90); ("gpu", 0.85)].

(** [z * x] for an [int] and a float: the [int] is converted first, and
    one beyond the range of a float is an [OverflowError]. *)
Definition int_times_float (z : Z) (x : Q) : result Q :=
  if float_overflows (inject_Z z) then Raise "OverflowError"
  else Ok (inject_Z z * x).

Definition predict_job_duration (requirements : JobRequirements)
    (cpus memory_gb : Z) (queue : string) : result Q :=
  cpu_capacity <- int_times_float cpus 0.1 ;;
  base_duration <- Qdiv_py (req_storage_gb requirements) cpu_capacity ;;
  let queue_factor := _get_queue_speed_factor queue in
  Ok (base_duration * queue_factor).

Definition predict_job_success_probability (requirements : JobRequirements)
    (cpus memory_gb : Z) (queue : string) : result Q :=
  cpu_ratio <- Qdiv_py (inject_Z cpus) (inject_Z (req_cpus requirements)) ;;
  let cpu_adequacy := Qmin 1.0 cpu_ratio in
  memory_ratio <-
    Qdiv_py (inject_Z memory_gb) (inject_Z (req_memory_gb requirements)) ;;
  let memory_adequacy := Qmin 1.0 memory_ratio in
  let base_probability := (cpu_adequacy + memory_adequacy) / 2 in
  let queue_reliability := _get_queue_reliability queue in
  Ok (base_probability * queue_reliability).

(** [np.mean] of a non-empty list of integers. *)
Definition mean (l : list Z) : Q :=
  inject_Z (fold_left Z.add l 0%Z) / inject_Z (Z.of_nat (List.length l)).

Definition predict_optimal_chunk_size (history : History)
    (total_samples : Z) (strategy : string) : Z :=
  match job_history history with
  | [] => 1000%Z
  | _ :: _ =>
      let recent_jobs := last_n 100 (job_history history) in
      let similar_jobs :=
        filter
          (fun job => Qlt_bool 0 (rec_storage_gb (requirements job)))
          recent_jobs in
      match similar_jobs with
      | _ :: _ =>
          let avg_chunk_size :=
            mean (map (fun job => (cpus (allocation job) * 100)%Z)
                    similar_jobs) in
          Qtrunc avg_chunk_size
      | [] => 1000%Z
      end
  end.

(** *** CostOptimizer *)

Definition estimate_job_cost (config : Config) (cpus memory_gb : Z)
    (walltime_hours : Q) (queue : string) : Q :=
  let cost_per_cpu_hour :=
    match dict_get queue (queues config) with
    | Some queue_config =>
        match cost_per_cpu_hour queue_config with
        | Some c => c
        | None => 0.1
        end
    | None => 0.1
    end in
  let base_cost := inject_Z cpus * walltime_hours * cost_per_cpu_hour in
  let memory_factor := 1 + (inject_Z memory_gb / 128) * 0.1 in
  base_cost * memory_factor.

Definition calculate_cost_optimal_chunk_size (total_samples : Z) : Z :=
  Z.min 2000 (Z.max 500 (total_samples / 20)).

(** *** AdvancedResourceManager *)

Section Manager.

(** What the host answers to the probes of [get_current_resources], or the
    exception one of them raises. *)
Variable probe : result HostReadings.
(** The clock, [datetime.now().isoformat()]; one reading stands for the
    calls made during one operation. *)
Variable now : string.

Variable config : Config.

(** The dictionary that [get_current_resources] builds from the readings. *)
Definition build_resources (r : HostReadings) : result Resources :=
  let GiB := inject_Z (1024 ^ 3) in
  used_fraction <- Qdiv_py (inject_Z (disk_used r)) (inject_Z (disk_total r)) ;;
  Ok {| res_timestamp := now;
        cpu_total := cpu_count r;
        cpu_usage_percent := cpu_percent r;
        cpu_available :=
          Z.max 0
            (cpu_count r
             - Qtrunc (inject_Z (cpu_count r) * cpu_percent r / 100));
        memory_total_gb := inject_Z (memory_total r) / GiB;
        memory_available_gb := inject_Z (memory_available r) / GiB;
        memory_usage_percent := memory_percent r;
        storage_total_gb := inject_Z (disk_total r) / GiB;
        storage_used_gb := inject_Z (disk_used r) / GiB;
        storage_free_gb := inject_Z (disk_free r) / GiB;
        storage_usage_percent := used_fraction * 100;
        lsf := lsf_info r;
        network := network_info r |}.

(** [get_current_resources]: the sample, [None] when sensing raised, and
    the history after the call. *)
Definition get_current_resources (history : History)
    : option Resources * History :=
  match (r <- probe ;; build_resources r) with
  | Ok resources =>
      (Some resources,
       {| job_history := job_history history;
          resource_usage :=
            append_capped (resource_usage history) resources |})
  | Raise _ => (None, history)
  end.

Definition min_chunk_size : Z := 100.
Definition storage_per_sample_gb : Q := 0.15.

Definition calculate_optimal_chunk_size (total_samples : Z)
    (strategy : string) (history : History) : result Z * History :=
  let '(current_resources, history) := get_current_resources history in
  (match current_resources with
   | None =>
       match dict_get "balanced" (chunk_strategies config) with
       | Some balanced => Ok (max_chunk_size balanced)
       | None => Raise "KeyError"
       end
   | Some current_resources =>
       match dict_get strategy (chunk_strategies config) with
       | None => Raise "KeyError"
       | Some strategy_config =>
           let available_storage_gb := storage_free_gb current_resources in
           let max_samples_by_storage :=
             Qtrunc (available_storage_gb * storage_threshold strategy_config
                     / storage_per_sample_gb) in
           let queue_capacity := get_total_queue_capacity config in
           let max_samples_by_queue :=
             (queue_capacity * max_chunk_size strategy_config)%Z in
           let available_cpus := cpu_available current_resources in
           let max_samples_by_cpu := (available_cpus * 20)%Z in
           let optimal_cost_chunk :=
             calculate_cost_optimal_chunk_size total_samples in
           let predicted_optimal :=
             predict_optimal_chunk_size history total_samples strategy in
           let optimal_samples :=
             Z.min max_samples_by_storage
               (Z.min max_samples_by_queue
                  (Z.min max_samples_by_cpu
                     (Z.min optimal_cost_chunk
                        (Z.min predicted_optimal
                           (max_chunk_size strategy_config))))) in
           let optimal_samples := Z.max optimal_samples min_chunk_size in
           Ok optimal_samples
       end
   end, history).

(** One turn of the loop of [_calculate_optimal_allocation]. *)
Definition consider_queue (requirements : JobRequirements)
    (best : option ResourceAllocation * option Q) (queue_name : string)
    : result (option ResourceAllocation * option Q) :=
  let '(best_allocation, best_score) := best in
  match dict_get queue_name (queues config) with
  | None => Raise "KeyError"
  | Some queue_config =>
      let cpus := Z.min (req_cpus requirements) (max_cpu_per_job queue_config) in
      let memory_gb :=
        Z.min (req_memory_gb requirements) (max_memory_per_job queue_config) in
      let walltime_hours :=
        Qmin (req_walltime_hours requirements)
          (max_walltime_hours queue_config) in
      let estimated_cost :=
        estimate_job_cost config cpus memory_gb walltime_hours queue_name in
      estimated_duration <-
        predict_job_duration requirements cpus memory_gb queue_name ;;
      success_prob <-
        predict_job_success_probability requirements cpus memory_gb
          queue_name ;;
      let opt := cost_optimization config in
      let score :=
        cost_weight opt * estimated_cost
        + time_weight opt * estimated_duration
        + reliability_weight opt * (1 - success_prob) in
      let better :=
        match best_score with
        | None => true
        | Some best_score => Qlt_bool score best_score
        end in
      if better then
        Ok (Some {| cpus := cpus;
                    memory_gb := memory_gb;
                    walltime_hours := walltime_hours;
                    queue := queue_name;
                    estimated_cost := estimated_cost;
                    estimated_duration_hours := estimated_duration;
                    success_probability := success_prob |},
            Some score)
      else Ok (best_allocation, best_score)
  end.

(** [_calculate_optimal_allocation]; [best_score] starts at
    [float('inf')], which is [None] here, and the result is [None] when
    no queue was accepted. *)
Definition _calculate_optimal_allocation (requirements : JobRequirements)
    (resources : option Resources) : result (option ResourceAllocation) :=
  let available_queues := get_available_queues config requirements in
  '(best_allocation, _) <-
    fold_result (consider_queue requirements) available_queues (None, None) ;;
  Ok best_allocation.

(** [_validate_allocation]; reading [allocation.estimated_cost] on
    [None] is an [AttributeError]. *)
Definition _validate_allocation (allocation : option ResourceAllocation)
    (resources : option Resources) : result ResourceAllocation :=
  match allocation with
  | None => Raise "AttributeError"
  | Some allocation =>
      if Qlt_bool (max_cost_per_job (cost_optimization config))
           (estimated_cost allocation)
      then
        let cpus' := Z.max 1 (cpus allocation / 2) in
        let memory_gb' := Z.max 8 (memory_gb allocation / 2) in
        Ok {| cpus := cpus';
              memory_gb := memory_gb';
              walltime_hours := walltime_hours allocation;
              queue := queue allocation;
              estimated_cost :=
                estimate_job_cost config cpus' memory_gb'
                  (walltime_hours allocation) (queue allocation);
              estimated_duration_hours :=
                estimated_duration_hours allocation;
              success_probability := success_probability allocation |}
      else Ok allocation
  end.

Definition _record_allocation (requirements : JobRequirements)
    (allocation : ResourceAllocation) (history : History) : History :=
  let record :=
    {| timestamp := now;
       requirements :=
         {| rec_cpus := req_cpus requirements;
            rec_memory_gb := req_memory_gb requirements;
            rec_walltime_hours := req_walltime_hours requirements;
            rec_storage_gb := req_storage_gb requirements;
            rec_priority := req_priority requirements |};
       allocation := allocation |} in
  {| job_history := append_capped (job_history history) record;
     resource_usage := resource_usage history |}.

(** [allocate_resources]: the allocation or the exception that reaches the
    caller, and the history after the call. *)
Definition allocate_resources (job_requirements : JobRequirements)
    (history : History) : result ResourceAllocation * History :=
  let '(current_resources, history) := get_current_resources history in
  match
    optimal_allocation <-
      _calculate_optimal_allocation job_requirements current_resources ;;
    _validate_allocation optimal_allocation current_resources
  with
  | Ok validated_allocation =>
      (Ok validated_allocation,
       _record_allocation job_requirements validated_allocation history)
  | Raise e => (Raise e, history)
  end.

End Manager.

End ResourceManager.

(** ** scripts/resource_manager.py: the other methods of the manager *)

Module AdvancedResourceManager.
Import ResourceManager.
Local Open Scope Q_scope.

(** [_merge_config(default, current)]: the dictionary [current] after the
    call, which updates it in place.  [default] is a dictionary at every
    call, the other case is not reached. *)
Fixpoint _merge_config (default : pyval) (current : list (string * pyval))
    {struct default} : list (string * pyval) :=
  match default with
  | VDict items =>
      (fix loop (items current : list (string * pyval)) {struct items}
         : list (string * pyval) :=
         match items with
         | [] => current
         | (key, value) :: items' =>
             loop items'
               match dict_get key current with
               | None => dict_set key value current
               | Some (VDict nested) =>
                   match value with
                   | VDict _ =>
                       dict_set key (VDict (_merge_config value nested))
                         current
                   | _ => current
                   end
               | Some _ => current
               end
         end) items current
  | _ => current
  end.

(** What [os.statvfs(path)] answers. *)
Record StatVfs : Type := {
  f_frsize : Z;
  f_blocks : Z;
  f_bavail : Z
}.

Section Reports.

Variable float_of_str : string -> option pyfloat.
Variable int_of_str : string -> option Z.
Variable probe : result HostReadings.
Variable now : string.

(** [predict_storage_failure(path)] of the manager: the usage fraction of
    the file system and the fixed growth estimate of 5% per hour are handed
    to the storage predictor.  The fields of [statvfs] are machine words,
    so the quotient of the two sizes is within the range of a float. *)
Definition predict_storage_failure (statvfs : result StatVfs)
    (io_error_rate : Z) (check_disk_health : result pyval) : pyval :=
  try_except_all
    (statvfs <- statvfs ;;
     let total_space := (f_frsize statvfs * f_blocks statvfs)%Z in
     let free_space := (f_frsize statvfs * f_bavail statvfs)%Z in
     let used_space := (total_space - free_space)%Z in
     usage_percent <- fdiv (of_Z used_space) (of_Z total_space) ;;
     let growth_rate := 0.05 in
     Ok (StorageFailurePredictor.predict_storage_failure float_of_str
           io_error_rate check_disk_health (VFloat usage_percent)
           (VFloat (FFin growth_rate))))
    (fun e => VDict [("error", VStr e)]).

(** One entry of [current_resources['lsf']] as a dictionary. *)
Definition queue_status_dict (q : QueueStatus) : pyval :=
  VDict [("pending", VInt (pending q));
         ("running", VInt (running q));
         ("suspended", VInt (suspended q));
         ("max_jobs", VInt (status_max_jobs q));
         ("cpu_limit", VInt (cpu_limit q))].

(** The [formatted_resources] of [predict_resource_exhaustion];
    subscripting [None] is a [TypeError]. *)
Definition format_resources (current_resources : option Resources)
    : result pyval :=
  match current_resources with
  | None => Raise "TypeError"
  | Some r =>
      Ok (VDict
            [("cpu",
              VDict [("usage_percent", VFloat (FFin (cpu_usage_percent r)));
                     ("available", VInt (cpu_available r))]);
             ("memory",
              VDict [("usage_percent",
                      VFloat (FFin (memory_usage_percent r)));
                     ("available_gb",
                      VFloat (FFin (memory_available_gb r)))]);
             ("storage",
              VDict [("usage_percent",
                      VFloat (FFin (storage_usage_percent r)));
                     ("free_gb", VFloat (FFin (storage_free_gb r)))]);
             ("lsf",
              VDict (map (fun '(name, q) => (name, queue_status_dict q))
                       (lsf r)))])
  end.

(** [predict_resource_exhaustion()] of the manager: the answer and the
    history after the call. *)
Definition predict_resource_exhaustion (history : History)
    : pyval * History :=
  let '(current_resources, history) :=
    get_current_resources probe now history in
  (try_except_all
     (formatted_resources <- format_resources current_resources ;;
      Ok (ResourceExhaustionPredictor.predict_resource_exhaustion
            float_of_str int_of_str formatted_resources))
     (fun e => VDict [("error", VStr e)]),
   history).

End Reports.

End AdvancedResourceManager.

(** ** scripts/resource_manager.py: WorkloadBalancer *)

Module WorkloadBalancer.
Import ResourceManager.

(** The sort key [(x.priority, x.cpus, x.memory_gb)]. *)
Definition key (x : JobRequirements) : Z * Z * Z :=
  (req_priority x, req_cpus x, req_memory_gb x).

(** [a <= b] on key tuples: the order of the first component that
    differs. *)
Definition key_leb (a b : Z * Z * Z) : bool :=
  let '(a1, a2, a3) := a in
  let '(b1, b2, b3) := b in
  if a1 <? b1 then true
  else if b1 <? a1 then false
  else if a2 <? b2 then true
  else if b2 <? a2 then false
  else a3 <=? b3.

(** The place of [x] among jobs that followed it in the input: before the
    first one whose key is not smaller, as a stable sort puts it. *)
Fixpoint insert_job (x : JobRequirements) (l : list JobRequirements)
    : list JobRequirements :=
  match l with
  | [] => [x]
  | y :: l' =>
      if key_leb (key x) (key y) then x :: y :: l'
      else y :: insert_job x l'
  end.

(** The builtin [sorted(jobs, key=...)], a stable sort. *)
Fixpoint sorted_by_key (jobs : list JobRequirements) : list JobRequirements :=
  match jobs with
  | [] => []
  | x :: l => insert_job x (sorted_by_key l)
  end.

Definition balance_workload (pending_jobs : list JobRequirements)
    : list JobRequirements :=
  sorted_by_key pending_jobs.

End WorkloadBalancer.

(** ** run.py: the chunk manifests of [create_chunks] *)

Module Run.

(** [l[start:stop]] with the builtin's reading of negative and
    out-of-range indices. *)
Definition py_slice {A} (l : list A) (start stop : Z) : list A :=
  let n := Z.of_nat (List.length l) in
  let clip i := if i <? 0 then Z.max 0 (i + n) else Z.min i n in
  let start := clip start in
  let stop := clip stop in
  firstn (Z.to_nat (stop - start)) (skipn (Z.to_nat start) l).

(** [range(n)] *)
Definition range (n : Z) : list Z := map Z.of_nat (seq 0 (Z.to_nat n)).

(** One entry of [chunk_status]; [chunk_number] is the number that
    [chunk_id] prints, and the fields that are constant at creation are
    left out. *)
Record ChunkStatus : Type := {
  chunk_number : Z;
  start_idx : Z;
  end_idx : Z;
  sample_count : Z
}.

(** The part of [create_chunks] that cuts the manifest: each chunk's rows
    and its status entry.  The storage estimate divides by the number of
    samples before anything is cut. *)
Definition create_chunks {A} (samples : list A) (optimal_chunk_size : Z)
    : result (list (list A * ChunkStatus)) :=
  let total_samples := Z.of_nat (List.length samples) in
  if total_samples =? 0 then Raise "ZeroDivisionError"
  else if optimal_chunk_size =? 0 then Raise "ZeroDivisionError"
  else
    let total_chunks :=
      (total_samples + optimal_chunk_size - 1) / optimal_chunk_size in
    Ok (map
          (fun chunk_idx =>
             let start_idx := chunk_idx * optimal_chunk_size in
             let end_idx :=
               Z.min (start_idx + optimal_chunk_size) total_samples in
             let chunk_samples := py_slice samples start_idx end_idx in
             (chunk_samples,
              {| chunk_number := chunk_idx + 1;
                 start_idx := start_idx + 1;
                 end_idx := end_idx;
                 sample_count := Z.of_nat (List.length chunk_samples) |}))
          (range total_chunks)).

End Run.

(** * Statements of the specification *)

(** The statements below are the sentences of the specification written over
    the embedding; the theorems that follow settle each of them. *)

Module Spec.
Import ResourceManager.
Local Open Scope Q_scope.

(** The storage scenario: risk level CRITICAL and probability at least
    0.9 in the dictionary [r] returned for usage 0.996 and growth 0.05. *)
Definition storage_scenario (r : pyval) : Prop :=
  match r with
  | VDict d =>
      dict_get "risk_level" d = Some (VStr "CRITICAL") /\
      exists p, dict_get "failure_probability" d = Some (VFloat (FFin p)) /\
                0.9 <= p
  | _ => False
  end.

(** What [predict_storage_failure] returns for usage 0.996 and growth
    0.05 when no IO errors are read and the disk check answers [health]. *)
Definition storage_scenario_result (float_of_str : string -> option pyfloat)
    (health : pyval) : pyval :=
  StorageFailurePredictor.predict_storage_failure float_of_str 0%Z
    (Ok health) (VFloat (FFin 0.996)) (VFloat (FFin 0.05)).

(** A reported time that is neither zero nor negative. *)
Definition strictly_positive (t : pyfloat) : Prop := flt (FFin 0) t = true.

(** A reported time that is not negative. *)
Definition not_negative (t : pyfloat) : Prop := fle (FFin 0) t = true.

(** The multiplier of the duration formula as the predictor has it. *)
Definition duration_factor (queue : string) : Q :=
  if String.eqb queue "hiprio" then 0.7
  else if String.eqb queue "long" then 1.5
  else if String.eqb queue "gpu" then 0.5
  else 1.0.

(** The request of the test in [main]: 8 cpus, 128 GB, 72 hours, 5 GB. *)
Definition test_requirements : JobRequirements :=
  {| req_cpus := 8; req_memory_gb := 128; req_walltime_hours := 72;
     req_storage_gb := 5.0; req_priority := 1; queue_preference := None |}.

(** A request for more cpus than any default queue grants. *)
Definition oversized_requirements : JobRequirements :=
  {| req_cpus := 64; req_memory_gb := 128; req_walltime_hours := 72;
     req_storage_gb := 5.0; req_priority := 1; queue_preference := None |}.

(** A host with ample room: 64 idle cpus and 512 TiB of free disk. *)
Definition ample_host : HostReadings :=
  {| cpu_count := 64; cpu_percent := 10;
     memory_total := 2 ^ 40; memory_available := 2 ^ 39;
     memory_percent := 50;
     disk_total := 2 ^ 50; disk_used := 2 ^ 40; disk_free := 2 ^ 49;
     lsf_info := []; network_info := [] |}.

Definition empty_history : History :=
  {| job_history := []; resource_usage := [] |}.

(** The requirement exceeds one of the per-job caps of the queue. *)
Definition exceeds_caps (requirements : JobRequirements)
    (queue_config : QueueConfig) : Prop :=
  (max_cpu_per_job queue_config < req_cpus requirements)%Z \/
  (max_memory_per_job queue_config < req_memory_gb requirements)%Z \/
  max_walltime_hours queue_config < req_walltime_hours requirements.

(** The feasible set is empty: every configured queue has a cap that the
    requirement exceeds. *)
Definition no_feasible_queue (config : Config)
    (requirements : JobRequirements) : Prop :=
  Forall (fun entry => exceeds_caps requirements (snd entry))
    (queues config).

(** The history list [after] is [before] with [x] appended under the cap of
    1000: it holds at most 1000 entries, no more were dropped than the cap
    demands, and it is what remains of [before ++ [x]] once the entries
    [evicted] at the old end are removed, in the same order. *)
Definition fifo_capped {A} (before : list A) (x : A) (after : list A)
    : Prop :=
  (List.length after <= 1000)%nat /\
  List.length after = Nat.min 1000 (List.length before + 1) /\
  exists evicted, (before ++ [x])%list = (evicted ++ after)%list.

(** Two requests that agree on every field but the preferred queue. *)
Definition same_but_preference (r1 r2 : JobRequirements) : Prop :=
  req_cpus r1 = req_cpus r2 /\
  req_memory_gb r1 = req_memory_gb r2 /\
  req_walltime_hours r1 = req_walltime_hours r2 /\
  req_storage_gb r1 = req_storage_gb r2 /\
  req_priority r1 = req_priority r2.

(** The allocation stays within the per-job maxima of the profile of its
    chosen queue. *)
Definition within_caps (config : Config) (a : ResourceAllocation) : Prop :=
  exists profile,
    dict_get (queue a) (queues config) = Some profile /\
    (cpus a <= max_cpu_per_job profile)%Z /\
    (memory_gb a <= max_memory_per_job profile)%Z /\
    walltime_hours a <= max_walltime_hours profile.

(** What the loop of [_calculate_optimal_allocation] keeps true of its
    best candidate. *)
Definition best_within_caps (config : Config)
    (best : option ResourceAllocation * option Q) : Prop :=
  match fst best with
  | None => True
  | Some a => within_caps config a
  end.

(** A configuration with one queue that grants at most 4 GB per job; the
    cost ceiling and the weights are the default ones. *)
Definition small_memory_config : Config :=
  {| queues :=
       [("express",
         {| max_jobs := 10; max_cpu_per_job := 64; max_memory_per_job := 4;
            max_walltime_hours := 168; cost_per_cpu_hour := Some 0.1;
            queue_priority := 1; speed_factor := 1.0 |})];
     chunk_strategies := chunk_strategies default_config;
     cost_optimization := cost_optimization default_config |}.

(** A request that fits that queue and costs more than the ceiling of 100:
    32 cpus for 100 hours with 4 GB. *)
Definition small_memory_requirements : JobRequirements :=
  {| req_cpus := 32; req_memory_gb := 4; req_walltime_hours := 100;
     req_storage_gb := 5.0; req_priority := 1; queue_preference := None |}.

(** The [risk_level] field of a prediction object, if it has one. *)
Definition risk_level_of (o : pyval) : option pyval :=
  match o with
  | VDict d => dict_get "risk_level" d
  | _ => None
  end.

(** [predictions[resource]] in the dictionary returned by
    [predict_resource_exhaustion]. *)
Definition resource_prediction (r : pyval) (resource : string)
    : option pyval :=
  match r with
  | VDict d =>
      match dict_get "predictions" d with
      | Some (VDict predictions) => dict_get resource predictions
      | _ => None
      end
  | _ => None
  end.

(** The per-queue entries of the returned dictionary: the dictionaries
    stored under [predictions["queues"]]. *)
Definition queue_entries (r : pyval) : list pyval :=
  match resource_prediction r "queues" with
  | Some (VDict entries) =>
      flat_map (fun '(_, e) => match e with
                               | VDict _ => [e]
                               | _ => []
                               end) entries
  | _ => []
  end.

(** Every prediction object of the returned dictionary: the entries for
    cpu, memory and storage, and the per-queue entries. *)
Definition prediction_objects (r : pyval) : list pyval :=
  (flat_map (fun resource => match resource_prediction r resource with
                             | Some o => [o]
                             | None => []
                             end) ["cpu"; "memory"; "storage"]
   ++ queue_entries r)%list.

(** The object carries a [risk_level] field. *)
Definition carries_risk_level (o : pyval) : Prop :=
  has_key "risk_level" o = true.

(** The object carries an [error] field. *)
Definition carries_error (o : pyval) : Prop :=
  has_key "error" o = true.

(** What a resource predictor answers on [info]: a risk level always, and
    UNKNOWN when [info] is not a dictionary. *)
Definition answers_risk (info o : pyval) : Prop :=
  exists s,
    risk_level_of o = Some (VStr s) /\
    match info with
    | VDict _ => True
    | _ => s = "UNKNOWN"
    end.

(** An object that holds an [error] field and no [risk_level]. *)
Definition error_only (o : pyval) : Prop :=
  risk_level_of o = None /\ carries_error o.

(** The object that holds nothing but the field [error] with [message]. *)
Definition error_object (message : string) : pyval :=
  VDict [("error", VStr message)].

(** What the predictor stores for a queue whose datum is [queue_data].  A
    datum that is no dictionary gives the object of the error
    [Invalid queue data].  A dictionary gives its three counts, and then a
    risk level when the utilization [(running + pending) / max_jobs] is
    within the range of a float, the object of the [OverflowError] of that
    division when it is not. *)
Definition queue_answer (int_of_str : string -> option Z)
    (queue_data e : pyval) : Prop :=
  match queue_data with
  | VDict d =>
      exists pending running max_jobs : Z,
        ResourceExhaustionPredictor.queue_counts int_of_str d
        = Ok (pending, running, max_jobs) /\
        (0 <= pending)%Z /\ (0 <= running)%Z /\ (1 <= max_jobs)%Z /\
        if float_overflows (inject_Z (running + pending) / inject_Z max_jobs)
        then e = error_object "OverflowError"
        else exists s, risk_level_of e = Some (VStr s)
  | _ => e = error_object "Invalid queue data"
  end.

End Spec.

(** * Statements about the rest of the code *)

Module Props.
Import ResourceManager.
Local Open Scope Q_scope.

(** The field [k] of a returned dictionary. *)
Definition field (k : string) (o : pyval) : option pyval :=
  match o with
  | VDict d => dict_get k d
  | _ => None
  end.

(** A finite float between 0 and 1. *)
Definition unit_interval (f : pyfloat) : Prop :=
  exists p, f = FFin p /\ 0 <= p <= 1.

(** A finite float between [lo] and [hi]. *)
Definition between (lo hi : Q) (f : pyfloat) : Prop :=
  exists t, f = FFin t /\ lo <= t <= hi.

(** The score that [_assess_overall_risk] gives to a level. *)
Definition level_score (level : string) : Z :=
  dict_get_default level 1%Z ResourceExhaustionPredictor.risk_scores.

(** One of the four levels that [_get_risk_level] can answer. *)
Definition graded (level : string) : Prop :=
  level = "LOW" \/ level = "MODERATE" \/ level = "HIGH" \/
  level = "CRITICAL".

(** A collected risk that is one of the four levels. *)
Definition graded_risk (risk : pyval) : Prop :=
  exists level, risk = VStr level /\ graded level.

(** The score of a collected risk that is a string. *)
Definition risk_score_of (risk : pyval) : Z :=
  match risk with
  | VStr level => level_score level
  | _ => 1%Z
  end.

(** One turn of the loop of [_merge_config]. *)
Definition merge_entry (current : list (string * pyval))
    (item : string * pyval) : list (string * pyval) :=
  let '(key, value) := item in
  match dict_get key current with
  | None => dict_set key value current
  | Some (VDict nested) =>
      match value with
      | VDict _ =>
          dict_set key
            (VDict (AdvancedResourceManager._merge_config value nested))
            current
      | _ => current
      end
  | Some _ => current
  end.

(** A value that is no dictionary. *)
Definition scalar (v : pyval) : Prop :=
  match v with
  | VDict _ => False
  | _ => True
  end.

(** The setting that a configuration holds under a path of keys, such as
    [optimization], [cost_optimization], [max_cost_per_job]. *)
Fixpoint lookup_path (path : list string) (v : pyval) : option pyval :=
  match path with
  | [] => Some v
  | k :: path' =>
      match v with
      | VDict d =>
          match dict_get k d with
          | Some v' => lookup_path path' v'
          | None => None
          end
      | _ => None
      end
  end.

(** The path runs in the configuration into a value that is no dictionary
    before it ends. *)
Fixpoint blocked (path : list string) (v : pyval) : bool :=
  match path with
  | [] => false
  | k :: path' =>
      match v with
      | VDict d =>
          match dict_get k d with
          | Some v' => blocked path' v'
          | None => false
          end
      | _ => true
      end
  end.

(** The value that one turn of the loop of [_merge_config] leaves under
    its key, given what the configuration held there. *)
Definition turn_value (loaded : option pyval) (value : pyval) : pyval :=
  match loaded with
  | None => value
  | Some (VDict nested) =>
      match value with
      | VDict _ =>
          VDict (AdvancedResourceManager._merge_config value nested)
      | _ => VDict nested
      end
  | Some x => x
  end.

(** A part of the default configuration: the cost settings of the
    optimization and two of the monitoring settings. *)
Definition default_settings : list (string * pyval) :=
  [("optimization",
    VDict [("cost_optimization",
            VDict [("max_cost_per_job", VFloat (FFin 100.0));
                   ("cost_weight", VFloat (FFin 0.3));
                   ("time_weight", VFloat (FFin 0.4));
                   ("reliability_weight", VFloat (FFin 0.3))])]);
   ("monitoring",
    VDict [("update_interval_seconds", VInt 30);
           ("history_retention_days", VInt 30)])].

(** A loaded configuration that sets its own cost ceiling and update
    interval and nothing else. *)
Definition loaded_settings : list (string * pyval) :=
  [("optimization",
    VDict [("cost_optimization",
            VDict [("max_cost_per_job", VInt 50)])]);
   ("monitoring", VDict [("update_interval_seconds", VInt 5)])].

(** The requirement is within the three per-job maxima of the profile. *)
Definition fits (requirements : JobRequirements) (profile : QueueConfig)
    : Prop :=
  (req_cpus requirements <= max_cpu_per_job profile)%Z /\
  (req_memory_gb requirements <= max_memory_per_job profile)%Z /\
  req_walltime_hours requirements <= max_walltime_hours profile.

(** The allocation that the selection loop builds for a request: the
    resources are the requested ones, the queue is a configured queue that
    the request fits, the cost is the estimate for these resources and the
    success probability is the reliability of the queue. *)
Definition as_requested (config : Config) (requirements : JobRequirements)
    (a : ResourceAllocation) : Prop :=
  cpus a = req_cpus requirements /\
  memory_gb a = req_memory_gb requirements /\
  walltime_hours a = req_walltime_hours requirements /\
  success_probability a == _get_queue_reliability (queue a) /\
  estimated_cost a
  = estimate_job_cost config (req_cpus requirements)
      (req_memory_gb requirements) (req_walltime_hours requirements)
      (queue a) /\
  exists profile,
    dict_get (queue a) (queues config) = Some profile /\
    fits requirements profile.

(** What the loop of [_calculate_optimal_allocation] keeps true of its
    best candidate when queue names are distinct. *)
Definition best_as_requested (config : Config)
    (requirements : JobRequirements)
    (best : option ResourceAllocation * option Q) : Prop :=
  match fst best with
  | None => True
  | Some a => as_requested config requirements a
  end.

(** The rate that [estimate_job_cost] charges on a queue. *)
Definition cost_rate (config : Config) (queue : string) : Q :=
  match dict_get queue (queues config) with
  | Some profile =>
      match cost_per_cpu_hour profile with
      | Some c => c
      | None => 0.1
      end
  | None => 0.1
  end.

(** The order in which [balance_workload] returns the jobs. *)
Definition in_key_order (a b : JobRequirements) : Prop :=
  WorkloadBalancer.key_leb (WorkloadBalancer.key a) (WorkloadBalancer.key b)
  = true.

(** A host of 64 cpus that answers with one queue, [normal], half full. *)
Definition one_queue_host : HostReadings :=
  {| cpu_count := 64; cpu_percent := 55;
     memory_total := 2 ^ 40; memory_available := 2 ^ 39;
     memory_percent := 50;
     disk_total := 1000; disk_used := 996; disk_free := 4;
     lsf_info :=
       [("normal",
         {| pending := 50; running := 0; suspended := 0;
            status_max_jobs := 100; cpu_limit := 0 |})];
     network_info := [] |}.

(** The two recommendations for a failure within 24 hours. *)
Definition urgent_recommendations : pyval :=
  VList [VStr "URGENT: Storage will fail within 24 hours";
         VStr "URGENT: Implement emergency cleanup procedures"].

(** An entry without error whose risk level is one of the four grades. *)
Definition graded_entry (o : pyval) : Prop :=
  exists level,
    Spec.risk_level_of o = Some (VStr level) /\
    graded level /\
    has_key "error" o = false.

End Props.

(** * Properties *)

Import ResourceManager.

Section FloatFacts.
Local Open Scope Q_scope.

Lemma Qlt_bool_iff (a b : Q) : Qlt_bool a b = true <-> a < b.
Proof.
  unfold Qlt_bool. rewrite negb_true_iff.
  split; intro H.
  - apply Qnot_le_lt. intro Hle. apply Qle_bool_iff in Hle. congruence.
  - destruct (Qle_bool b a) eqn:E; [|reflexivity].
    apply Qle_bool_iff in E. exfalso. exact (Qlt_not_le _ _ H E).
Qed.

Lemma Qlt_bool_false_iff (a b : Q) : Qlt_bool a b = false <-> b <= a.
Proof.
  unfold Qlt_bool. rewrite negb_false_iff. apply Qle_bool_iff.
Qed.

Lemma Qeq_bool_false_of_lt (a : Q) : 0 < a -> Qeq_bool a 0 = false.
Proof.
  intro H. destruct (Qeq_bool a 0) eqn:E; [|reflexivity].
  apply Qeq_bool_iff in E. rewrite E in H. discriminate H.
Qed.

Lemma pymax_not_negative (t : pyfloat) : Spec.not_negative (pymax (FFin 0) t).
Proof.
  unfold Spec.not_negative, pymax.
  destruct (flt (FFin 0) t) eqn:E; [|reflexivity].
  destruct t; simpl in *; try discriminate; try reflexivity.
  apply Qle_bool_iff. apply Qlt_le_weak. now apply Qlt_bool_iff.
Qed.

End FloatFacts.

(** ** StorageFailurePredictor *)

(** C1, as stated, fails: for usage 0.996 and growth rate 0.05 with no IO
    errors the prediction is neither CRITICAL nor of probability at least
    0.9. *)
Lemma C1_scenario_not_critical :
  ~ Spec.storage_scenario (Spec.storage_scenario_result (fun _ => None) VNone).
Proof.
  vm_compute. intros [H _]. discriminate H.
Qed.

(** C1, amended: for usage 0.996 and growth rate 0.05, with the IO-error
    term at zero, the storage failure prediction has risk level HIGH and
    failure probability exactly 0.7: only the usage term applies, the growth
    rate 0.05 does not exceed the 0.10 threshold of the growth term. *)
Theorem C1_scenario_high :
  forall float_of_str health,
  exists d,
    Spec.storage_scenario_result float_of_str health = VDict d /\
    dict_get "risk_level" d = Some (VStr "HIGH") /\
    dict_get "failure_probability" d = Some (VFloat (FFin 0.7)) /\
    StorageFailurePredictor._calculate_failure_probability 0%Z
      (FFin 0.996) (FFin 0.05) = FFin 0.7.
Proof.
  intros fos health. eexists. split; [|split; [|split]].
  - vm_compute. reflexivity.
  - reflexivity.
  - reflexivity.
  - reflexivity.
Qed.

(** ** Time to exhaustion *)

Section TimeEstimates.
Local Open Scope Q_scope.
Import StorageFailurePredictor ResourceExhaustionPredictor.

Lemma cpu_time_when_critical (u : Q) (available : Z) :
  0.95 <= u -> _estimate_cpu_exhaustion_time (FFin u) available = FFin 0.1.
Proof.
  intro Hu. unfold _estimate_cpu_exhaustion_time. simpl fle.
  apply Qle_bool_iff in Hu. now rewrite Hu.
Qed.

Lemma memory_time_when_critical (u : Q) (available_gb : pyfloat) :
  0.95 <= u ->
  _estimate_memory_exhaustion_time (FFin u) available_gb = FFin 0.1.
Proof.
  intro Hu. unfold _estimate_memory_exhaustion_time. simpl fle.
  apply Qle_bool_iff in Hu. now rewrite Hu.
Qed.

Lemma storage_time_when_critical (u : Q) (free_gb : pyfloat) :
  0.95 <= u ->
  _estimate_storage_exhaustion_time (FFin u) free_gb = FFin 0.1.
Proof.
  intro Hu. unfold _estimate_storage_exhaustion_time. simpl fle.
  apply Qle_bool_iff in Hu. now rewrite Hu.
Qed.

(** The storage failure estimate for finite arguments. *)
Lemma time_to_failure_cases (u g : Q) :
  (g <= 0 /\ _estimate_time_to_failure (FFin u) (FFin g) = Ok FInf) \/
  (0 < g /\
   _estimate_time_to_failure (FFin u) (FFin g)
   = Ok (pymax (FFin 0) (FFin ((1 - u - 0.02) / g)))).
Proof.
  unfold _estimate_time_to_failure. simpl fle.
  destruct (Qle_bool g 0) eqn:E.
  - left. split; [now apply Qle_bool_iff | reflexivity].
  - right.
    assert (Hg : 0 < g).
    { apply Qnot_le_lt. intro H. apply Qle_bool_iff in H. congruence. }
    split; [exact Hg|].
    unfold fsub, fdiv. rewrite (Qeq_bool_false_of_lt g Hg). reflexivity.
Qed.

End TimeEstimates.

(** C7, as stated, fails: at usage 0.996 and growth rate 0.05 the storage
    failure time estimate is exactly zero, which is not strictly positive. *)
Lemma C7_storage_failure_time_zero :
  (0.95 <= 0.996)%Q /\ (0 <= 0.05)%Q /\
  StorageFailurePredictor._estimate_time_to_failure (FFin 0.996) (FFin 0.05)
  = Ok (FFin 0) /\
  ~ Spec.strictly_positive (FFin 0).
Proof.
  split; [vm_compute; discriminate|]. split; [vm_compute; discriminate|].
  split; [reflexivity|]. unfold Spec.strictly_positive. simpl. discriminate.
Qed.

(** C7, amended: for every usage fraction u >= 0.95 and every growth rate
    g >= 0, the per-resource exhaustion time estimates (CPU, memory,
    storage) are the strictly positive value 0.1, and the storage failure
    time estimate is never negative: it is infinite when g = 0, it is
    max(0, (1 - u - 0.02) / g) when g > 0, and that is exactly zero once
    u > 0.98. *)
Theorem C7_time_estimates :
  forall (u g : Q) (available : Z) (available_gb free_gb : pyfloat),
  (0.95 <= u)%Q -> (0 <= g)%Q ->
  ResourceExhaustionPredictor._estimate_cpu_exhaustion_time (FFin u) available
  = FFin 0.1 /\
  ResourceExhaustionPredictor._estimate_memory_exhaustion_time (FFin u)
    available_gb = FFin 0.1 /\
  ResourceExhaustionPredictor._estimate_storage_exhaustion_time (FFin u)
    free_gb = FFin 0.1 /\
  Spec.strictly_positive (FFin 0.1) /\
  exists t,
    StorageFailurePredictor._estimate_time_to_failure (FFin u) (FFin g)
    = Ok t /\
    Spec.not_negative t /\
    ((g == 0)%Q -> t = FInf) /\
    ((0 < g)%Q -> t = pymax (FFin 0) (FFin ((1 - u - 0.02) / g))) /\
    ((0 < g)%Q -> (0.98 < u)%Q -> t = FFin 0).
Proof.
  intros u g available available_gb free_gb Hu Hg.
  split; [now apply cpu_time_when_critical|].
  split; [now apply memory_time_when_critical|].
  split; [now apply storage_time_when_critical|].
  split; [reflexivity|].
  destruct (time_to_failure_cases u g) as [[Hle E]|[Hlt E]]; rewrite E.
  - exists FInf. repeat split; try reflexivity;
      intros Hpos; exfalso; exact (Qlt_not_le _ _ Hpos Hle).
  - eexists. split; [reflexivity|]. split; [apply pymax_not_negative|].
    split; [|split].
    + intro H0. rewrite H0 in Hlt. discriminate Hlt.
    + reflexivity.
    + intros _ H98. unfold pymax. simpl flt.
      assert (Hneg : ((1 - u - 0.02) / g <= 0)%Q).
      { unfold Qdiv. rewrite <- (Qmult_0_l (/ g)).
        apply Qmult_le_compat_r; [lra|].
        apply Qlt_le_weak. now apply Qinv_lt_0_compat. }
      apply Qlt_bool_false_iff in Hneg. now rewrite Hneg.
Qed.

(** C7 at usage 0.96 and growth rate 0.05: the cpu estimate is 0.1 and the
    storage failure estimate is max(0, (1 - 0.96 - 0.02) / 0.05). *)
Lemma C7_time_estimates_witness :
  (0.95 <= 0.96)%Q /\ (0 <= 0.05)%Q /\
  ResourceExhaustionPredictor._estimate_cpu_exhaustion_time (FFin 0.96) 4
  = FFin 0.1 /\
  StorageFailurePredictor._estimate_time_to_failure (FFin 0.96) (FFin 0.05)
  = Ok (pymax (FFin 0) (FFin ((1 - 0.96 - 0.02) / 0.05))).
Proof.
  assert (Hu : (0.95 <= 0.96)%Q) by (vm_compute; discriminate).
  assert (Hg : (0 <= 0.05)%Q) by (vm_compute; discriminate).
  split; [exact Hu|]. split; [exact Hg|].
  destruct (C7_time_estimates 0.96 0.05 4 (FFin 16) (FFin 100) Hu Hg)
    as (Hcpu & _ & _ & _ & t & Et & _ & _ & Hformula & _).
  split; [exact Hcpu|].
  rewrite Et. now rewrite (Hformula eq_refl).
Defined.

(** ** Performance predictor *)

Section Duration.
Local Open Scope Q_scope.

Lemma speed_factor_table (queue : string) :
  _get_queue_speed_factor queue = Spec.duration_factor queue.
Proof.
  unfold _get_queue_speed_factor, Spec.duration_factor, dict_get_default.
  simpl dict_get.
  destruct (String.eqb queue "normal") eqn:En.
  - apply String.eqb_eq in En. subst queue. reflexivity.
  - destruct (String.eqb queue "hiprio"); [reflexivity|].
    destruct (String.eqb queue "long"); [reflexivity|].
    destruct (String.eqb queue "gpu"); reflexivity.
Qed.

Lemma Qeq_bool_cpus (cpus : Z) :
  Qeq_bool (inject_Z cpus * 0.1) 0 = (cpus =? 0)%Z.
Proof.
  destruct (Z.eqb_spec cpus 0) as [->|H]; [reflexivity|].
  destruct (Qeq_bool (inject_Z cpus * 0.1) 0) eqn:E; [|reflexivity].
  apply Qeq_bool_iff in E. exfalso. apply H.
  unfold Qeq, inject_Z in E. simpl in E. lia.
Qed.

End Duration.

(** C8, as stated, fails: on the default configuration the profile of
    [hiprio] has speed_factor 1.5, and the duration predicted on that queue
    for 5 GB on 8 cpus is 5 / (8 * 0.1) * 0.7, not 5 / (8 * 0.1) * 1.5. *)
Lemma C8_duration_ignores_profile :
  exists profile d,
    dict_get "hiprio" (queues default_config) = Some profile /\
    predict_job_duration Spec.test_requirements 8 128 "hiprio" = Ok d /\
    (d == 5.0 / (8 * 0.1) * 0.7)%Q /\
    ~ (d == 5.0 / (8 * 0.1) * speed_factor profile)%Q.
Proof.
  eexists. eexists. split; [reflexivity|]. split; [reflexivity|].
  split; vm_compute; [reflexivity | discriminate].
Qed.

(** C8, amended: for every requirement, every cpu count and every queue,
    the prediction of the job duration raises ZeroDivisionError when the cpu
    count is 0, raises OverflowError when the cpu count is beyond the range
    of a float, and otherwise equals storage_gb / (cpus * 0.1) * factor,
    where factor is taken from the predictor's own fixed table (normal 1.0,
    hiprio 0.7, long 1.5, gpu 0.5, any other queue 1.0); the configuration,
    and so the speed_factor of the queue's profile, is not an input of the
    prediction. *)
Theorem C8_duration_formula :
  forall (requirements : JobRequirements) (cpus memory_gb : Z)
         (queue : string),
  predict_job_duration requirements cpus memory_gb queue
  = if cpus =? 0 then Raise "ZeroDivisionError"
    else if float_overflows (inject_Z cpus) then Raise "OverflowError"
    else Ok (req_storage_gb requirements / (inject_Z cpus * 0.1)
             * Spec.duration_factor queue)%Q.
Proof.
  intros requirements cpus memory_gb queue.
  unfold predict_job_duration, int_times_float.
  destruct (Z.eqb_spec cpus 0) as [->|Hcpus]; [reflexivity|].
  destruct (float_overflows (inject_Z cpus)); [reflexivity|].
  cbv beta iota delta [bind]. unfold Qdiv_py.
  rewrite Qeq_bool_cpus.
  replace (cpus =? 0) with false by (symmetry; now apply Z.eqb_neq).
  cbv beta iota delta [bind]. now rewrite speed_factor_table.
Qed.

(** ** Allocation without a feasible queue *)

Section NoQueue.
Local Open Scope Q_scope.

Lemma no_feasible_queue_empty (config : Config)
    (requirements : JobRequirements) :
  Spec.no_feasible_queue config requirements ->
  get_available_queues config requirements = [].
Proof.
  unfold Spec.no_feasible_queue, get_available_queues.
  induction (queues config) as [|[name qc] l IH]; intro H; [reflexivity|].
  inversion H as [|? ? Hex Hl]; subst. simpl in Hex |- *.
  assert (E : (req_cpus requirements <=? max_cpu_per_job qc)%Z &&
              (req_memory_gb requirements <=? max_memory_per_job qc)%Z &&
              Qle_bool (req_walltime_hours requirements)
                (max_walltime_hours qc) = false).
  { destruct Hex as [Hc|[Hm|Hw]].
    - apply Z.leb_gt in Hc. now rewrite Hc.
    - apply Z.leb_gt in Hm. rewrite Hm. now rewrite andb_false_r.
    - apply andb_false_intro2.
      destruct (Qle_bool _ _) eqn:E; [|reflexivity].
      apply Qle_bool_iff in E. exfalso. exact (Qlt_not_le _ _ Hw E). }
  rewrite E. now apply IH.
Qed.

End NoQueue.

(** C3 on a failing input: a request for 64 cpus exceeds the cpu cap of
    every default queue, and the allocation does not end in the
    NoFeasibleQueueError that the specification demands. *)
Lemma C3_not_NoFeasibleQueueError :
  Spec.no_feasible_queue default_config Spec.oversized_requirements /\
  fst (allocate_resources (Ok Spec.ample_host) "2025-01-01T00:00:00"
         default_config Spec.oversized_requirements Spec.empty_history)
  <> Raise "NoFeasibleQueueError".
Proof.
  split.
  - unfold Spec.no_feasible_queue, Spec.exceeds_caps. simpl.
    repeat constructor; simpl; left; lia.
  - vm_compute. discriminate.
Qed.

(** C3 is not met by the code: for every JobRequirement that exceeds a
    per-job cap of every configured queue (empty feasible set), the
    selection loop hands its initial [None] to the validation step, which
    reads the cost of it, so that the allocation operation fails with an
    AttributeError where the specification demands NoFeasibleQueueError.  No
    value is returned and no allocation record is added to the history. *)
Theorem C3_no_feasible_queue_fails :
  forall probe now config requirements history,
  Spec.no_feasible_queue config requirements ->
  fst (allocate_resources probe now config requirements history)
  = Raise "AttributeError" /\
  job_history
    (snd (allocate_resources probe now config requirements history))
  = job_history history.
Proof.
  intros probe now config requirements history H.
  apply no_feasible_queue_empty in H.
  unfold allocate_resources, _calculate_optimal_allocation.
  rewrite H. simpl.
  destruct (get_current_resources probe now history) as [res h'] eqn:E.
  simpl. split; [reflexivity|].
  unfold get_current_resources in E.
  destruct (bind probe _); inversion E; reflexivity.
Qed.

(** C3 on the default configuration and a request for 64 cpus. *)
Lemma C3_no_feasible_queue_fails_witness :
  fst (allocate_resources (Raise "psutil.Error") "2025-01-01T00:00:00"
         default_config Spec.oversized_requirements Spec.empty_history)
  = Raise "AttributeError".
Proof.
  refine (proj1 (C3_no_feasible_queue_fails _ _ default_config
                   Spec.oversized_requirements _ _)).
  unfold Spec.no_feasible_queue, Spec.exceeds_caps. simpl.
  repeat constructor; simpl; left; lia.
Defined.

(** ** Chunk sizing *)

Section ChunkSize.
Local Open Scope Z_scope.

Lemma predict_chunk_reads_job_history (h1 h2 : History) total strategy :
  job_history h1 = job_history h2 ->
  predict_optimal_chunk_size h1 total strategy
  = predict_optimal_chunk_size h2 total strategy.
Proof.
  intro H. unfold predict_optimal_chunk_size. now rewrite H.
Qed.

(** The sample and the history after a probe that answered. *)
Lemma get_current_resources_sampled probe now history resources history' :
  get_current_resources probe now history = (Some resources, history') ->
  job_history history' = job_history history /\
  resource_usage history'
  = append_capped (resource_usage history) resources.
Proof.
  unfold get_current_resources.
  destruct (bind probe _) as [res|e]; intro H; inversion H; subst.
  split; reflexivity.
Qed.

Lemma get_current_resources_failed probe now history history' :
  get_current_resources probe now history = (None, history') ->
  history' = history.
Proof.
  unfold get_current_resources.
  destruct (bind probe _) as [res|e]; intro H; inversion H; reflexivity.
Qed.

(** With a sample, the size is the clamped minimum of the six quantities. *)
Lemma chunk_size_with_sample probe now config total strategy history
    resources history' strategy_config :
  get_current_resources probe now history = (Some resources, history') ->
  dict_get strategy (chunk_strategies config) = Some strategy_config ->
  exists bound,
    fst (calculate_optimal_chunk_size probe now config total strategy history)
    = Ok (Z.max
            (Z.min bound
               (Z.min (calculate_cost_optimal_chunk_size total)
                  (Z.min (predict_optimal_chunk_size history total strategy)
                     (max_chunk_size strategy_config))))
            min_chunk_size) /\
    bound
    = Z.min
        (Qtrunc (storage_free_gb resources * storage_threshold strategy_config
                 / storage_per_sample_gb))
        (Z.min (get_total_queue_capacity config * max_chunk_size strategy_config)
           (cpu_available resources * 20)).
Proof.
  intros Hs Hk. unfold calculate_optimal_chunk_size. rewrite Hs, Hk.
  apply get_current_resources_sampled in Hs. destruct Hs as [Hj _].
  rewrite (predict_chunk_reads_job_history history' history _ _ Hj).
  eexists. split; [|reflexivity]. simpl. f_equal.
  rewrite !Z.min_assoc. reflexivity.
Qed.

End ChunkSize.

(** C4, as stated, fails: for 10000 items, ample storage and cpus, an empty
    history and the balanced strategy of the default configuration, the
    chunk size is 500, not 1000. *)
Lemma C4_balanced_not_1000 :
  fst (calculate_optimal_chunk_size (Ok Spec.ample_host)
         "2025-01-01T00:00:00" default_config 10000 "balanced"
         Spec.empty_history)
  <> Ok 1000.
Proof.
  vm_compute. discriminate.
Qed.

(** C4, amended: for totalItems = 10000, the balanced strategy of the
    default configuration (maxChunkSize = 1000), a telemetry sample with
    ample free storage and available cpus (each allowing at least 500
    items) and a history-based prediction of at least 500 (as with an empty
    history, which predicts 1000), the chunk size is exactly 500: the
    cost-optimal term clamp(10000 // 20, 500, 2000) = 500 is the binding
    constraint, not the strategy cap. *)
Theorem C4_balanced_is_500 :
  forall probe now history resources history',
  get_current_resources probe now history = (Some resources, history') ->
  500 <= Qtrunc (storage_free_gb resources * 0.90 / storage_per_sample_gb) ->
  500 <= cpu_available resources * 20 ->
  500 <= predict_optimal_chunk_size history 10000 "balanced" ->
  fst (calculate_optimal_chunk_size probe now default_config 10000 "balanced"
         history)
  = Ok 500 /\
  calculate_cost_optimal_chunk_size 10000 = 500.
Proof.
  intros probe now history resources history' Hs Hst Hcpu Hpred.
  destruct (chunk_size_with_sample probe now default_config 10000 "balanced"
              history resources history' _ Hs eq_refl) as [bound [E Hb]].
  split; [|reflexivity].
  rewrite E. f_equal.
  change (calculate_cost_optimal_chunk_size 10000) with 500.
  change (get_total_queue_capacity default_config) with 180 in Hb.
  simpl max_chunk_size in *. simpl storage_threshold in Hb.
  unfold min_chunk_size. lia.
Qed.

(** C4 on a host with 58 available cpus, 512 TiB free and no history. *)
Lemma C4_balanced_is_500_witness :
  fst (calculate_optimal_chunk_size (Ok Spec.ample_host)
         "2025-01-01T00:00:00" default_config 10000 "balanced"
         Spec.empty_history)
  = Ok 500.
Proof.
  refine (proj1 (C4_balanced_is_500 (Ok Spec.ample_host)
                   "2025-01-01T00:00:00" Spec.empty_history _ _
                   eq_refl _ _ _));
    vm_compute; discriminate.
Defined.

(** C5, as stated, fails: without telemetry the fallback returns the balanced
    strategy's maximum, 1000, which is above the 500 of the selected
    storage_optimized strategy. *)
Lemma C5_fallback_above_strategy_cap :
  exists strategy_config n,
    dict_get "storage_optimized" (chunk_strategies default_config)
    = Some strategy_config /\
    fst (calculate_optimal_chunk_size (Raise "psutil.Error")
           "2025-01-01T00:00:00" default_config 1 "storage_optimized"
           Spec.empty_history)
    = Ok n /\
    ~ (min_chunk_size <= n <= max_chunk_size strategy_config).
Proof.
  eexists. eexists. split; [reflexivity|]. split; [reflexivity|].
  simpl. lia.
Qed.

(** C5, amended: for every totalItems, every configured strategy whose
    max_chunk_size is at least the minimum chunk size 100 (all default
    strategies are) and every telemetry sample that was obtained, the chunk
    size lies within [100, strategy.max_chunk_size]; on the no-telemetry
    fallback path the result is instead the max_chunk_size of the balanced
    strategy, whatever strategy was selected. *)
Theorem C5_chunk_size_range :
  forall probe now config total strategy strategy_config history,
  dict_get strategy (chunk_strategies config) = Some strategy_config ->
  min_chunk_size <= max_chunk_size strategy_config ->
  (forall resources history',
     get_current_resources probe now history = (Some resources, history') ->
     exists n,
       fst (calculate_optimal_chunk_size probe now config total strategy
              history) = Ok n /\
       min_chunk_size <= n <= max_chunk_size strategy_config) /\
  (forall history' balanced,
     get_current_resources probe now history = (None, history') ->
     dict_get "balanced" (chunk_strategies config) = Some balanced ->
     fst (calculate_optimal_chunk_size probe now config total strategy
            history) = Ok (max_chunk_size balanced)).
Proof.
  intros probe now config total strategy sc history Hk Hmin. split.
  - intros resources history' Hs.
    destruct (chunk_size_with_sample probe now config total strategy history
                resources history' sc Hs Hk) as [bound [E _]].
    eexists. split; [exact E|]. lia.
  - intros history' balanced Hs Hb.
    unfold calculate_optimal_chunk_size. rewrite Hs, Hb. reflexivity.
Qed.

(** C5 on the default configuration, the time_optimized strategy and a host
    that answers. *)
Lemma C5_chunk_size_range_witness :
  exists n,
    fst (calculate_optimal_chunk_size (Ok Spec.ample_host)
           "2025-01-01T00:00:00" default_config 50000 "time_optimized"
           Spec.empty_history) = Ok n /\
    min_chunk_size <= n <= 2000.
Proof.
  refine (proj1 (C5_chunk_size_range (Ok Spec.ample_host)
                   "2025-01-01T00:00:00" default_config 50000
                   "time_optimized" _ Spec.empty_history eq_refl _) _ _
            eq_refl).
  vm_compute. discriminate.
Defined.

(** ** History store *)

Section HistoryCap.
Context {A : Type}.

Lemma last_n_length (n : nat) (l : list A) :
  List.length (last_n n l) = Nat.min n (List.length l).
Proof.
  unfold last_n. rewrite length_skipn. lia.
Qed.

Lemma last_n_suffix (n : nat) (l : list A) :
  exists evicted, l = (evicted ++ last_n n l)%list.
Proof.
  exists (firstn (List.length l - n) l). unfold last_n.
  symmetry. apply firstn_skipn.
Qed.

Lemma append_capped_fifo (l : list A) (x : A) :
  Spec.fifo_capped l x (append_capped l x).
Proof.
  unfold Spec.fifo_capped, append_capped.
  assert (Hlen : List.length (l ++ [x]) = (List.length l + 1)%nat)
    by (rewrite length_app; reflexivity).
  destruct (1000 <? List.length (l ++ [x]))%nat eqn:E.
  - apply Nat.ltb_lt in E. rewrite last_n_length, Hlen. rewrite Hlen in E.
    split; [lia|]. split; [lia|]. apply last_n_suffix.
  - apply Nat.ltb_ge in E. rewrite Hlen. rewrite Hlen in E.
    split; [lia|]. split; [lia|]. now exists [].
Qed.

End HistoryCap.

(** C9: after recording an allocation the job history holds at most 1000
    entries and is what is left of the old list with the new record appended
    once the oldest entries are evicted, order kept, while the telemetry
    history is untouched; after recording a telemetry sample the same holds
    of the telemetry history, while the job history is untouched; a sample
    that could not be taken records nothing. *)
Theorem C9_history_cap_fifo :
  forall probe now (requirements : JobRequirements)
         (alloc : ResourceAllocation) (history : History),
  (let history' := _record_allocation now requirements alloc history in
   exists record,
     allocation record = alloc /\
     Spec.fifo_capped (job_history history) record (job_history history') /\
     resource_usage history' = resource_usage history) /\
  match get_current_resources probe now history with
  | (Some resources, history') =>
      Spec.fifo_capped (resource_usage history) resources
        (resource_usage history') /\
      job_history history' = job_history history
  | (None, history') => history' = history
  end.
Proof.
  intros probe now requirements alloc history. split.
  - simpl. eexists. split; [|split; [apply append_capped_fifo|reflexivity]].
    reflexivity.
  - destruct (get_current_resources probe now history) as [[res|] h'] eqn:E.
    + apply get_current_resources_sampled in E. destruct E as [Hj Hr].
      rewrite Hr. split; [apply append_capped_fifo | exact Hj].
    + now apply get_current_resources_failed in E.
Qed.

(** ** The preferred queue *)

Section Preference.

Variable probe : result HostReadings.
Variable now : string.
Variable config : Config.

Lemma available_queues_ignore_preference r1 r2 :
  Spec.same_but_preference r1 r2 ->
  get_available_queues config r1 = get_available_queues config r2.
Proof.
  intros (Hc & Hm & Hw & _). unfold get_available_queues.
  now rewrite Hc, Hm, Hw.
Qed.

Lemma consider_queue_ignores_preference r1 r2 best queue_name :
  Spec.same_but_preference r1 r2 ->
  consider_queue config r1 best queue_name
  = consider_queue config r2 best queue_name.
Proof.
  intros (Hc & Hm & Hw & Hs & _).
  unfold consider_queue, predict_job_duration,
    predict_job_success_probability.
  now rewrite Hc, Hm, Hw, Hs.
Qed.

Lemma fold_result_ext {S B} (f g : S -> B -> result S) l a :
  (forall s b, f s b = g s b) -> fold_result f l a = fold_result g l a.
Proof.
  intro H. revert a. induction l as [|b l IH]; intro a; simpl.
  - reflexivity.
  - rewrite H. destruct (g a b); simpl; [apply IH | reflexivity].
Qed.

Lemma optimal_allocation_ignores_preference r1 r2 resources :
  Spec.same_but_preference r1 r2 ->
  _calculate_optimal_allocation config r1 resources
  = _calculate_optimal_allocation config r2 resources.
Proof.
  intro H. unfold _calculate_optimal_allocation.
  rewrite (available_queues_ignore_preference r1 r2 H).
  rewrite (fold_result_ext (consider_queue config r1)
             (consider_queue config r2)); [reflexivity|].
  intros s b. now apply consider_queue_ignores_preference.
Qed.

Lemma record_ignores_preference r1 r2 alloc history :
  Spec.same_but_preference r1 r2 ->
  _record_allocation now r1 alloc history
  = _record_allocation now r2 alloc history.
Proof.
  intros (Hc & Hm & Hw & Hs & Hp). unfold _record_allocation.
  now rewrite Hc, Hm, Hw, Hs, Hp.
Qed.

End Preference.

(** C10: two JobRequirements that are identical except for the preferred
    queue get the same outcome from [allocate_resources]: the same
    ResourceAllocation (or the same failure) and the same history
    afterwards. *)
Theorem C10_preference_has_no_effect :
  forall probe now config (r1 r2 : JobRequirements) (history : History),
  Spec.same_but_preference r1 r2 ->
  allocate_resources probe now config r1 history
  = allocate_resources probe now config r2 history.
Proof.
  intros probe now config r1 r2 history H. unfold allocate_resources.
  destruct (get_current_resources probe now history) as [res h'].
  rewrite (optimal_allocation_ignores_preference config r1 r2 res H).
  destruct (bind _ _) as [a|e]; [|reflexivity].
  now rewrite (record_ignores_preference now r1 r2 a h' H).
Qed.

(** C10 on the request of the test in [main], with and without a preference
    for the [gpu] queue. *)
Lemma C10_preference_has_no_effect_witness :
  allocate_resources (Ok Spec.ample_host) "2025-01-01T00:00:00"
    default_config Spec.test_requirements Spec.empty_history
  = allocate_resources (Ok Spec.ample_host) "2025-01-01T00:00:00"
      default_config
      {| req_cpus := 8; req_memory_gb := 128; req_walltime_hours := 72;
         req_storage_gb := 5.0; req_priority := 1;
         queue_preference := Some "gpu" |}
      Spec.empty_history.
Proof.
  apply C10_preference_has_no_effect.
  unfold Spec.same_but_preference. simpl. repeat split; reflexivity.
Defined.

(** ** Allocation against the queue maxima *)

Section Caps.
Local Open Scope Q_scope.

Variable config : Config.

Lemma fold_result_invariant {S B} (P : S -> Prop)
    (f : S -> B -> result S) :
  (forall s b s', P s -> f s b = Ok s' -> P s') ->
  forall l a r, P a -> fold_result f l a = Ok r -> P r.
Proof.
  intros Hstep l. induction l as [|b l IH]; intros a r Ha E; simpl in E.
  - inversion E; subst. exact Ha.
  - destruct (f a b) as [s'|e] eqn:Ef; simpl in E; [|discriminate E].
    apply (IH s' r); [|exact E]. exact (Hstep a b s' Ha Ef).
Qed.

Lemma consider_queue_within_caps requirements best queue_name best' :
  Spec.best_within_caps config best ->
  consider_queue config requirements best queue_name = Ok best' ->
  Spec.best_within_caps config best'.
Proof.
  intros Hbest E. unfold consider_queue in E.
  destruct best as [best_allocation best_score].
  destruct (dict_get queue_name (queues config)) as [qc|] eqn:Eq;
    [|discriminate E].
  destruct (predict_job_duration _ _ _ _) as [d|]; [|discriminate E].
  destruct (predict_job_success_probability _ _ _ _) as [sp|];
    [|discriminate E].
  simpl in E.
  match type of E with
  | (if ?b then _ else _) = _ => destruct b
  end; inversion E; subst; [|exact Hbest].
  unfold Spec.best_within_caps, Spec.within_caps. simpl.
  exists qc. split; [exact Eq|].
  split; [apply Z.le_min_r|]. split; [apply Z.le_min_r|].
  apply Q.le_min_r.
Qed.

(** Before the cost correction the allocation is within the maxima of its
    queue, whatever the configuration. *)
Lemma optimal_allocation_within_caps requirements resources a :
  _calculate_optimal_allocation config requirements resources = Ok (Some a) ->
  Spec.within_caps config a.
Proof.
  unfold _calculate_optimal_allocation. intro E.
  destruct (fold_result _ _ _) as [[best score]|] eqn:Ef; [|discriminate E].
  simpl in E. inversion E; subst.
  exact (fold_result_invariant (Spec.best_within_caps config) _
           (consider_queue_within_caps requirements) _ (None, None)
           (Some a, score) I Ef).
Qed.

Lemma half_le_max (c : Z) : (c / 2 <= Z.max 0 c)%Z.
Proof.
  apply Z.div_le_upper_bound; lia.
Qed.

(** After the cost correction the allocation is within the maxima of its
    queue as soon as these are not below the floors of 1 cpu and 8 GB. *)
Lemma validated_allocation_within_caps a resources a' :
  Spec.within_caps config a ->
  _validate_allocation config (Some a) resources = Ok a' ->
  exists profile,
    dict_get (queue a') (queues config) = Some profile /\
    ((1 <= max_cpu_per_job profile)%Z ->
     (cpus a' <= max_cpu_per_job profile)%Z) /\
    ((8 <= max_memory_per_job profile)%Z ->
     (memory_gb a' <= max_memory_per_job profile)%Z) /\
    walltime_hours a' <= max_walltime_hours profile.
Proof.
  intros (qc & Hq & Hc & Hm & Hw) E. unfold _validate_allocation in E.
  destruct (Qlt_bool _ _); inversion E; subst; simpl; exists qc.
  - split; [exact Hq|]. pose proof (half_le_max (cpus a)).
    pose proof (half_le_max (memory_gb a)).
    split; [lia|]. split; [lia|]. exact Hw.
  - repeat split; auto.
Qed.

(** On every configuration whose queues grant at least 1 cpu and 8 GB (the
    default one does), a successful allocation is within the maxima of its
    chosen queue. *)
Lemma allocation_within_caps probe now requirements history a :
  Forall (fun entry => (1 <= max_cpu_per_job (snd entry))%Z /\
                       (8 <= max_memory_per_job (snd entry))%Z)
    (queues config) ->
  fst (allocate_resources probe now config requirements history) = Ok a ->
  Spec.within_caps config a.
Proof.
  intros Hfloor E. unfold allocate_resources in E.
  destruct (get_current_resources probe now history) as [res h'].
  destruct (_calculate_optimal_allocation config requirements res)
    as [[b|]|e] eqn:Eo; cbv beta iota delta [bind] in E;
    try discriminate E.
  - apply optimal_allocation_within_caps in Eo.
    destruct (_validate_allocation config (Some b) res) as [v|] eqn:Ev;
      cbv beta iota delta [fst] in E; [|discriminate E].
    inversion E; subst v.
    destruct (validated_allocation_within_caps b res a Eo Ev)
      as (qc & Hq & Hc & Hm & Hw).
    assert (Hin : exists name, In (name, qc) (queues config)).
    { clear - Hq. induction (queues config) as [|[k v] l IH];
        simpl in Hq; [discriminate Hq|].
      destruct (String.eqb (queue a) k).
      - inversion Hq; subst. exists k. now left.
      - destruct (IH Hq) as [n Hn]. exists n. now right. }
    destruct Hin as [name Hin].
    rewrite Forall_forall in Hfloor. destruct (Hfloor _ Hin) as [H1 H8].
    exists qc. simpl in H1, H8. auto.
Qed.

End Caps.

(** C2 is broken by the code on a queue that grants less than the 8 GB floor
    of the cost correction: the request asks for 4 GB on a queue whose
    maximum is 4 GB, its cost 321 is above the ceiling of 100, and the
    corrected allocation that is returned asks for 8 GB. *)
Theorem C2_floor_exceeds_memory_cap :
  exists a profile,
    fst (allocate_resources (Ok Spec.ample_host) "2025-01-01T00:00:00"
           Spec.small_memory_config Spec.small_memory_requirements
           Spec.empty_history) = Ok a /\
    dict_get (queue a) (queues Spec.small_memory_config) = Some profile /\
    max_memory_per_job profile = 4 /\
    memory_gb a = 8 /\
    ~ Spec.within_caps Spec.small_memory_config a.
Proof.
  eexists. eexists. split; [vm_compute; reflexivity|].
  split; [reflexivity|]. split; [reflexivity|]. split; [reflexivity|].
  intros (qc & Hq & _ & Hm & _). simpl in Hq. inversion Hq; subst qc.
  simpl in Hm. lia.
Qed.

(** The default queues all grant at least the floors of the correction. *)
Lemma default_allocation_within_caps probe now requirements history a :
  fst (allocate_resources probe now default_config requirements history)
  = Ok a ->
  Spec.within_caps default_config a.
Proof.
  apply allocation_within_caps. simpl. repeat constructor; simpl; lia.
Qed.

(** ** Malformed input to the exhaustion predictor *)

Section Malformed.
Import ResourceExhaustionPredictor.

Variable float_of_str : string -> option pyfloat.
Variable int_of_str : string -> option Z.

(** A resource predictor answers with a literal dictionary on each of its
    paths: a non-dictionary argument, a failed validation of the usage or
    of the second field (the handler), and the regular answer. *)
Ltac answer_by_cases info second :=
  unfold Spec.answers_risk;
  destruct info; try (eexists; split; reflexivity);
  destruct (validate_usage_percent float_of_str _) as [?u|]; simpl;
  [|eexists; split; [reflexivity|exact I]];
  destruct (second _) as [?a|]; simpl;
  eexists; (split; [reflexivity|exact I]).

Lemma cpu_answers_risk (info : pyval) :
  Spec.answers_risk info
    (_predict_cpu_exhaustion float_of_str int_of_str info).
Proof.
  unfold _predict_cpu_exhaustion.
  answer_by_cases info (validate_available int_of_str).
Qed.

Lemma memory_answers_risk (info : pyval) :
  Spec.answers_risk info (_predict_memory_exhaustion float_of_str info).
Proof.
  unfold _predict_memory_exhaustion.
  answer_by_cases info (validate_gb float_of_str).
Qed.

Lemma storage_answers_risk (info : pyval) :
  Spec.answers_risk info (_predict_storage_exhaustion float_of_str info).
Proof.
  unfold _predict_storage_exhaustion.
  answer_by_cases info (validate_gb float_of_str).
Qed.

Lemma risk_level_carried (o v : pyval) :
  Spec.risk_level_of o = Some v -> Spec.carries_risk_level o.
Proof.
  unfold Spec.risk_level_of, Spec.carries_risk_level, has_key, dict_mem.
  destruct o; try discriminate. intro H. now rewrite H.
Qed.

(** The conversions of the queue counts cannot fail past their handler,
    and the clamps leave counts that are not negative and a positive
    maximum. *)
Lemma queue_counts_converted (d : list (string * pyval)) :
  exists pending running max_jobs,
    queue_counts int_of_str d = Ok (pending, running, max_jobs) /\
    0 <= pending /\ 0 <= running /\ 1 <= max_jobs.
Proof.
  assert (H : forall x d,
             (exists z, int_if_int_or_str int_of_str x d = Ok z) \/
             int_if_int_or_str int_of_str x d = Raise "ValueError").
  { intros x d0. destruct x; simpl; eauto.
    destruct (int_of_str s); eauto. }
  unfold queue_counts.
  generalize (dict_get_default "pending" (VInt 0) d)
             (dict_get_default "running" (VInt 0) d)
             (dict_get_default "max_jobs" (VInt 100) d).
  intros pending running max_jobs.
  assert (Hh : exists p r m,
            Ok (Z.max 0 0, Z.max 0 0, Z.max 1 100) = Ok (p, r, m) /\
            0 <= p /\ 0 <= r /\ 1 <= m).
  { do 3 eexists. split; [reflexivity|]. lia. }
  destruct (H pending 0) as [[p Ep]|Ep]; rewrite Ep; simpl; [|exact Hh].
  destruct (H running 0) as [[r Er]|Er]; rewrite Er; simpl; [|exact Hh].
  destruct (H max_jobs 100) as [[m Em]|Em]; rewrite Em; simpl; [|exact Hh].
  do 3 eexists. split; [reflexivity|]. lia.
Qed.

(** The entry of a queue whose datum is a dictionary, by its counts: the
    object of the [OverflowError] when the utilization is beyond the range
    of a float, the full entry otherwise. *)
Lemma queue_entry_of_counts (d : list (string * pyval))
    (pending running max_jobs : Z) :
  queue_counts int_of_str d = Ok (pending, running, max_jobs) ->
  1 <= max_jobs ->
  let utilization := (inject_Z (running + pending) / inject_Z max_jobs)%Q in
  queue_entry int_of_str (VDict d)
  = if float_overflows utilization then Spec.error_object "OverflowError"
    else
      let exhaustion_prob :=
        (if flt (FFin queue_critical) (FFin utilization) then 0.8
         else if flt (FFin 0.8) (FFin utilization) then 0.4
         else if flt (FFin 0.6) (FFin utilization) then 0.1
         else 0)%Q in
      VDict
        [("exhaustion_probability", VFloat (FFin exhaustion_prob));
         ("utilization", VFloat (FFin utilization));
         ("pending_jobs", VInt pending);
         ("running_jobs", VInt running);
         ("max_jobs", VInt max_jobs);
         ("risk_level", VStr (_get_risk_level (FFin exhaustion_prob)))].
Proof.
  intros E Hm utilization. unfold queue_entry. rewrite E.
  cbv beta iota delta [bind]. unfold int_true_div.
  replace (max_jobs =? 0) with false by (symmetry; apply Z.eqb_neq; lia).
  fold utilization. destruct (float_overflows utilization); reflexivity.
Qed.

(** A per-queue entry is the answer that the statement describes. *)
Lemma queue_entry_shape (queue_data : pyval) :
  Spec.queue_answer int_of_str queue_data (queue_entry int_of_str queue_data).
Proof.
  destruct queue_data as [| | | | | |d]; try reflexivity.
  destruct (queue_counts_converted d) as (p & r & m & E & Hp & Hr & Hm).
  exists p, r, m. repeat (split; [assumption|]).
  rewrite (queue_entry_of_counts d p r m E Hm). cbv zeta.
  destruct (float_overflows _); [reflexivity|].
  eexists. reflexivity.
Qed.

(** A per-queue entry carries a risk level or is the object of an error. *)
Lemma queue_answer_risk_or_error (queue_data e : pyval) :
  Spec.queue_answer int_of_str queue_data e ->
  (exists s, Spec.risk_level_of e = Some (VStr s)) \/
  (exists message, e = Spec.error_object message).
Proof.
  destruct queue_data as [| | | | | |d]; try (intros ->; right; eauto).
  intros (p & r & m & _ & _ & _ & _ & H).
  destruct (float_overflows _); [right; eauto | now left].
Qed.

Lemma dict_set_In {V} (k k' : string) (v v' : V) d :
  In (k', v') (dict_set k v d) -> (k', v') = (k, v) \/ In (k', v') d.
Proof.
  induction d as [|[k0 v0] d IH]; simpl.
  - intros [H|[]]. left. now symmetry.
  - destruct (String.eqb k k0); simpl.
    + intros [H|H]; [left; now symmetry | right; now right].
    + intros [H|H]; [right; now left|].
      destruct (IH H) as [H'|H']; [now left | right; now right].
Qed.

(** Every entry of the queue dictionary comes from a queue of the input. *)
Lemma queue_entries_come_from_input (queue_info acc : list (string * pyval))
    (name : string) (e : pyval) :
  In (name, e)
    (fold_left
       (fun queue_exhaustion '(queue_name, queue_data) =>
          dict_set queue_name (queue_entry int_of_str queue_data)
            queue_exhaustion)
       queue_info acc) ->
  In (name, e) acc \/
  exists queue_data,
    In (name, queue_data) queue_info /\
    e = queue_entry int_of_str queue_data.
Proof.
  revert acc. induction queue_info as [|[k x] l IH]; intros acc H; simpl in H.
  - now left.
  - destruct (IH _ H) as [Hacc|(x' & Hin & He)].
    + destruct (dict_set_In _ _ _ _ _ Hacc) as [Heq|Hold].
      * inversion Heq; subst. right. exists x. split; [now left|reflexivity].
      * now left.
    + right. exists x'. split; [now right | exact He].
Qed.

Lemma assess_overall_risk_shape (predictions : list (string * pyval)) :
  exists overall level,
    _assess_overall_risk predictions = VDict overall /\
    dict_get "overall_risk_level" overall = Some (VStr level).
Proof.
  unfold _assess_overall_risk.
  destruct (collect_risks predictions) as [|r risks].
  - eexists. eexists. split; reflexivity.
  - destruct (map_result risk_score (r :: risks)) as [scores|];
      cbv beta iota delta [bind try_except_all].
    + destruct (filter _ risk_scores) as [|[k v] l];
        eexists; eexists; split; reflexivity.
    + eexists. eexists. split; reflexivity.
Qed.

(** The four entries of [predictions] for an input dictionary. *)
Lemma predictions_of_dict (current_resources : list (string * pyval)) :
  let r := predict_resource_exhaustion float_of_str int_of_str
             (VDict current_resources) in
  Spec.resource_prediction r "cpu"
  = Some (predict_field current_resources "cpu"
            (_predict_cpu_exhaustion float_of_str int_of_str)
            "CPU data not available") /\
  Spec.resource_prediction r "memory"
  = Some (predict_field current_resources "memory"
            (_predict_memory_exhaustion float_of_str)
            "Memory data not available") /\
  Spec.resource_prediction r "storage"
  = Some (predict_field current_resources "storage"
            (_predict_storage_exhaustion float_of_str)
            "Storage data not available") /\
  Spec.resource_prediction r "queues"
  = Some (predict_field current_resources "lsf"
            (_predict_queue_exhaustion int_of_str)
            "Queue data not available").
Proof.
  repeat split; reflexivity.
Qed.

(** A resource entry by the shape of the input field. *)
Lemma predict_field_shape current_resources field predictor unavailable :
  (forall info, Spec.answers_risk info (predictor info)) ->
  match dict_get field current_resources with
  | None | Some VNone =>
      Spec.error_only
        (predict_field current_resources field predictor unavailable)
  | Some (VDict _) =>
      exists s,
        Spec.risk_level_of
          (predict_field current_resources field predictor unavailable)
        = Some (VStr s)
  | Some _ =>
      Spec.risk_level_of
        (predict_field current_resources field predictor unavailable)
      = Some (VStr "UNKNOWN")
  end.
Proof.
  intro H. unfold predict_field.
  destruct (dict_get field current_resources) as [info|];
    [|split; reflexivity].
  destruct (H info) as (s & Hs & Hinfo).
  destruct info; try (split; reflexivity); try (now subst s).
  now exists s.
Qed.

Lemma predict_field_risk_or_error current_resources field predictor
    unavailable :
  (forall info, Spec.answers_risk info (predictor info)) ->
  Spec.carries_risk_level
    (predict_field current_resources field predictor unavailable) \/
  Spec.carries_error
    (predict_field current_resources field predictor unavailable).
Proof.
  intro H.
  pose proof (predict_field_shape current_resources field predictor
                unavailable H) as S.
  destruct (dict_get field current_resources) as [[]|];
    try (right; exact (proj2 S));
    try (left; exact (risk_level_carried _ _ S)).
  destruct S as [s S]. left. exact (risk_level_carried _ _ S).
Qed.

(** The queue dictionary by the shape of the [lsf] field. *)
Lemma queue_prediction_shape (current_resources : list (string * pyval)) :
  match dict_get "lsf" current_resources with
  | Some (VDict queue_info) =>
      exists entries,
        predict_field current_resources "lsf"
          (_predict_queue_exhaustion int_of_str) "Queue data not available"
        = VDict entries /\
        Forall
          (fun '(name, e) =>
             exists queue_data,
               In (name, queue_data) queue_info /\
               e = queue_entry int_of_str queue_data)
          entries
  | _ =>
      exists message,
        predict_field current_resources "lsf"
          (_predict_queue_exhaustion int_of_str) "Queue data not available"
        = VDict [("error", VStr message)]
  end.
Proof.
  unfold predict_field.
  destruct (dict_get "lsf" current_resources) as [[]|];
    try (eexists; reflexivity).
  eexists. split; [reflexivity|].
  apply Forall_forall. intros [name e] Hin.
  destruct (queue_entries_come_from_input _ _ _ _ Hin) as [[]|H].
  exact H.
Qed.

(** A per-queue entry of the result is the answer to the datum of a queue
    of that name. *)
Lemma queue_entries_of_dict (current_resources : list (string * pyval)) :
  let r := predict_resource_exhaustion float_of_str int_of_str
             (VDict current_resources) in
  match dict_get "lsf" current_resources with
  | Some (VDict queue_info) =>
      exists entries,
        Spec.resource_prediction r "queues" = Some (VDict entries) /\
        Forall
          (fun '(name, e) =>
             exists queue_data,
               In (name, queue_data) queue_info /\
               Spec.queue_answer int_of_str queue_data e)
          entries
  | _ => Spec.queue_entries r = []
  end.
Proof.
  intro r.
  destruct (predictions_of_dict current_resources) as (_ & _ & _ & Hq).
  fold r in Hq.
  pose proof (queue_prediction_shape current_resources) as S.
  destruct (dict_get "lsf" current_resources) as [[]|];
    try (destruct S as [message S]; unfold Spec.queue_entries;
         rewrite Hq, S; reflexivity).
  destruct S as (entries & E & Hall). exists entries.
  split; [now rewrite Hq, E|].
  apply Forall_forall. intros [name e] Hin.
  rewrite Forall_forall in Hall. destruct (Hall _ Hin) as (x & Hx & He).
  exists x. split; [exact Hx|]. subst e. apply queue_entry_shape.
Qed.

Lemma queue_entries_risk_or_error (current_resources : list (string * pyval)) :
  Forall (fun o => Spec.carries_risk_level o \/ Spec.carries_error o)
    (Spec.queue_entries
       (predict_resource_exhaustion float_of_str int_of_str
          (VDict current_resources))).
Proof.
  pose proof (queue_entries_of_dict current_resources) as S. cbv zeta in S.
  destruct (dict_get "lsf" current_resources) as [[]|];
    try (rewrite S; constructor).
  destruct S as (entries & E & Hall). unfold Spec.queue_entries. rewrite E.
  apply Forall_forall. intros o Hin. apply in_flat_map in Hin.
  destruct Hin as ([name e] & Hin & Ho).
  rewrite Forall_forall in Hall. destruct (Hall _ Hin) as (x & _ & Hx).
  destruct e; simpl in Ho; try contradiction.
  destruct Ho as [Ho|[]]. subst o.
  destruct (queue_answer_risk_or_error _ _ Hx) as [[s Hs]|[message Hm]].
  - left. exact (risk_level_carried _ _ Hs).
  - right. rewrite Hm. reflexivity.
Qed.

(** The storage failure predictor answers with a risk level on every input,
    whatever the host probes do. *)
Lemma storage_failure_answers_risk (io_error_rate : Z)
    (check_disk_health : result pyval) (current_usage growth_rate : pyval) :
  Spec.carries_risk_level
    (StorageFailurePredictor.predict_storage_failure float_of_str
       io_error_rate check_disk_health current_usage growth_rate).
Proof.
  unfold StorageFailurePredictor.predict_storage_failure.
  destruct (StorageFailurePredictor.validate_usage _ _) as [u|];
    [|reflexivity].
  destruct (StorageFailurePredictor.validate_growth _ _) as [g|];
    [|reflexivity].
  cbv beta iota delta [bind].
  destruct (StorageFailurePredictor._estimate_time_to_failure u g) as [t|];
    [|reflexivity].
  destruct check_disk_health; reflexivity.
Qed.

End Malformed.

(** The utilization of a queue is within the range of a float as soon as
    the jobs of the queue are fewer than the least magnitude that
    overflows. *)
Lemma utilization_within_range (pending running max_jobs : Z) :
  0 <= pending -> 0 <= running -> 1 <= max_jobs ->
  running + pending < float_overflow_bound ->
  float_overflows (inject_Z (running + pending) / inject_Z max_jobs) = false.
Proof.
  intros Hp Hr Hm Hb. unfold float_overflows.
  destruct (Qle_bool _ _) eqn:E; [|reflexivity].
  apply Qle_bool_iff in E.
  assert (H0 : (0 <= inject_Z (running + pending) / inject_Z max_jobs)%Q).
  { apply Qle_shift_div_l.
    - change 0%Q with (inject_Z 0). rewrite <- Zlt_Qlt. lia.
    - rewrite Qmult_0_l. change 0%Q with (inject_Z 0).
      rewrite <- Zle_Qle. lia. }
  rewrite (Qabs_pos _ H0) in E.
  assert (H1 : (inject_Z (running + pending) / inject_Z max_jobs
                <= inject_Z (running + pending))%Q).
  { apply Qle_shift_div_r.
    - change 0%Q with (inject_Z 0). rewrite <- Zlt_Qlt. lia.
    - rewrite <- inject_Z_mult, <- Zle_Qle. nia. }
  assert (H2 : (inject_Z float_overflow_bound
                <= inject_Z (running + pending))%Q)
    by (eapply Qle_trans; eassumption).
  rewrite <- Zle_Qle in H2. lia.
Qed.

(** A queue whose datum is a dictionary with fewer jobs than that gets a
    risk level. *)
Lemma queue_entry_within_range :
  forall int_of_str (d : list (string * pyval)) (pending running max_jobs : Z),
  ResourceExhaustionPredictor.queue_counts int_of_str d
  = Ok (pending, running, max_jobs) ->
  running + pending < float_overflow_bound ->
  exists s,
    Spec.risk_level_of
      (ResourceExhaustionPredictor.queue_entry int_of_str (VDict d))
    = Some (VStr s).
Proof.
  intros ios d p r m E Hb.
  destruct (queue_entry_shape ios (VDict d))
    as (p' & r' & m' & E' & Hp & Hr & Hm & H).
  rewrite E in E'. inversion E'; subst p' r' m'.
  now rewrite (utilization_within_range p r m Hp Hr Hm Hb) in H.
Qed.

(** C6, as stated, fails: when the resource fields are absent, the entries
    returned for cpu, memory and storage hold an error field and no
    risk_level; the entry of a queue whose datum is None holds an error
    field and no risk_level; and so does the entry of a queue whose counts
    are out of range, here [10 ^ 400] pending jobs on a queue of one job,
    whose utilization is too large for a float. *)
Lemma C6_entries_without_risk_level :
  ~ Forall Spec.carries_risk_level
      (Spec.prediction_objects
         (ResourceExhaustionPredictor.predict_resource_exhaustion
            (fun _ => None) (fun _ => None) (VDict []))) /\
  ~ Forall Spec.carries_risk_level
      (Spec.prediction_objects
         (ResourceExhaustionPredictor.predict_resource_exhaustion
            (fun _ => None) (fun _ => None)
            (VDict
               [("cpu", VDict [("usage_percent", VInt 55);
                               ("available", VInt 57)]);
                ("memory", VDict [("usage_percent", VStr "4.4")]);
                ("storage", VDict [("usage_percent", VInt 150)]);
                ("lsf", VDict [("normal", VNone)])]))) /\
  ~ Forall Spec.carries_risk_level
      (Spec.prediction_objects
         (ResourceExhaustionPredictor.predict_resource_exhaustion
            (fun _ => None) (fun _ => None)
            (VDict
               [("cpu", VDict [("usage_percent", VInt 55);
                               ("available", VInt 57)]);
                ("memory", VDict [("usage_percent", VStr "4.4")]);
                ("storage", VDict [("usage_percent", VInt 150)]);
                ("lsf",
                 VDict [("normal",
                         VDict [("pending", VInt (10 ^ 400));
                                ("running", VInt 0);
                                ("max_jobs", VInt 1)])])]))).
Proof.
  split; [|split]; intro H; rewrite Forall_forall in H.
  - specialize (H (VDict [("error", VStr "CPU data not available")])).
    discriminate H. vm_compute. now left.
  - specialize (H (VDict [("error", VStr "Invalid queue data")])).
    discriminate H. vm_compute. do 3 right. now left.
  - specialize (H (VDict [("error", VStr "OverflowError")])).
    discriminate H. vm_compute. do 3 right. now left.
Qed.

(** C6, amended: for every input, malformed or not, the prediction returns
    a dictionary (no exception leaves it) whose overall risk carries a risk
    level, and every prediction object in it carries a risk_level field or
    an error field.  The entry of cpu, memory or storage carries a
    risk_level whenever the field of that resource is present and not None,
    UNKNOWN when the field is not a dictionary, and is an error-only object
    without risk_level when the field is absent or None.  The entry of a
    queue whose datum is a dictionary carries a risk_level when the
    utilization (running + pending) / max_jobs of its converted and clamped
    counts is within the range of a float, and is the object that holds
    only the error OverflowError when it is not; the entry of a queue whose
    datum is no dictionary is the object that holds only the error
    Invalid queue data.  An input that is not a dictionary yields no
    prediction object at all. *)
Theorem C6_malformed_input_answered :
  forall float_of_str int_of_str input,
  let r := ResourceExhaustionPredictor.predict_resource_exhaustion
             float_of_str int_of_str input in
  (exists d overall level,
     r = VDict d /\
     dict_get "overall_risk" d = Some (VDict overall) /\
     dict_get "overall_risk_level" overall = Some (VStr level)) /\
  Forall (fun o => Spec.carries_risk_level o \/ Spec.carries_error o)
    (Spec.prediction_objects r) /\
  match input with
  | VDict current_resources =>
      Forall
        (fun resource =>
           exists o,
             Spec.resource_prediction r resource = Some o /\
             match dict_get resource current_resources with
             | None | Some VNone => Spec.error_only o
             | Some (VDict _) =>
                 exists s, Spec.risk_level_of o = Some (VStr s)
             | Some _ => Spec.risk_level_of o = Some (VStr "UNKNOWN")
             end)
        ["cpu"; "memory"; "storage"] /\
      match dict_get "lsf" current_resources with
      | Some (VDict queue_info) =>
          exists entries,
            Spec.resource_prediction r "queues" = Some (VDict entries) /\
            Forall
              (fun '(name, e) =>
                 exists queue_data,
                   In (name, queue_data) queue_info /\
                   match queue_data with
                   | VDict d =>
                       exists pending running max_jobs : Z,
                         ResourceExhaustionPredictor.queue_counts int_of_str d
                         = Ok (pending, running, max_jobs) /\
                         0 <= pending /\ 0 <= running /\ 1 <= max_jobs /\
                         if float_overflows
                              (inject_Z (running + pending)
                               / inject_Z max_jobs)
                         then e = VDict [("error", VStr "OverflowError")]
                         else exists s,
                                Spec.risk_level_of e = Some (VStr s)
                   | _ => e = VDict [("error", VStr "Invalid queue data")]
                   end)
              entries
      | _ => Spec.queue_entries r = []
      end
  | _ => Spec.prediction_objects r = []
  end.
Proof.
  intros fos ios input r.
  destruct input as [| | | | | |cr];
    try (split; [do 3 eexists; repeat split; reflexivity|];
         split; [constructor | reflexivity]).
  destruct (predictions_of_dict fos ios cr) as (Hc & Hm & Hs & Hq).
  fold r in Hc, Hm, Hs, Hq.
  pose proof (cpu_answers_risk fos ios) as Ac.
  pose proof (memory_answers_risk fos) as Am.
  pose proof (storage_answers_risk fos) as As.
  split; [|split; [|split]].
  - subst r. unfold ResourceExhaustionPredictor.predict_resource_exhaustion.
    cbv beta iota delta [try_except_all].
    match goal with
    | |- context [ResourceExhaustionPredictor._assess_overall_risk ?p] =>
        destruct (assess_overall_risk_shape p) as (ov & lv & E1 & E2);
        rewrite E1
    end.
    eexists. exists ov, lv.
    split; [reflexivity|]. split; [reflexivity | exact E2].
  - unfold Spec.prediction_objects. cbn [flat_map].
    rewrite Hc, Hm, Hs. cbn [app].
    repeat apply Forall_cons;
      try (apply predict_field_risk_or_error; assumption).
    apply queue_entries_risk_or_error.
  - repeat apply Forall_cons; try apply Forall_nil;
      (eexists; split; [eassumption|];
       apply predict_field_shape; assumption).
  - exact (queue_entries_of_dict fos ios cr).
Qed.

(** * Further properties *)

(** ** Storage failure prediction on arbitrary input *)

Section StorageFailureRange.
Local Open Scope Q_scope.
Import StorageFailurePredictor.

Variable float_of_str : string -> option pyfloat.

(** [max(0.0, min(hi, f))] is finite and within [0, hi], also for the
    infinities and NaN. *)
Lemma clamp_between (hi : Q) (f : pyfloat) :
  0 <= hi -> Props.between 0 hi (pymax (FFin 0) (pymin (FFin hi) f)).
Proof.
  intro Hhi. unfold Props.between, pymax, pymin.
  destruct f as [q| | |]; simpl.
  - destruct (Qlt_bool q hi) eqn:E1; simpl.
    + destruct (Qlt_bool 0 q) eqn:E2; eexists; (split; [reflexivity|]).
      * apply Qlt_bool_iff in E1, E2. lra.
      * lra.
    + destruct (Qlt_bool 0 hi) eqn:E2; eexists; (split; [reflexivity|]);
        lra.
  - destruct (Qlt_bool 0 hi); eexists; (split; [reflexivity|]); lra.
  - eexists. split; [reflexivity|]. lra.
  - destruct (Qlt_bool 0 hi); eexists; (split; [reflexivity|]); lra.
Qed.

(** The validated usage is a fraction; the one failure that leaves the
    block is the [OverflowError] of an [int] too large for a float. *)
Lemma validate_usage_cases (current_usage : pyval) :
  (exists u, validate_usage float_of_str current_usage = Ok (FFin u) /\
             0 <= u <= 1) \/
  validate_usage float_of_str current_usage = Raise "OverflowError".
Proof.
  assert (C : forall f, exists u,
             Ok (pymax (FFin 0) (pymin (FFin 1) f)) = Ok (FFin u) /\
             0 <= u <= 1).
  { intro f. destruct (clamp_between 1 f) as (u & E & H); [lra|].
    exists u. now rewrite E. }
  assert (Z0 : exists u, @Ok pyfloat (FFin 0) = Ok (FFin u) /\ 0 <= u <= 1)
    by (exists 0; split; [reflexivity | lra]).
  unfold validate_usage.
  destruct current_usage; simpl;
    try (left; apply C); try (left; exact Z0).
  - unfold float_of_int. destruct (float_overflows _); simpl;
      [now right | left; apply C].
  - destruct (float_of_str s); simpl; left; [apply C | exact Z0].
Qed.

Lemma validate_usage_unit (f : pyfloat) :
  exists u, validate_usage float_of_str (VFloat f) = Ok (FFin u) /\
            0 <= u <= 1.
Proof.
  destruct (validate_usage_cases (VFloat f)) as [H|H];
    [exact H | discriminate H].
Qed.

(** The validated growth rate is never negative and never NaN; the one
    failure that leaves the block is the [OverflowError] of an [int] too
    large for a float. *)
Lemma validate_growth_cases (growth_rate : pyval) :
  validate_growth float_of_str growth_rate = Ok FInf \/
  (exists g, validate_growth float_of_str growth_rate = Ok (FFin g) /\
             0 <= g) \/
  validate_growth float_of_str growth_rate = Raise "OverflowError".
Proof.
  assert (C : forall f,
             Ok (pymax (FFin 0) f) = Ok FInf \/
             (exists g, Ok (pymax (FFin 0) f) = Ok (FFin g) /\ 0 <= g) \/
             @Ok pyfloat (pymax (FFin 0) f) = Raise "OverflowError").
  { intro f. unfold pymax. destruct f as [q| | |]; simpl.
    - right. left. destruct (Qlt_bool 0 q) eqn:E; eexists;
        (split; [reflexivity|]); [apply Qlt_bool_iff in E|]; lra.
    - now left.
    - right. left. exists 0. split; [reflexivity | lra].
    - right. left. exists 0. split; [reflexivity | lra]. }
  assert (Z0 : @Ok pyfloat (FFin 0) = Ok FInf \/
               (exists g, @Ok pyfloat (FFin 0) = Ok (FFin g) /\ 0 <= g) \/
               @Ok pyfloat (FFin 0) = Raise "OverflowError")
    by (right; left; exists 0; split; [reflexivity | lra]).
  unfold validate_growth.
  destruct growth_rate; simpl; try apply C; try exact Z0.
  - unfold float_of_int. destruct (float_overflows _); simpl;
      [right; now right | apply C].
  - destruct (float_of_str s); simpl; [apply C | exact Z0].
Qed.

Lemma failure_probability_unit (io_error_rate : Z) (usage growth : pyfloat) :
  Props.unit_interval
    (_calculate_failure_probability io_error_rate usage growth).
Proof.
  unfold Props.unit_interval, _calculate_failure_probability.
  destruct (flt (FFin usage_critical) usage);
    destruct (flt (FFin usage_warning) usage);
    destruct (flt (FFin growth_rate_critical) growth);
    destruct (io_error_threshold <? io_error_rate)%Z;
    (eexists; split; [vm_compute; reflexivity|];
     split; vm_compute; discriminate).
Qed.

Lemma time_to_failure_total (u : Q) (growth : pyfloat) :
  growth = FInf \/ (exists g, growth = FFin g /\ 0 <= g) ->
  exists t, _estimate_time_to_failure (FFin u) growth = Ok t /\
            Spec.not_negative t.
Proof.
  intros [->|(g & -> & Hg)].
  - exists (FFin 0). split; reflexivity.
  - destruct (time_to_failure_cases u g) as [[_ E]|[_ E]]; rewrite E.
    + exists FInf. split; reflexivity.
    + eexists. split; [reflexivity | apply pymax_not_negative].
Qed.

End StorageFailureRange.

(** X1: whatever the two arguments are (numbers out of range, strings, None,
    infinities, NaN) and whatever the host probes answer, the dictionary
    returned by the storage failure prediction holds a failure probability
    between 0 and 1 and a time to failure that is not negative. *)
Theorem X1_storage_prediction_in_range :
  forall float_of_str io_error_rate check_disk_health current_usage
         growth_rate,
  exists p t,
    Props.field "failure_probability"
      (StorageFailurePredictor.predict_storage_failure float_of_str
         io_error_rate check_disk_health current_usage growth_rate)
    = Some (VFloat p) /\
    Props.unit_interval p /\
    Props.field "time_to_failure_hours"
      (StorageFailurePredictor.predict_storage_failure float_of_str
         io_error_rate check_disk_health current_usage growth_rate)
    = Some (VFloat t) /\
    Spec.not_negative t.
Proof.
  intros fos io health cu gr.
  assert (Herr : exists p t,
            Some (VFloat (FFin 0)) = Some (VFloat p) /\
            Props.unit_interval p /\
            Some (VFloat (FFin 0)) = Some (VFloat t) /\
            Spec.not_negative t).
  { exists (FFin 0), (FFin 0). repeat split; try reflexivity.
    exists 0%Q. split; [reflexivity|]. split; discriminate. }
  unfold StorageFailurePredictor.predict_storage_failure.
  destruct (validate_usage_cases fos cu) as [(u & Eu & _)|Eu]; rewrite Eu;
    [|exact Herr].
  cbv beta iota delta [bind].
  destruct (validate_growth_cases fos gr) as [Hg|[Hg|Hg]];
    [| |rewrite Hg; exact Herr].
  all: assert (Eg : exists g,
                 StorageFailurePredictor.validate_growth fos gr = Ok g /\
                 (g = FInf \/ exists q, g = FFin q /\ (0 <= q)%Q));
    [first [ eexists; split; [exact Hg|]; now left
           | destruct Hg as (q & E & Hq); eexists; split; [exact E|];
             right; now exists q ]|].
  all: destruct Eg as (g & Eg & Hgs); rewrite Eg.
  all: destruct (time_to_failure_total u g Hgs) as (t & Et & Ht); rewrite Et.
  all: destruct health as [h|e]; [|exact Herr].
  all: eexists; exists t; (split; [reflexivity|]).
  all: split; [apply failure_probability_unit|];
    (split; [reflexivity | exact Ht]).
Qed.

(** ** The risk staircase *)

Section Staircase.
Local Open Scope Q_scope.

Lemma Qlt_bool_reflect (a b : Q) : reflect (a < b) (Qlt_bool a b).
Proof.
  destruct (Qlt_bool a b) eqn:E; constructor.
  - now apply Qlt_bool_iff.
  - apply Qlt_bool_false_iff in E. now apply Qle_not_lt.
Qed.

Lemma risk_level_graded (f : pyfloat) :
  Props.graded (ResourceExhaustionPredictor._get_risk_level f).
Proof.
  unfold Props.graded, ResourceExhaustionPredictor._get_risk_level.
  destruct (flt (FFin 0.8) f); [tauto|].
  destruct (flt (FFin 0.5) f); [tauto|].
  destruct (flt (FFin 0.2) f); tauto.
Qed.

End Staircase.

(** When the storage failure probability is graded CRITICAL. *)
Lemma storage_critical_iff :
  forall (io_error_rate : Z) (u g : Q),
  StorageFailurePredictor._get_risk_level
    (StorageFailurePredictor._calculate_failure_probability io_error_rate
       (FFin u) (FFin g)) = "CRITICAL"
  <->
  ((0.95 < u)%Q /\ ((0.1 < g)%Q \/ 5 < io_error_rate)) \/
  ((0.90 < u)%Q /\ (0.1 < g)%Q /\ 5 < io_error_rate).
Proof.
  intros io u g.
  unfold StorageFailurePredictor._calculate_failure_probability,
    StorageFailurePredictor.usage_critical,
    StorageFailurePredictor.usage_warning,
    StorageFailurePredictor.growth_rate_critical,
    StorageFailurePredictor.io_error_threshold.
  simpl flt.
  destruct (Qlt_bool_reflect 0.95 u) as [H95|H95];
    destruct (Qlt_bool_reflect 0.90 u) as [H90|H90];
    destruct (Qlt_bool_reflect 0.1 g) as [Hg|Hg];
    destruct (Z.ltb_spec 5 io) as [Hio|Hio];
    vm_compute StorageFailurePredictor._get_risk_level;
    (split; [intro H; try discriminate H | intro H]);
    try reflexivity;
    try (left; split; [assumption|]; (now left) || (now right));
    try (right; repeat split; assumption);
    try (exfalso; destruct H as [[H1 [H2|H2]]|[H1 [H2 H3]]];
         try contradiction; try lia; try lra).
Qed.

(** X2: for finite usage u and growth rate g, the storage failure prediction
    grades the risk CRITICAL exactly when usage is above 0.95 together with
    growth above 0.1 or more than 5 IO errors, or usage is above 0.90 with
    both; high usage alone never gives CRITICAL. *)
Theorem X2_storage_critical_exactly :
  forall (io_error_rate : Z) (u g : Q),
  StorageFailurePredictor._get_risk_level
    (StorageFailurePredictor._calculate_failure_probability io_error_rate
       (FFin u) (FFin g)) = "CRITICAL"
  <->
  ((0.95 < u)%Q /\ ((0.1 < g)%Q \/ 5 < io_error_rate)) \/
  ((0.90 < u)%Q /\ (0.1 < g)%Q /\ 5 < io_error_rate).
Proof.
  exact storage_critical_iff.
Qed.

(** X3: the risk staircase is monotone: a larger probability never gets a
    level with a smaller score in the table of the overall assessment, and
    both predictors use the same staircase. *)
Theorem X3_risk_level_monotone :
  forall p q : Q,
  (p <= q)%Q ->
  Props.level_score (ResourceExhaustionPredictor._get_risk_level (FFin p))
  <= Props.level_score
       (ResourceExhaustionPredictor._get_risk_level (FFin q)) /\
  StorageFailurePredictor._get_risk_level (FFin p)
  = ResourceExhaustionPredictor._get_risk_level (FFin p).
Proof.
  intros p q Hpq. split; [|reflexivity].
  unfold ResourceExhaustionPredictor._get_risk_level. simpl flt.
  destruct (Qlt_bool_reflect 0.8 p); destruct (Qlt_bool_reflect 0.5 p);
    destruct (Qlt_bool_reflect 0.2 p);
    destruct (Qlt_bool_reflect 0.8 q); destruct (Qlt_bool_reflect 0.5 q);
    destruct (Qlt_bool_reflect 0.2 q);
    try (vm_compute; discriminate); exfalso; lra.
Qed.

(** X3 at probabilities 0.3 and 0.7. *)
Lemma X3_risk_level_monotone_witness :
  Props.level_score (ResourceExhaustionPredictor._get_risk_level (FFin 0.3))
  <= Props.level_score
       (ResourceExhaustionPredictor._get_risk_level (FFin 0.7)).
Proof.
  refine (proj1 (X3_risk_level_monotone 0.3 0.7 _)). vm_compute. discriminate.
Defined.

(** ** Usage and time in the resource predictions *)

Section UsageClamp.
Local Open Scope Q_scope.
Import ResourceExhaustionPredictor.

Variable float_of_str : string -> option pyfloat.
Variable int_of_str : string -> option Z.

Lemma validate_usage_percent_unit (usage_percent : pyval) :
  exists u,
    validate_usage_percent float_of_str usage_percent = Ok (FFin u) /\
    0 <= u <= 1.
Proof.
  assert (C : forall f, exists u,
             fdiv (pymax (FFin 0) (pymin (FFin 100) f)) (FFin 100)
             = Ok (FFin u) /\ 0 <= u <= 1).
  { intro f. destruct (clamp_between 100 f) as (c & E & H); [lra|].
    rewrite E. exists (c / 100). split; [reflexivity|].
    unfold Qdiv. change (/ 100) with (1 # 100). lra. }
  assert (Z0 : exists u, @Ok pyfloat (FFin 0) = Ok (FFin u) /\ 0 <= u <= 1)
    by (exists 0; split; [reflexivity | lra]).
  unfold validate_usage_percent.
  destruct usage_percent as [|b|z|f|s|l|d]; cbv beta iota delta [bind];
    try (destruct (C (FFin 0)) as (u & E & H); rewrite E; exists u;
         split; [reflexivity | exact H]).
  - destruct (C (of_Z (Z_of_bool b))) as (u & E & H). rewrite E. exists u.
    split; [reflexivity | exact H].
  - destruct (C (of_Z z)) as (u & E & H). rewrite E. exists u.
    split; [reflexivity | exact H].
  - destruct (C f) as (u & E & H). rewrite E. exists u.
    split; [reflexivity | exact H].
  - unfold py_float. destruct (float_of_str s) as [f|].
    + destruct (C f) as (u & E & H). rewrite E. exists u.
      split; [reflexivity | exact H].
    + exact Z0.
Qed.

(** Each estimate for a usage fraction between 0 and 1. *)
Lemma exhaustion_time_between (hours : Q) (u : Q) :
  0 < hours -> 0 <= u <= 1 -> 0.1 <= 0.95 * hours ->
  Props.between 0.1 (0.95 * hours)
    (if fle (FFin 0.95) (FFin u) then FFin 0.1
     else
       let remaining_capacity := fsub (FFin 0.95) (FFin u) in
       if fle remaining_capacity (FFin 0) then FFin 0.1
       else pymax (FFin 0.1) (fmul remaining_capacity (FFin hours))).
Proof.
  intros Hh Hu Hcap. unfold Props.between. simpl.
  destruct (Qle_bool 0.95 u); [exists 0.1; split; [reflexivity | lra]|].
  destruct (Qle_bool (0.95 - u) 0); [exists 0.1; split; [reflexivity|lra]|].
  unfold pymax. simpl.
  destruct (Qlt_bool_reflect 0.1 ((0.95 - u) * hours)) as [H|H];
    eexists; (split; [reflexivity|]); [|lra].
  split; [lra|].
  assert ((0.95 - u) * hours <= 0.95 * hours); [|lra].
  apply Qmult_le_compat_r; lra.
Qed.

End UsageClamp.

(** X4: whatever the resource dictionary holds (percentages above 100 or
    below 0, strings, None, NaN, infinities, a value that is no dictionary),
    the current_usage reported by the cpu, memory and storage predictions is
    a finite fraction between 0 and 1. *)
Theorem X4_current_usage_clamped :
  forall float_of_str int_of_str (info : pyval),
  (exists u,
     Props.field "current_usage"
       (ResourceExhaustionPredictor._predict_cpu_exhaustion float_of_str
          int_of_str info) = Some (VFloat u) /\
     Props.unit_interval u) /\
  (exists u,
     Props.field "current_usage"
       (ResourceExhaustionPredictor._predict_memory_exhaustion float_of_str
          info) = Some (VFloat u) /\
     Props.unit_interval u) /\
  (exists u,
     Props.field "current_usage"
       (ResourceExhaustionPredictor._predict_storage_exhaustion float_of_str
          info) = Some (VFloat u) /\
     Props.unit_interval u).
Proof.
  intros fos ios info.
  assert (Z0 : exists u, Some (VFloat (FFin 0)) = Some (VFloat u) /\
                         Props.unit_interval u).
  { exists (FFin 0). split; [reflexivity|]. exists 0%Q.
    split; [reflexivity|]. split; discriminate. }
  unfold ResourceExhaustionPredictor._predict_cpu_exhaustion,
    ResourceExhaustionPredictor._predict_memory_exhaustion,
    ResourceExhaustionPredictor._predict_storage_exhaustion.
  destruct info as [| | | | | |d]; try (repeat split; exact Z0).
  repeat split;
    match goal with
    | |- context [ResourceExhaustionPredictor.validate_usage_percent ?f ?x] =>
        destruct (validate_usage_percent_unit f x) as (u & E & H);
        rewrite E; cbv beta iota delta [bind]
    end;
    match goal with
    | |- context [bind ?m _] => destruct m as [a|e]
    | |- context [try_except_all (match ?m with _ => _ end) _] =>
        destruct m as [a|e]
    end;
    try exact Z0;
    (exists (FFin u); split; [reflexivity|]; exists u; split;
     [reflexivity | exact H]).
Qed.

(** X5: for a usage fraction between 0 and 1 the time to exhaustion is
    never below 0.1 hours and never above 0.95 times the horizon of the
    resource: 22.8 hours for cpu, 45.6 for memory, 159.6 for storage. *)
Theorem X5_exhaustion_time_bounds :
  forall (u : Q) (available : Z) (available_gb free_gb : pyfloat),
  (0 <= u <= 1)%Q ->
  Props.between 0.1 22.8
    (ResourceExhaustionPredictor._estimate_cpu_exhaustion_time (FFin u)
       available) /\
  Props.between 0.1 45.6
    (ResourceExhaustionPredictor._estimate_memory_exhaustion_time (FFin u)
       available_gb) /\
  Props.between 0.1 159.6
    (ResourceExhaustionPredictor._estimate_storage_exhaustion_time (FFin u)
       free_gb).
Proof.
  intros u available available_gb free_gb Hu.
  assert (B : forall hours cap, (0 < hours)%Q -> (0.1 <= 0.95 * hours)%Q ->
            (0.95 * hours <= cap)%Q ->
            Props.between 0.1 cap
              (if fle (FFin 0.95) (FFin u) then FFin 0.1
               else
                 let remaining_capacity := fsub (FFin 0.95) (FFin u) in
                 if fle remaining_capacity (FFin 0) then FFin 0.1
                 else pymax (FFin 0.1)
                        (fmul remaining_capacity (FFin hours)))).
  { intros hours cap H1 H2 H3.
    destruct (exhaustion_time_between hours u H1 Hu H2) as (t & E & Ht).
    exists t. split; [exact E | lra]. }
  split; [|split].
  - unfold ResourceExhaustionPredictor._estimate_cpu_exhaustion_time.
    destruct (fle (FFin 0.95) (FFin u)) eqn:E95.
    + exists 0.1%Q. split; [reflexivity|]. split; vm_compute; discriminate.
    + destruct (available <=? 0).
      * exists 0.5%Q. split; [reflexivity|].
        split; vm_compute; discriminate.
      * apply (B 24%Q 22.8%Q); vm_compute; (reflexivity || discriminate).
  - apply (B 48%Q); vm_compute; (reflexivity || discriminate).
  - apply (B 168%Q); vm_compute; (reflexivity || discriminate).
Qed.

(** X5 at half usage with four cores available. *)
Lemma X5_exhaustion_time_bounds_witness :
  Props.between 0.1 22.8
    (ResourceExhaustionPredictor._estimate_cpu_exhaustion_time (FFin 0.5) 4).
Proof.
  refine (proj1 (X5_exhaustion_time_bounds 0.5 4 (FFin 1) (FFin 1) _)).
  split; vm_compute; discriminate.
Defined.

(** ** Levels that are never reached *)

Section NeverCritical.
Import ResourceExhaustionPredictor.

Variable float_of_str : string -> option pyfloat.
Variable int_of_str : string -> option Z.

Lemma cpu_never_critical (info : pyval) :
  Spec.risk_level_of (_predict_cpu_exhaustion float_of_str int_of_str info)
  <> Some (VStr "CRITICAL").
Proof.
  unfold _predict_cpu_exhaustion.
  destruct info as [| | | | | |d]; try discriminate.
  destruct (validate_usage_percent _ _) as [u|]; [|discriminate].
  destruct (validate_available _ _) as [a|]; [|discriminate].
  cbv beta iota delta [bind try_except_all Spec.risk_level_of].
  destruct (flt (FFin cpu_critical) u); [discriminate|].
  destruct (flt (FFin 0.8) u); [discriminate|].
  destruct (flt (FFin 0.6) u); discriminate.
Qed.

Lemma queue_entry_never_critical (queue_data : pyval) :
  Spec.risk_level_of (queue_entry int_of_str queue_data)
  <> Some (VStr "CRITICAL").
Proof.
  destruct queue_data as [| | | | | |d]; try discriminate.
  destruct (queue_counts_converted int_of_str d)
    as (p & r & m & E & _ & _ & Hm).
  rewrite (queue_entry_of_counts int_of_str d p r m E Hm). cbv zeta.
  destruct (float_overflows _); [discriminate|].
  unfold Spec.risk_level_of.
  match goal with |- context [flt (FFin queue_critical) ?u] =>
    destruct (flt (FFin queue_critical) u); [discriminate|];
    destruct (flt (FFin 0.8) u); [discriminate|];
    destruct (flt (FFin 0.6) u); discriminate
  end.
Qed.

End NeverCritical.

(** X6: the cpu prediction and the per-queue entries never carry the risk
    level CRITICAL, whatever the usage or the queue load: their highest
    probability is 0.8, and CRITICAL needs a probability above 0.8. *)
Theorem X6_cpu_and_queues_never_critical :
  forall float_of_str int_of_str (info queue_data : pyval),
  Spec.risk_level_of
    (ResourceExhaustionPredictor._predict_cpu_exhaustion float_of_str
       int_of_str info) <> Some (VStr "CRITICAL") /\
  Spec.risk_level_of
    (ResourceExhaustionPredictor.queue_entry int_of_str queue_data)
  <> Some (VStr "CRITICAL").
Proof.
  intros fos ios info queue_data. split.
  - apply cpu_never_critical.
  - apply queue_entry_never_critical.
Qed.

(** ** The overall risk *)

Section OverallRisk.
Import ResourceExhaustionPredictor.

Lemma fold_max_spec (l : list Z) (x : Z) :
  (fold_left Z.max l x = x \/ In (fold_left Z.max l x) l) /\
  x <= fold_left Z.max l x /\
  Forall (fun y => y <= fold_left Z.max l x) l.
Proof.
  revert x. induction l as [|y l IH]; intro x; simpl.
  - repeat split; [now left | lia | constructor].
  - destruct (IH (Z.max x y)) as (Hin & Hle & Hall).
    split; [|split].
    + destruct Hin as [E|Hin]; [|right; now right].
      destruct (Z.max_spec x y) as [[_ Em]|[_ Em]]; rewrite Em in *.
      * right. left. now symmetry.
      * now left.
    + lia.
    + constructor; [lia | exact Hall].
Qed.

Lemma graded_risks_scored (risks : list pyval) :
  Forall Props.graded_risk risks ->
  map_result risk_score risks = Ok (map Props.risk_score_of risks).
Proof.
  induction 1 as [|r risks (level & -> & _) _ IH]; simpl; [reflexivity|].
  now rewrite IH.
Qed.

(** The level that the table gives back for the score of a graded level. *)
Lemma level_of_score (level : string) :
  Props.graded level ->
  filter (fun '(k, v) => v =? Props.level_score level) risk_scores
  = [(level, Props.level_score level)].
Proof.
  intros [->|[->|[->| ->]]]; reflexivity.
Qed.

End OverallRisk.

(** The overall level of graded risks. *)
Lemma overall_risk_highest :
  forall (predictions : list (string * pyval)) (r : pyval)
         (rs : list pyval),
  ResourceExhaustionPredictor.collect_risks predictions = r :: rs ->
  Forall Props.graded_risk (r :: rs) ->
  exists level,
    Props.field "overall_risk_level"
      (ResourceExhaustionPredictor._assess_overall_risk predictions)
    = Some (VStr level) /\
    Props.field "resource_risks"
      (ResourceExhaustionPredictor._assess_overall_risk predictions)
    = Some (VList (r :: rs)) /\
    In (VStr level) (r :: rs) /\
    Forall (fun risk => Props.risk_score_of risk <= Props.level_score level)
      (r :: rs).
Proof.
  intros predictions r rs Hc Hg.
  unfold ResourceExhaustionPredictor._assess_overall_risk. rewrite Hc.
  rewrite (graded_risks_scored _ Hg).
  cbv beta iota delta [bind].
  set (scores := map Props.risk_score_of (r :: rs)).
  destruct (fold_max_spec (tl scores) (hd 0 scores)) as (Hin & Hle & Hall).
  set (M := fold_left Z.max (tl scores) (hd 0 scores)) in *.
  assert (HM : In M scores).
  { subst scores. simpl in *. destruct Hin as [E|Hin]; [left|right]; auto. }
  assert (Hmax : Forall (fun y => y <= M) scores).
  { subst scores. simpl in *. constructor; assumption. }
  subst scores. apply in_map_iff in HM. destruct HM as (x & Ex & Hx).
  rewrite Forall_forall in Hg. destruct (Hg x Hx) as (level & -> & Hlevel).
  simpl in Ex. exists level.
  rewrite <- Ex. rewrite (level_of_score level Hlevel).
  cbv beta iota delta [try_except_all Props.field].
  split; [reflexivity|]. split; [reflexivity|]. split; [exact Hx|].
  rewrite Forall_map in Hmax. rewrite Ex. exact Hmax.
Qed.

(** X7: when the collected risk levels are not empty and each is one of LOW,
    MODERATE, HIGH and CRITICAL, the overall risk level is the highest of
    them: it is one of the collected levels and no collected level has a
    larger score. *)
Theorem X7_overall_risk_is_highest :
  forall (predictions : list (string * pyval)) (r : pyval)
         (rs : list pyval),
  ResourceExhaustionPredictor.collect_risks predictions = r :: rs ->
  Forall Props.graded_risk (r :: rs) ->
  exists level,
    Props.field "overall_risk_level"
      (ResourceExhaustionPredictor._assess_overall_risk predictions)
    = Some (VStr level) /\
    Props.field "resource_risks"
      (ResourceExhaustionPredictor._assess_overall_risk predictions)
    = Some (VList (r :: rs)) /\
    In (VStr level) (r :: rs) /\
    Forall (fun risk => Props.risk_score_of risk <= Props.level_score level)
      (r :: rs).
Proof.
  exact overall_risk_highest.
Qed.

(** X7 on a cpu entry graded LOW and a storage entry graded CRITICAL. *)
Lemma X7_overall_risk_is_highest_witness :
  exists level,
    Props.field "overall_risk_level"
      (ResourceExhaustionPredictor._assess_overall_risk
         [("cpu", VDict [("risk_level", VStr "LOW")]);
          ("storage", VDict [("risk_level", VStr "CRITICAL")])])
    = Some (VStr level) /\
    In (VStr level) [VStr "LOW"; VStr "CRITICAL"].
Proof.
  destruct (X7_overall_risk_is_highest
              [("cpu", VDict [("risk_level", VStr "LOW")]);
               ("storage", VDict [("risk_level", VStr "CRITICAL")])]
              (VStr "LOW") [VStr "CRITICAL"] eq_refl)
    as (level & H1 & _ & H3 & _).
  - repeat constructor; eexists; (split; [reflexivity|]);
      unfold Props.graded; tauto.
  - exists level. split; assumption.
Defined.

(** ** Dictionaries *)

Section Dictionaries.
Context {V : Type}.

Lemma dict_get_set (k k' : string) (v : V) (d : list (string * V)) :
  dict_get k (dict_set k' v d)
  = if String.eqb k k' then Some v else dict_get k d.
Proof.
  induction d as [|[k0 v0] d IH]; simpl.
  - reflexivity.
  - destruct (String.eqb k' k0) eqn:E0; simpl.
    + apply String.eqb_eq in E0. subst k0.
      destruct (String.eqb k k'); reflexivity.
    + destruct (String.eqb k k0) eqn:E1.
      * apply String.eqb_eq in E1. subst k0.
        rewrite String.eqb_sym in E0. now rewrite E0.
      * exact IH.
Qed.

Lemma dict_get_absent (k : string) (d : list (string * V)) :
  ~ In k (map fst d) -> dict_get k d = None.
Proof.
  induction d as [|[k0 v0] d IH]; simpl; intro H; [reflexivity|].
  destruct (String.eqb k k0) eqn:E.
  - apply String.eqb_eq in E. subst. exfalso. apply H. now left.
  - apply IH. intro Hin. apply H. now right.
Qed.

Lemma dict_set_fresh (k : string) (v : V) (d : list (string * V)) :
  dict_get k d = None -> dict_set k v d = (d ++ [(k, v)])%list.
Proof.
  induction d as [|[k0 v0] d IH]; simpl; intro H; [reflexivity|].
  destruct (String.eqb k k0); [discriminate H|]. now rewrite IH.
Qed.

End Dictionaries.

Section QueueNames.
Import ResourceExhaustionPredictor.

Variable int_of_str : string -> option Z.

Lemma queue_loop_appends (queue_info acc : list (string * pyval)) :
  NoDup (map fst acc ++ map fst queue_info)%list ->
  fold_left
    (fun queue_exhaustion '(queue_name, queue_data) =>
       dict_set queue_name (queue_entry int_of_str queue_data)
         queue_exhaustion)
    queue_info acc
  = (acc ++ map (fun '(queue_name, queue_data) =>
                   (queue_name, queue_entry int_of_str queue_data))
              queue_info)%list.
Proof.
  revert acc. induction queue_info as [|[k x] l IH]; intros acc H; simpl.
  - now rewrite app_nil_r.
  - simpl in H.
    assert (Hk : ~ In k (map fst acc)).
    { apply NoDup_remove_2 in H. intro Hin. apply H.
      apply in_or_app. now left. }
    rewrite (dict_set_fresh k _ acc (dict_get_absent k acc Hk)).
    rewrite IH.
    + now rewrite <- app_assoc.
    + rewrite map_app, <- app_assoc. exact H.
Qed.

End QueueNames.

(** X8: for queue data with distinct queue names, as a dictionary has them,
    the queue prediction holds exactly one entry per queue of the input, in
    the order of the input, and each is the entry computed from that queue's
    own datum: no queue is dropped, merged or reordered. *)
Theorem X8_one_entry_per_queue :
  forall int_of_str (queue_info : list (string * pyval)),
  NoDup (map fst queue_info) ->
  ResourceExhaustionPredictor._predict_queue_exhaustion int_of_str
    (VDict queue_info)
  = VDict (map (fun '(queue_name, queue_data) =>
                  (queue_name,
                   ResourceExhaustionPredictor.queue_entry int_of_str
                     queue_data))
             queue_info).
Proof.
  intros ios queue_info H.
  unfold ResourceExhaustionPredictor._predict_queue_exhaustion.
  cbv beta iota delta [try_except_all].
  now rewrite (queue_loop_appends ios queue_info []).
Qed.

(** X8 on two queues, one with a datum that is no dictionary. *)
Lemma X8_one_entry_per_queue_witness :
  ResourceExhaustionPredictor._predict_queue_exhaustion (fun _ => None)
    (VDict [("normal", VDict [("pending", VInt 50)]); ("long", VNone)])
  = VDict
      [("normal",
        ResourceExhaustionPredictor.queue_entry (fun _ => None)
          (VDict [("pending", VInt 50)]));
       ("long",
        ResourceExhaustionPredictor.queue_entry (fun _ => None) VNone)].
Proof.
  apply (X8_one_entry_per_queue (fun _ => None)
           [("normal", VDict [("pending", VInt 50)]); ("long", VNone)]).
  repeat constructor; simpl; intuition discriminate.
Defined.

(** ** Merging a configuration with the defaults *)

Section MergeConfig.
Import AdvancedResourceManager.

Lemma merge_config_loop (items current : list (string * pyval)) :
  _merge_config (VDict items) current
  = fold_left Props.merge_entry items current.
Proof.
  revert current. induction items as [|[key value] items IH];
    intro current; [reflexivity|].
  simpl fold_left. rewrite <- IH. reflexivity.
Qed.

(** One turn of the loop, read key by key. *)
Lemma merge_entry_get (current : list (string * pyval)) (key : string)
    (value : pyval) (k : string) :
  dict_get k (Props.merge_entry current (key, value))
  = if String.eqb k key
    then Some (Props.turn_value (dict_get key current) value)
    else dict_get k current.
Proof.
  unfold Props.merge_entry, Props.turn_value.
  destruct (String.eqb k key) eqn:E.
  - apply String.eqb_eq in E. subst k.
    destruct (dict_get key current) as [cur|] eqn:Ek.
    + destruct cur; try exact Ek.
      destruct value; try exact Ek.
      rewrite dict_get_set. now rewrite String.eqb_refl.
    + rewrite dict_get_set. now rewrite String.eqb_refl.
  - destruct (dict_get key current) as [cur|] eqn:Ek.
    + destruct cur; try reflexivity.
      destruct value; try reflexivity.
      rewrite dict_get_set. now rewrite E.
    + rewrite dict_get_set. now rewrite E.
Qed.

(** What a merge into a nested dictionary preserves, the loop preserves of
    the value under a key that the configuration holds. *)
Lemma merge_loop_invariant (Q : pyval -> Prop) :
  (forall nested default,
     Q (VDict nested) -> Q (VDict (_merge_config default nested))) ->
  forall (items current : list (string * pyval)) (k : string) (v : pyval),
  dict_get k current = Some v -> Q v ->
  exists v',
    dict_get k (fold_left Props.merge_entry items current) = Some v' /\ Q v'.
Proof.
  intros HQ items.
  induction items as [|[key value] items IH]; intros current k v Hk Hv.
  - exists v. split; assumption.
  - cbn [fold_left].
    apply (IH _ k
             (if String.eqb k key
              then Props.turn_value (dict_get key current) value
              else v)).
    + rewrite merge_entry_get. destruct (String.eqb k key); [reflexivity|].
      exact Hk.
    + destruct (String.eqb k key) eqn:E; [|exact Hv].
      apply String.eqb_eq in E. subst key. rewrite Hk.
      unfold Props.turn_value.
      destruct v; try exact Hv.
      destruct value; try exact Hv.
      apply HQ. exact Hv.
Qed.

(** The same for a key that the defaults hold: what is true of the value
    left by the turn of that key, and preserved by later merges, is true at
    the end of the loop. *)
Lemma merge_loop_from_default (Q : pyval -> Prop) :
  (forall nested default,
     Q (VDict nested) -> Q (VDict (_merge_config default nested))) ->
  forall (items current : list (string * pyval)) (k : string)
         (value : pyval),
  dict_get k items = Some value ->
  Q (Props.turn_value (dict_get k current) value) ->
  exists v',
    dict_get k (fold_left Props.merge_entry items current) = Some v' /\ Q v'.
Proof.
  intros HQ items.
  induction items as [|[key value0] items IH]; intros current k value Hk Hv;
    [discriminate Hk|].
  cbn [fold_left]. simpl in Hk.
  destruct (String.eqb k key) eqn:E.
  - apply String.eqb_eq in E. subst key. inversion Hk; subst value0.
    apply (merge_loop_invariant Q HQ items _ k
             (Props.turn_value (dict_get k current) value)); [|exact Hv].
    rewrite merge_entry_get. now rewrite String.eqb_refl.
  - apply (IH _ k value Hk).
    rewrite merge_entry_get. now rewrite E.
Qed.

Lemma blocked_leads_nowhere (path : list string) (v : pyval) :
  Props.blocked path v = true -> Props.lookup_path path v = None.
Proof.
  revert v. induction path as [|k path IH]; intros v H; [discriminate H|].
  cbn [Props.blocked Props.lookup_path] in H |- *.
  destruct v; try reflexivity.
  destruct (dict_get k d) as [v'|]; [now apply IH | reflexivity].
Qed.

(** Every setting of the loaded configuration is still there after the
    merge, at any depth, and with its own value when that is no
    dictionary. *)
Lemma merge_keeps (path : list string) :
  forall (default : pyval) (current : list (string * pyval)) (x : pyval),
  Props.lookup_path path (VDict current) = Some x ->
  exists x',
    Props.lookup_path path (VDict (_merge_config default current)) = Some x'
    /\ (Props.scalar x -> x' = x).
Proof.
  induction path as [|k path IH]; intros default current x H.
  - inversion H; subst x. eexists. split; [reflexivity|]. intros [].
  - destruct default as [| | | | | |items];
      try (exists x; split; [exact H | reflexivity]).
    rewrite merge_config_loop. cbn [Props.lookup_path] in H |- *.
    destruct (dict_get k current) as [v|] eqn:Ek; [|discriminate H].
    destruct (merge_loop_invariant
                (fun v' => exists x', Props.lookup_path path v' = Some x' /\
                                      (Props.scalar x -> x' = x)))
      with (items := items) (current := current) (k := k) (v := v)
      as (v' & Ev' & x' & Hx' & Sx').
    + intros nested default0 (x1 & H1 & S1).
      destruct (IH default0 nested x1 H1) as (x2 & H2 & S2).
      exists x2. split; [exact H2|].
      intro Sx. rewrite <- (S1 Sx). apply S2. now rewrite (S1 Sx).
    + exact Ek.
    + exists x. split; [exact H | reflexivity].
    + rewrite Ev'. exists x'. split; assumption.
Qed.

(** A path that is blocked in the loaded configuration is blocked after
    the merge. *)
Lemma merge_keeps_blocked (path : list string) :
  forall (default : pyval) (current : list (string * pyval)),
  Props.blocked path (VDict current) = true ->
  Props.blocked path (VDict (_merge_config default current)) = true.
Proof.
  induction path as [|k path IH]; intros default current H;
    [discriminate H|].
  destruct default as [| | | | | |items]; try exact H.
  rewrite merge_config_loop. cbn [Props.blocked] in H |- *.
  destruct (dict_get k current) as [v|] eqn:Ek; [|discriminate H].
  destruct (merge_loop_invariant
              (fun v' => Props.blocked path v' = true))
    with (items := items) (current := current) (k := k) (v := v)
    as (v' & Ev' & Hv').
  - intros nested default0. apply IH.
  - exact Ek.
  - exact H.
  - now rewrite Ev'.
Qed.

(** A setting of the defaults that the loaded configuration lacks, and
    whose path is not blocked there, is there after the merge, with the
    default value when that is no dictionary. *)
Lemma merge_fills (path : list string) :
  forall (default current : list (string * pyval)) (v : pyval),
  Props.lookup_path path (VDict default) = Some v ->
  Props.lookup_path path (VDict current) = None ->
  Props.blocked path (VDict current) = false ->
  exists v',
    Props.lookup_path path (VDict (_merge_config (VDict default) current))
    = Some v' /\
    (Props.scalar v -> v' = v).
Proof.
  induction path as [|k path IH]; intros default current v Hd Hc Hb;
    [discriminate Hc|].
  rewrite merge_config_loop.
  cbn [Props.lookup_path Props.blocked] in Hd, Hc, Hb |- *.
  destruct (dict_get k default) as [dv|] eqn:Ed; [|discriminate Hd].
  destruct (merge_loop_from_default
              (fun v'' => exists v', Props.lookup_path path v'' = Some v' /\
                                     (Props.scalar v -> v' = v)))
    with (items := default) (current := current) (k := k) (value := dv)
    as (v'' & Ev'' & v' & Hv' & Sv').
  - intros nested default0 (x1 & H1 & S1).
    destruct (merge_keeps path default0 nested x1 H1) as (x2 & H2 & S2).
    exists x2. split; [exact H2|].
    intro Sx. rewrite <- (S1 Sx). apply S2. now rewrite (S1 Sx).
  - exact Ed.
  - unfold Props.turn_value.
    destruct (dict_get k current) as [cv|] eqn:Ec.
    + destruct cv as [| | | | | |nested];
        try (destruct path; [discriminate Hc | discriminate Hb]).
      destruct dv as [| | | | | |ditems];
        try (destruct path; [discriminate Hc | discriminate Hd]).
      exact (IH ditems nested v Hd Hc Hb).
    + exists v. split; [exact Hd | reflexivity].
  - rewrite Ev''. exists v'. split; assumption.
Qed.

End MergeConfig.

(** X9: merging the defaults into a loaded configuration, at every depth of
    the nested settings.  A setting of the loaded configuration is never
    dropped, and never overwritten when its value is no dictionary.  A
    setting of the defaults that the loaded configuration lacks is filled
    in, with the default value when that is no dictionary, unless the
    loaded configuration holds a value that is no dictionary somewhere
    along its path; such a path stays blocked and leads to no setting after
    the merge. *)
Theorem X9_merge_config_fills_and_keeps :
  forall (default current : list (string * pyval)) (path : list string)
         (v : pyval),
  let merged :=
    VDict (AdvancedResourceManager._merge_config (VDict default) current) in
  (Props.lookup_path path (VDict current) = Some v ->
   exists v',
     Props.lookup_path path merged = Some v' /\
     (Props.scalar v -> v' = v)) /\
  (Props.lookup_path path (VDict default) = Some v ->
   Props.lookup_path path (VDict current) = None ->
   Props.blocked path (VDict current) = false ->
   exists v',
     Props.lookup_path path merged = Some v' /\
     (Props.scalar v -> v' = v)) /\
  (Props.blocked path (VDict current) = true ->
   Props.lookup_path path merged = None).
Proof.
  intros default current path v merged. split; [|split].
  - apply merge_keeps.
  - apply merge_fills.
  - intro H. apply blocked_leads_nowhere. now apply merge_keeps_blocked.
Qed.

(** X9 on a loaded configuration that sets its own cost ceiling, two levels
    down: the ceiling stays 50, and the cost weight, which the loaded
    configuration lacks, is filled in beside it with the default 0.3. *)
Lemma X9_merge_config_fills_and_keeps_witness :
  Props.lookup_path ["optimization"; "cost_optimization"; "max_cost_per_job"]
    (VDict (AdvancedResourceManager._merge_config
              (VDict Props.default_settings) Props.loaded_settings))
  = Some (VInt 50) /\
  Props.lookup_path ["optimization"; "cost_optimization"; "cost_weight"]
    (VDict (AdvancedResourceManager._merge_config
              (VDict Props.default_settings) Props.loaded_settings))
  = Some (VFloat (FFin 0.3)).
Proof.
  destruct (X9_merge_config_fills_and_keeps Props.default_settings
              Props.loaded_settings
              ["optimization"; "cost_optimization"; "max_cost_per_job"]
              (VInt 50))
    as (Hkeep & _ & _).
  destruct (X9_merge_config_fills_and_keeps Props.default_settings
              Props.loaded_settings
              ["optimization"; "cost_optimization"; "cost_weight"]
              (VFloat (FFin 0.3)))
    as (_ & Hfill & _).
  destruct (Hkeep eq_refl) as (v1 & E1 & S1).
  destruct (Hfill eq_refl eq_refl eq_refl) as (v2 & E2 & S2).
  rewrite E1, E2, (S1 I), (S2 I). split; reflexivity.
Defined.

(** ** What the selection loop grants *)

Section Granted.
Local Open Scope Q_scope.

Variable config : Config.
Hypothesis distinct_names : NoDup (map fst (queues config)).

Lemma dict_get_of_entry {V} (k : string) (v : V) (d : list (string * V)) :
  NoDup (map fst d) -> In (k, v) d -> dict_get k d = Some v.
Proof.
  induction d as [|[k0 v0] d IH]; simpl; intros Hnd Hin; [contradiction|].
  inversion Hnd as [|? ? Hnot Hnd']; subst.
  destruct Hin as [E|Hin].
  - inversion E; subst. now rewrite String.eqb_refl.
  - destruct (String.eqb k k0) eqn:E.
    + apply String.eqb_eq in E. subst k0. exfalso. apply Hnot.
      apply in_map_iff. exists (k, v). now split.
    + now apply IH.
Qed.

Lemma available_queue_fits requirements name :
  In name (get_available_queues config requirements) ->
  exists profile,
    dict_get name (queues config) = Some profile /\
    Props.fits requirements profile.
Proof.
  unfold get_available_queues. intro H.
  apply in_map_iff in H. destruct H as ([n profile] & En & Hin).
  simpl in En. subst n. apply filter_In in Hin. destruct Hin as [Hin Hf].
  exists profile. split; [now apply dict_get_of_entry|].
  apply andb_true_iff in Hf. destruct Hf as [Hf Hw].
  apply andb_true_iff in Hf. destruct Hf as [Hc Hm].
  unfold Props.fits. apply Z.leb_le in Hc, Hm. apply Qle_bool_iff in Hw.
  auto.
Qed.

Lemma Qmin_left (x y : Q) : x <= y -> Qmin x y = x.
Proof.
  intro H. unfold Qmin, GenericMinMax.gmin.
  destruct (x ?= y) eqn:E; try reflexivity.
  exfalso. apply Qgt_alt in E. exact (Qlt_not_le _ _ E H).
Qed.

(** The adequacy of a resource that is granted as requested. *)
Lemma adequacy_one (c : Z) (ratio : Q) :
  Qdiv_py (inject_Z c) (inject_Z c) = Ok ratio -> Qmin 1.0 ratio == 1.
Proof.
  unfold Qdiv_py. destruct (Qeq_bool (inject_Z c) 0) eqn:E; [discriminate|].
  intro H. inversion H; subst ratio.
  assert (Hc : ~ inject_Z c == 0).
  { intro H0. apply Qeq_bool_iff in H0. congruence. }
  assert (Hr : inject_Z c / inject_Z c == 1) by (field; exact Hc).
  rewrite Q.min_l; [reflexivity|]. rewrite Hr. discriminate.
Qed.

Lemma consider_queue_as_requested requirements best name best' :
  In name (get_available_queues config requirements) ->
  Props.best_as_requested config requirements best ->
  consider_queue config requirements best name = Ok best' ->
  Props.best_as_requested config requirements best'.
Proof.
  intros Hin Hbest E.
  destruct (available_queue_fits requirements name Hin)
    as (profile & Hq & Hc & Hm & Hw).
  unfold consider_queue in E. destruct best as [best_allocation best_score].
  rewrite Hq in E.
  rewrite (Z.min_l _ _ Hc), (Z.min_l _ _ Hm), (Qmin_left _ _ Hw) in E.
  destruct (predict_job_duration _ _ _ _) as [d|]; [|discriminate E].
  cbv beta iota delta [bind] in E.
  unfold predict_job_success_probability in E.
  destruct (Qdiv_py (inject_Z (req_cpus requirements)) _) as [rc|] eqn:Erc;
    [|discriminate E].
  cbv beta iota delta [bind] in E.
  destruct (Qdiv_py (inject_Z (req_memory_gb requirements)) _) as [rm|]
    eqn:Erm; [|discriminate E].
  cbv beta iota delta [bind] in E.
  match type of E with
  | (if ?b then _ else _) = _ => destruct b
  end; inversion E; subst; [|exact Hbest].
  unfold Props.best_as_requested, Props.as_requested. simpl.
  repeat split; try reflexivity.
  - rewrite (adequacy_one _ _ Erc), (adequacy_one _ _ Erm). field.
  - exists profile. split; [exact Hq|]. split; [exact Hc|].
    split; [exact Hm | exact Hw].
Qed.

Lemma fold_result_invariant_in {S B} (P : S -> Prop)
    (f : S -> B -> result S) (l : list B) :
  (forall s b s', In b l -> P s -> f s b = Ok s' -> P s') ->
  forall a r, P a -> fold_result f l a = Ok r -> P r.
Proof.
  induction l as [|b l IH]; intros Hstep a r Ha E; simpl in E.
  - inversion E; subst. exact Ha.
  - destruct (f a b) as [s'|e] eqn:Ef; simpl in E; [|discriminate E].
    apply (IH (fun s x s'' Hx => Hstep s x s'' (or_intror Hx)) s' r);
      [|exact E].
    exact (Hstep a b s' (or_introl eq_refl) Ha Ef).
Qed.

Lemma optimal_allocation_as_requested requirements resources a :
  _calculate_optimal_allocation config requirements resources = Ok (Some a) ->
  Props.as_requested config requirements a.
Proof.
  unfold _calculate_optimal_allocation. intro E.
  destruct (fold_result _ _ _) as [[best score]|] eqn:Ef; [|discriminate E].
  simpl in E. inversion E; subst.
  exact (fold_result_invariant_in
           (Props.best_as_requested config requirements) _ _
           (fun s b s' Hb => consider_queue_as_requested requirements s b s' Hb)
           (None, None) (Some a, score) I Ef).
Qed.

End Granted.

(** X10: with distinct queue names, as a dictionary has them, a successful
    allocation is on a configured queue that the request fits, keeps the
    requested walltime and has a success probability equal to the
    reliability of the chosen queue (0.95, 0.98, 0.90 or 0.85); it grants
    exactly the requested cpus and memory when the estimated cost is within
    the ceiling, and max(1, cpus // 2) and max(8, memory // 2) otherwise. *)
Theorem X10_allocation_grants_the_request :
  forall probe now config requirements history a,
  NoDup (map fst (queues config)) ->
  fst (allocate_resources probe now config requirements history) = Ok a ->
  (exists profile,
     dict_get (queue a) (queues config) = Some profile /\
     Props.fits requirements profile) /\
  walltime_hours a = req_walltime_hours requirements /\
  (success_probability a == _get_queue_reliability (queue a))%Q /\
  let cost :=
    estimate_job_cost config (req_cpus requirements)
      (req_memory_gb requirements) (req_walltime_hours requirements)
      (queue a) in
  ((cost <= max_cost_per_job (cost_optimization config))%Q /\
   cpus a = req_cpus requirements /\
   memory_gb a = req_memory_gb requirements /\
   estimated_cost a = cost) \/
  ((max_cost_per_job (cost_optimization config) < cost)%Q /\
   cpus a = Z.max 1 (req_cpus requirements / 2) /\
   memory_gb a = Z.max 8 (req_memory_gb requirements / 2)).
Proof.
  intros probe now config requirements history a Hnd E.
  unfold allocate_resources in E.
  destruct (get_current_resources probe now history) as [res h'].
  destruct (_calculate_optimal_allocation config requirements res)
    as [[b|]|e] eqn:Eo; cbv beta iota delta [bind] in E;
    try discriminate E.
  apply (optimal_allocation_as_requested config Hnd) in Eo.
  destruct Eo as (Hc & Hm & Hw & Hs & Hcost & Hq).
  unfold _validate_allocation in E. rewrite Hcost in E.
  destruct (Qlt_bool_reflect (max_cost_per_job (cost_optimization config))
              (estimate_job_cost config (req_cpus requirements)
                 (req_memory_gb requirements)
                 (req_walltime_hours requirements) (queue b)))
    as [Hover|Hunder]; cbv beta iota delta [fst] in E;
    inversion E; subst a; clear E; simpl.
  - split; [exact Hq|]. split; [exact Hw|]. split; [exact Hs|].
    right. rewrite Hc, Hm. auto.
  - split; [exact Hq|]. split; [exact Hw|]. split; [exact Hs|].
    left. split; [now apply Qnot_lt_le | auto].
Qed.

(** X10 on the default configuration and the request of the test in
    [main]. *)
Lemma X10_allocation_grants_the_request_witness :
  exists a,
    fst (allocate_resources (Ok Spec.ample_host) "2025-01-01T00:00:00"
           default_config Spec.test_requirements Spec.empty_history) = Ok a /\
    walltime_hours a = 72%Q.
Proof.
  eexists. split; [vm_compute; reflexivity|].
  refine (proj1 (proj2 (X10_allocation_grants_the_request
                          (Ok Spec.ample_host) "2025-01-01T00:00:00"
                          default_config Spec.test_requirements
                          Spec.empty_history _ _ _))).
  - simpl. repeat constructor; simpl; intuition discriminate.
  - vm_compute. reflexivity.
Defined.

(** ** The cost correction *)

Section CostCorrection.
Local Open Scope Q_scope.

Lemma estimate_job_cost_rate config c m w queue :
  estimate_job_cost config c m w queue
  = inject_Z c * w * Props.cost_rate config queue
    * (1 + inject_Z m / 128 * 0.1).
Proof.
  reflexivity.
Qed.

(** The estimate grows with the cpus and with the memory. *)
Lemma estimate_job_cost_monotone config c c' m m' w queue :
  (0 <= c' <= c)%Z -> (0 <= m' <= m)%Z -> 0 <= w ->
  0 <= Props.cost_rate config queue ->
  estimate_job_cost config c' m' w queue
  <= estimate_job_cost config c m w queue.
Proof.
  intros [Hc0 Hc] [Hm0 Hm] Hw Hr. rewrite !estimate_job_cost_rate.
  set (rate := Props.cost_rate config queue) in *.
  assert (Qc0 : 0 <= inject_Z c') by (change 0 with (inject_Z 0);
                                      now rewrite <- Zle_Qle).
  assert (Qc : inject_Z c' <= inject_Z c) by now rewrite <- Zle_Qle.
  assert (Qm0 : 0 <= inject_Z m') by (change 0 with (inject_Z 0);
                                      now rewrite <- Zle_Qle).
  assert (Qm : inject_Z m' <= inject_Z m) by now rewrite <- Zle_Qle.
  assert (Hwr : 0 <= w * rate) by (apply Qmult_le_0_compat; assumption).
  assert (H1 : inject_Z c' * (w * rate) <= inject_Z c * (w * rate))
    by (apply Qmult_le_compat_r; assumption).
  assert (H0 : 0 <= inject_Z c' * (w * rate))
    by (apply Qmult_le_0_compat; assumption).
  assert (F0 : 0 <= 1 + inject_Z m' / 128 * 0.1).
  { unfold Qdiv. change (/ 128) with (1 # 128). lra. }
  assert (F : 1 + inject_Z m' / 128 * 0.1 <= 1 + inject_Z m / 128 * 0.1).
  { unfold Qdiv. change (/ 128) with (1 # 128). lra. }
  apply Qle_trans with (inject_Z c' * (w * rate)
                        * (1 + inject_Z m / 128 * 0.1)).
  - rewrite <- !Qmult_assoc.
    setoid_replace (inject_Z c' * (w * (rate * (1 + inject_Z m' / 128 * 0.1))))
      with ((1 + inject_Z m' / 128 * 0.1) * (inject_Z c' * (w * rate)))
      by ring.
    setoid_replace (inject_Z c' * (w * (rate * (1 + inject_Z m / 128 * 0.1))))
      with ((1 + inject_Z m / 128 * 0.1) * (inject_Z c' * (w * rate)))
      by ring.
    apply Qmult_le_compat_r; assumption.
  - setoid_replace (inject_Z c * w * rate) with (inject_Z c * (w * rate))
      by ring.
    apply Qmult_le_compat_r; [exact H1|]. lra.
Qed.

End CostCorrection.

(** X11: for an allocation of at least 1 cpu and 8 GB with a walltime and a
    queue rate that are not negative, whose estimated cost is the estimate
    for its resources, the cost correction never raises the estimated cost:
    the cost recorded after validation is at most the cost before. *)
Theorem X11_correction_does_not_raise_cost :
  forall config (a a' : ResourceAllocation) resources,
  1 <= cpus a -> 8 <= memory_gb a ->
  (0 <= walltime_hours a)%Q ->
  (0 <= Props.cost_rate config (queue a))%Q ->
  estimated_cost a
  = estimate_job_cost config (cpus a) (memory_gb a) (walltime_hours a)
      (queue a) ->
  _validate_allocation config (Some a) resources = Ok a' ->
  (estimated_cost a' <= estimated_cost a)%Q /\
  cpus a' <= cpus a /\ memory_gb a' <= memory_gb a.
Proof.
  intros config a a' resources Hc Hm Hw Hr Hcost E.
  unfold _validate_allocation in E.
  destruct (Qlt_bool _ _); inversion E; subst a'; clear E; simpl.
  - pose proof (half_le_max (cpus a)). pose proof (half_le_max (memory_gb a)).
    split; [|lia]. rewrite Hcost.
    apply estimate_job_cost_monotone; try assumption; lia.
  - split; [apply Qle_refl | lia].
Qed.

(** X11 on 32 cpus and 128 GB for 100 hours on the [normal] queue, whose
    cost 352 is above the ceiling. *)
Lemma X11_correction_does_not_raise_cost_witness :
  exists a',
    _validate_allocation default_config
      (Some {| cpus := 32; memory_gb := 128; walltime_hours := 100;
               queue := "normal";
               estimated_cost :=
                 estimate_job_cost default_config 32 128 100 "normal";
               estimated_duration_hours := 1;
               success_probability := 0.95 |}) None = Ok a' /\
    cpus a' <= 32.
Proof.
  eexists. split; [vm_compute; reflexivity|].
  refine (proj1 (proj2 (X11_correction_does_not_raise_cost default_config
                          {| cpus := 32; memory_gb := 128;
                             walltime_hours := 100; queue := "normal";
                             estimated_cost :=
                               estimate_job_cost default_config 32 128 100
                                 "normal";
                             estimated_duration_hours := 1;
                             success_probability := 0.95 |}
                          _ None _ _ _ _ eq_refl _)));
    simpl; try lia; try (vm_compute; discriminate).
  vm_compute. reflexivity.
Defined.

(** ** Chunk sizing at the edges *)

(** X12: a strategy name that the configuration does not hold makes the
    chunk sizing fail with KeyError when a telemetry sample was obtained,
    but goes unnoticed when sensing failed: the fallback then still answers
    with the maximum of the balanced strategy. *)
Theorem X12_unknown_strategy :
  forall probe now config total strategy history,
  dict_get strategy (chunk_strategies config) = None ->
  fst (calculate_optimal_chunk_size probe now config total strategy history)
  = match fst (get_current_resources probe now history) with
    | Some _ => Raise "KeyError"
    | None =>
        match dict_get "balanced" (chunk_strategies config) with
        | Some balanced => Ok (max_chunk_size balanced)
        | None => Raise "KeyError"
        end
    end.
Proof.
  intros probe now config total strategy history Hk.
  unfold calculate_optimal_chunk_size.
  destruct (get_current_resources probe now history) as [[res|] h']; simpl.
  - now rewrite Hk.
  - reflexivity.
Qed.

(** X12 on the default configuration and a strategy called [fastest]. *)
Lemma X12_unknown_strategy_witness :
  fst (calculate_optimal_chunk_size (Ok Spec.ample_host)
         "2025-01-01T00:00:00" default_config 10000 "fastest"
         Spec.empty_history)
  = Raise "KeyError".
Proof.
  apply (X12_unknown_strategy (Ok Spec.ample_host) "2025-01-01T00:00:00"
           default_config 10000 "fastest" Spec.empty_history).
  reflexivity.
Defined.

(** X13: when the telemetry sample shows at most 5 available cpus, the
    chunk size is the minimum of 100 for every configured strategy and
    every number of items, however much storage is free. *)
Theorem X13_few_cpus_give_minimum :
  forall probe now config total strategy strategy_config history resources
         history',
  get_current_resources probe now history = (Some resources, history') ->
  dict_get strategy (chunk_strategies config) = Some strategy_config ->
  cpu_available resources <= 5 ->
  fst (calculate_optimal_chunk_size probe now config total strategy history)
  = Ok min_chunk_size.
Proof.
  intros probe now config total strategy sc history res h' Hs Hk Hcpu.
  destruct (chunk_size_with_sample probe now config total strategy history
              res h' sc Hs Hk) as (bound & E & Hb).
  rewrite E. f_equal. unfold min_chunk_size. lia.
Qed.

(** X13 on a host whose 64 cpus are 95% busy. *)
Lemma X13_few_cpus_give_minimum_witness :
  fst (calculate_optimal_chunk_size
         (Ok {| cpu_count := 64; cpu_percent := 95;
                memory_total := 2 ^ 40; memory_available := 2 ^ 39;
                memory_percent := 50;
                disk_total := 2 ^ 50; disk_used := 2 ^ 40;
                disk_free := 2 ^ 49;
                lsf_info := []; network_info := [] |})
         "2025-01-01T00:00:00" default_config 10000 "time_optimized"
         Spec.empty_history)
  = Ok min_chunk_size.
Proof.
  refine (X13_few_cpus_give_minimum
            (Ok {| cpu_count := 64; cpu_percent := 95;
                   memory_total := 2 ^ 40; memory_available := 2 ^ 39;
                   memory_percent := 50;
                   disk_total := 2 ^ 50; disk_used := 2 ^ 40;
                   disk_free := 2 ^ 49;
                   lsf_info := []; network_info := [] |})
            "2025-01-01T00:00:00" default_config 10000 "time_optimized" _
            Spec.empty_history _ _ eq_refl eq_refl _).
  vm_compute. discriminate.
Defined.

(** ** The history-based prediction *)

Section RecentJobs.
Context {A : Type}.

Lemma last_n_app (n : nat) (old recent : list A) :
  (n <= List.length recent)%nat ->
  last_n n (old ++ recent) = last_n n recent.
Proof.
  intro H. unfold last_n. rewrite length_app, skipn_app.
  rewrite skipn_all2 by lia. simpl. f_equal. lia.
Qed.

End RecentJobs.

(** X14: the history-based chunk size prediction reads only the 100 most
    recent job records: older records, however many, do not change it. *)
Theorem X14_prediction_reads_last_100 :
  forall (old recent : list JobRecord) (usage usage' : list Resources)
         (total total' : Z) (strategy strategy' : string),
  (100 <= List.length recent)%nat ->
  predict_optimal_chunk_size
    {| job_history := old ++ recent; resource_usage := usage |}
    total strategy
  = predict_optimal_chunk_size
      {| job_history := recent; resource_usage := usage' |}
      total' strategy'.
Proof.
  intros old recent usage usage' total total' strategy strategy' H.
  unfold predict_optimal_chunk_size. simpl job_history.
  rewrite (last_n_app 100 old recent H).
  destruct recent as [|r recent]; [simpl in H; lia|].
  destruct (old ++ r :: recent)%list eqn:E; [|reflexivity].
  apply app_eq_nil in E. destruct E as [_ E]. discriminate E.
Qed.

(** X14 on one old record of 64 cpus before a hundred records of 8 cpus. *)
Lemma X14_prediction_reads_last_100_witness :
  let record c :=
    {| timestamp := "2025-01-01T00:00:00";
       requirements :=
         {| rec_cpus := c; rec_memory_gb := 128; rec_walltime_hours := 72;
            rec_storage_gb := 5.0; rec_priority := 1 |};
       allocation :=
         {| cpus := c; memory_gb := 128; walltime_hours := 72;
            queue := "long"; estimated_cost := 1;
            estimated_duration_hours := 1;
            success_probability := 0.90 |} |} in
  predict_optimal_chunk_size
    {| job_history := [record 64] ++ repeat (record 8) 100;
       resource_usage := [] |} 10000 "balanced"
  = predict_optimal_chunk_size
      {| job_history := repeat (record 8) 100; resource_usage := [] |}
      10000 "balanced".
Proof.
  intro record.
  apply (X14_prediction_reads_last_100 [record 64] (repeat (record 8) 100)).
  rewrite repeat_length. lia.
Defined.

(** ** Workload balancing *)

Section Balancing.
Import WorkloadBalancer.

Lemma key_leb_lex (a b : Z * Z * Z) :
  key_leb a b = true <->
  let '(a1, a2, a3) := a in
  let '(b1, b2, b3) := b in
  a1 < b1 \/ (a1 = b1 /\ (a2 < b2 \/ (a2 = b2 /\ a3 <= b3))).
Proof.
  destruct a as [[a1 a2] a3], b as [[b1 b2] b3]. unfold key_leb.
  destruct (Z.ltb_spec a1 b1); [split; [lia | reflexivity]|].
  destruct (Z.ltb_spec b1 a1); [split; [discriminate | lia]|].
  destruct (Z.ltb_spec a2 b2); [split; [lia | reflexivity]|].
  destruct (Z.ltb_spec b2 a2); [split; [discriminate | lia]|].
  rewrite Z.leb_le. lia.
Qed.

Lemma in_key_order_total (a b : JobRequirements) :
  key_leb (key a) (key b) = false -> Props.in_key_order b a.
Proof.
  unfold Props.in_key_order. intro H.
  apply key_leb_lex. 
  assert (N : ~ key_leb (key a) (key b) = true) by congruence.
  rewrite key_leb_lex in N.
  destruct (key a) as [[a1 a2] a3], (key b) as [[b1 b2] b3]. lia.
Qed.

Lemma in_key_order_trans (a b c : JobRequirements) :
  Props.in_key_order a b -> Props.in_key_order b c -> Props.in_key_order a c.
Proof.
  unfold Props.in_key_order. rewrite !key_leb_lex.
  destruct (key a) as [[a1 a2] a3], (key b) as [[b1 b2] b3],
    (key c) as [[c1 c2] c3]. lia.
Qed.

Lemma insert_job_permutation (x : JobRequirements) l :
  Permutation (x :: l) (insert_job x l).
Proof.
  induction l as [|y l IH]; cbn [insert_job]; [apply Permutation_refl|].
  destruct (key_leb (key x) (key y)); [apply Permutation_refl|].
  apply perm_trans with (y :: x :: l); [apply perm_swap|].
  now apply perm_skip.
Qed.

Lemma insert_job_sorted (x : JobRequirements) l :
  StronglySorted Props.in_key_order l ->
  StronglySorted Props.in_key_order (insert_job x l).
Proof.
  induction 1 as [|y l Hs IH Hy]; cbn [insert_job].
  - repeat constructor.
  - destruct (key_leb (key x) (key y)) eqn:E.
    + constructor; [constructor; assumption|].
      constructor; [exact E|].
      rewrite Forall_forall in *. intros z Hz.
      exact (in_key_order_trans x y z E (Hy z Hz)).
    + constructor; [exact IH|].
      apply (Permutation_Forall (insert_job_permutation x l)).
      constructor; [now apply in_key_order_total | exact Hy].
Qed.

Lemma sorted_by_key_fixed l :
  StronglySorted Props.in_key_order l -> sorted_by_key l = l.
Proof.
  induction 1 as [|y l Hs IH Hy]; cbn [sorted_by_key]; [reflexivity|].
  rewrite IH. destruct l as [|z l]; [reflexivity|]. cbn [insert_job].
  inversion Hy as [|? ? Hyz _]; subst.
  unfold Props.in_key_order in Hyz. now rewrite Hyz.
Qed.

End Balancing.

(** X15: the balanced workload holds exactly the pending jobs, none lost
    and none added, ordered by priority, then cpus, then memory; balancing
    a balanced workload changes nothing, so jobs with equal keys keep their
    order. *)
Theorem X15_balance_workload_sorts :
  forall pending_jobs : list JobRequirements,
  Permutation pending_jobs (WorkloadBalancer.balance_workload pending_jobs) /\
  StronglySorted Props.in_key_order
    (WorkloadBalancer.balance_workload pending_jobs) /\
  WorkloadBalancer.balance_workload
    (WorkloadBalancer.balance_workload pending_jobs)
  = WorkloadBalancer.balance_workload pending_jobs.
Proof.
  intro jobs. unfold WorkloadBalancer.balance_workload.
  assert (P : Permutation jobs (WorkloadBalancer.sorted_by_key jobs)).
  { induction jobs as [|x l IH]; simpl; [constructor|].
    apply perm_trans with (x :: WorkloadBalancer.sorted_by_key l).
    - now apply perm_skip.
    - apply insert_job_permutation. }
  assert (S : StronglySorted Props.in_key_order
                (WorkloadBalancer.sorted_by_key jobs)).
  { induction jobs as [|x l IH]; simpl; [constructor|].
    apply insert_job_sorted. apply IH.
    clear. induction l as [|y l IH]; simpl; [constructor|].
    apply perm_trans with (y :: WorkloadBalancer.sorted_by_key l).
    - now apply perm_skip.
    - apply insert_job_permutation. }
  split; [exact P|]. split; [exact S|]. now apply sorted_by_key_fixed.
Qed.

(** ** Decisions that ignore the state *)

(** X19: the allocation decision depends on the configuration and the
    request only: whether the host probe answers or fails, and whatever the
    history holds, the allocation returned (or the failure) is the same. *)
Theorem X19_allocation_ignores_telemetry_and_history :
  forall probe probe' now now' config requirements history history',
  fst (allocate_resources probe now config requirements history)
  = fst (allocate_resources probe' now' config requirements history').
Proof.
  intros probe probe' now now' config requirements history history'.
  unfold allocate_resources.
  destruct (get_current_resources probe now history) as [res h].
  destruct (get_current_resources probe' now' history') as [res' h'].
  change (_calculate_optimal_allocation config requirements res')
    with (_calculate_optimal_allocation config requirements res).
  destruct (_calculate_optimal_allocation config requirements res)
    as [[a|]|e]; cbv beta iota delta [bind]; try reflexivity.
  change (_validate_allocation config (Some a) res')
    with (_validate_allocation config (Some a) res).
  destruct (_validate_allocation config (Some a) res); reflexivity.
Qed.

(** ** The manager's storage failure report *)

Section ManagerStorage.
Local Open Scope Q_scope.

Lemma inject_Z_nonzero (z : Z) :
  z <> 0%Z -> Qeq_bool (inject_Z z) 0 = false.
Proof.
  intro H. destruct (Qeq_bool (inject_Z z) 0) eqn:E; [|reflexivity].
  apply Qeq_bool_iff in E. exfalso. apply H.
  unfold Qeq, inject_Z in E. simpl in E. lia.
Qed.

(** At the growth estimate of the manager, every usage fraction gives a
    time to failure below 24 hours. *)
Lemma time_to_failure_at_manager_growth (u : Q) :
  0 <= u ->
  exists t,
    StorageFailurePredictor._estimate_time_to_failure (FFin u) (FFin 0.05)
    = Ok t /\
    flt t (FFin 24) = true.
Proof.
  intro Hu.
  destruct (time_to_failure_cases u 0.05) as [[Hle _]|[_ E]].
  - exfalso. revert Hle. vm_compute. intro H. now apply H.
  - rewrite E. eexists. split; [reflexivity|].
    unfold pymax. simpl flt.
    destruct (Qlt_bool 0 ((1 - u - 0.02) / 0.05)); simpl flt;
      [|reflexivity].
    apply Qlt_bool_iff. unfold Qdiv. change (/ 0.05) with (100 # 5). lra.
Qed.

End ManagerStorage.

(** X16: through the manager, which feeds the predictor a fixed growth
    estimate of 0.05 per hour, the storage failure prediction for a readable
    file system always recommends the emergency procedures for a failure
    within 24 hours, whatever the usage is, and grades the risk CRITICAL
    only when more than 5 IO errors are read. *)
Theorem X16_manager_storage_always_urgent :
  forall float_of_str (io_error_rate : Z)
         (statvfs : AdvancedResourceManager.StatVfs) (health : pyval),
  AdvancedResourceManager.f_frsize statvfs
  * AdvancedResourceManager.f_blocks statvfs <> 0 ->
  exists d,
    AdvancedResourceManager.predict_storage_failure float_of_str (Ok statvfs)
      io_error_rate (Ok health) = VDict d /\
    dict_get "recommendations" d = Some Props.urgent_recommendations /\
    (dict_get "risk_level" d = Some (VStr "CRITICAL") ->
     5 < io_error_rate).
Proof.
  intros fos io sv health Htotal.
  unfold AdvancedResourceManager.predict_storage_failure.
  cbv beta iota delta [bind]. unfold fdiv, of_Z.
  rewrite (inject_Z_nonzero _ Htotal).
  cbv beta iota delta [bind try_except_all].
  unfold StorageFailurePredictor.predict_storage_failure.
  match goal with
  | |- context [StorageFailurePredictor.validate_usage fos (VFloat ?x)] =>
      destruct (validate_usage_unit fos x) as (u & Eu & Hu); rewrite Eu
  end.
  change (StorageFailurePredictor.validate_growth fos (VFloat (FFin 0.05)))
    with (@Ok pyfloat (FFin 0.05)).
  cbv beta iota delta [bind].
  destruct (time_to_failure_at_manager_growth u (proj1 Hu)) as (t & Et & Ht).
  rewrite Et. cbv beta iota delta [bind try_except_all].
  eexists. split; [reflexivity|]. split.
  - unfold StorageFailurePredictor._get_recommendations. now rewrite Ht.
  - intro H. simpl in H. inversion H as [Hlevel].
    apply storage_critical_iff in Hlevel.
    destruct Hlevel as [[_ [Hg|Hio]]|[_ [Hg _]]]; try exact Hio;
      exfalso; revert Hg; vm_compute; discriminate.
Qed.

(** X16 on a file system of 1000 blocks of 4096 bytes, 900 of them free. *)
Lemma X16_manager_storage_always_urgent_witness :
  exists d,
    AdvancedResourceManager.predict_storage_failure (fun _ => None)
      (Ok {| AdvancedResourceManager.f_frsize := 4096;
             AdvancedResourceManager.f_blocks := 1000;
             AdvancedResourceManager.f_bavail := 900 |})
      0 (Ok VNone) = VDict d /\
    dict_get "recommendations" d = Some Props.urgent_recommendations.
Proof.
  destruct (X16_manager_storage_always_urgent (fun _ => None) 0
              {| AdvancedResourceManager.f_frsize := 4096;
                 AdvancedResourceManager.f_blocks := 1000;
                 AdvancedResourceManager.f_bavail := 900 |} VNone)
    as (d & E & Hrec & _).
  - simpl. lia.
  - exists d. split; assumption.
Defined.

(** ** The manager's exhaustion report *)

Section ManagerExhaustion.
Import ResourceExhaustionPredictor.

Variable float_of_str : string -> option pyfloat.
Variable int_of_str : string -> option Z.

(** Reads the fields that a predictor takes from a literal dictionary. *)
Ltac read_fields :=
  cbv zeta;
  repeat match goal with
         | |- context [dict_get_default ?k ?default ?d] =>
             let v := eval lazy in (dict_get_default k default d) in
             change (dict_get_default k default d) with v
         end.

Lemma cpu_entry_of_sample (usage_percent : Q) (available : Z) :
  Props.graded_entry
    (_predict_cpu_exhaustion float_of_str int_of_str
       (VDict [("usage_percent", VFloat (FFin usage_percent));
               ("available", VInt available)])).
Proof.
  unfold Props.graded_entry, _predict_cpu_exhaustion.
  read_fields.
  destruct (validate_usage_percent_unit float_of_str
              (VFloat (FFin usage_percent))) as (u & E & _).
  rewrite E.
  change (validate_available int_of_str (VInt available))
    with (@Ok Z (Z.max 0 available)).
  cbv beta iota delta [bind try_except_all].
  eexists. split; [reflexivity|]. split; [apply risk_level_graded|].
  reflexivity.
Qed.

Lemma memory_entry_of_sample (usage_percent available_gb : Q) :
  Props.graded_entry
    (_predict_memory_exhaustion float_of_str
       (VDict [("usage_percent", VFloat (FFin usage_percent));
               ("available_gb", VFloat (FFin available_gb))])).
Proof.
  unfold Props.graded_entry, _predict_memory_exhaustion.
  read_fields.
  destruct (validate_usage_percent_unit float_of_str
              (VFloat (FFin usage_percent))) as (u & E & _).
  rewrite E.
  change (validate_gb float_of_str (VFloat (FFin available_gb)))
    with (@Ok pyfloat (pymax (FFin 0) (FFin available_gb))).
  cbv beta iota delta [bind try_except_all].
  eexists. split; [reflexivity|]. split; [apply risk_level_graded|].
  reflexivity.
Qed.

Lemma storage_entry_of_sample (usage_percent free_gb : Q) :
  Props.graded_entry
    (_predict_storage_exhaustion float_of_str
       (VDict [("usage_percent", VFloat (FFin usage_percent));
               ("free_gb", VFloat (FFin free_gb))])).
Proof.
  unfold Props.graded_entry, _predict_storage_exhaustion.
  read_fields.
  destruct (validate_usage_percent_unit float_of_str
              (VFloat (FFin usage_percent))) as (u & E & _).
  rewrite E.
  change (validate_gb float_of_str (VFloat (FFin free_gb)))
    with (@Ok pyfloat (pymax (FFin 0) (FFin free_gb))).
  cbv beta iota delta [bind try_except_all].
  eexists. split; [reflexivity|]. split; [apply risk_level_graded|].
  reflexivity.
Qed.

(** A per-queue entry of a dictionary datum is a dictionary that holds
    one of the four risk levels, or none when the utilization is beyond the
    range of a float. *)
Lemma queue_entry_graded (d : list (string * pyval)) :
  exists e,
    queue_entry int_of_str (VDict d) = VDict e /\
    (dict_get "risk_level" e = None \/
     exists level,
       dict_get "risk_level" e = Some (VStr level) /\ Props.graded level).
Proof.
  destruct (queue_counts_converted int_of_str d)
    as (p & r & m & E & _ & _ & Hm).
  rewrite (queue_entry_of_counts int_of_str d p r m E Hm). cbv zeta.
  destruct (float_overflows _).
  - eexists. split; [reflexivity|]. now left.
  - eexists. split; [reflexivity|]. right.
    eexists. split; [reflexivity | apply risk_level_graded].
Qed.

Lemma dict_get_In {V} (k : string) (v : V) (d : list (string * V)) :
  dict_get k d = Some v -> In (k, v) d.
Proof.
  induction d as [|[k0 v0] d IH]; simpl; [discriminate|].
  destruct (String.eqb k k0) eqn:E.
  - apply String.eqb_eq in E. subst k0. intro H. inversion H. now left.
  - intro H. right. now apply IH.
Qed.

Lemma In_dict_mem {V} (k : string) (v : V) (d : list (string * V)) :
  In (k, v) d -> dict_mem k d = true.
Proof.
  unfold dict_mem. induction d as [|[k0 v0] d IH]; simpl; [contradiction|].
  destruct (String.eqb k k0) eqn:E; [reflexivity|].
  intros [H|H]; [|now apply IH].
  inversion H; subst. now rewrite String.eqb_refl in E.
Qed.

(** The queue dictionary that the manager's own sample produces. *)
Lemma queue_entries_of_sample (queues : list (string * QueueStatus)) :
  exists entries,
    _predict_queue_exhaustion int_of_str
      (VDict (map (fun '(name, q) =>
                     (name, AdvancedResourceManager.queue_status_dict q))
                queues))
    = VDict entries /\
    Forall
      (fun '(name, e) =>
         exists d,
           e = VDict d /\
           (dict_get "risk_level" d = None \/
            exists level,
              dict_get "risk_level" d = Some (VStr level) /\
              Props.graded level))
      entries /\
    (dict_mem "risk_level" queues = false ->
     dict_get "risk_level" entries = None).
Proof.
  eexists. split; [reflexivity|]. split.
  - apply Forall_forall. intros [name e] Hin.
    destruct (queue_entries_come_from_input int_of_str _ _ _ _ Hin)
      as [[]|(x & Hx & ->)].
    apply in_map_iff in Hx. destruct Hx as ([n q] & Eq & _).
    inversion Eq; subst.
    destruct (queue_entry_graded
                [("pending", VInt (pending q));
                 ("running", VInt (running q));
                 ("suspended", VInt (suspended q));
                 ("max_jobs", VInt (status_max_jobs q));
                 ("cpu_limit", VInt (cpu_limit q))])
      as (d & E & Hl).
    exists d. split; [exact E | exact Hl].
  - intro Hno.
    match goal with
    | |- dict_get _ ?entries = None =>
        destruct (dict_get "risk_level" entries) as [e|] eqn:E;
        [|reflexivity]
    end.
    apply dict_get_In in E.
    destruct (queue_entries_come_from_input int_of_str _ _ _ _ E)
      as [[]|(x & Hx & _)].
    apply in_map_iff in Hx. destruct Hx as ([n q] & Eq & Hq).
    inversion Eq; subst n.
    apply In_dict_mem in Hq. congruence.
Qed.

(** The risks collected from three graded entries and the queue
    dictionary. *)
Lemma collect_risks_of_sample (c m s : pyval)
    (entries : list (string * pyval)) :
  Props.graded_entry c -> Props.graded_entry m -> Props.graded_entry s ->
  Forall
    (fun '(name, e) =>
       exists d,
         e = VDict d /\
         (dict_get "risk_level" d = None \/
          exists level,
            dict_get "risk_level" d = Some (VStr level) /\
            Props.graded level))
    entries ->
  dict_get "risk_level" entries = None ->
  exists r rs,
    collect_risks
      [("cpu", c); ("memory", m); ("storage", s); ("queues", VDict entries)]
    = r :: rs /\
    Forall Props.graded_risk (r :: rs).
Proof.
  intros (lc & Hc & Gc & Ec) (lm & Hm & Gm & Em) (ls & Hs & Gs & Es)
    Hentries Hnone.
  destruct c as [| | | | | |dc]; try discriminate Hc.
  destruct m as [| | | | | |dm]; try discriminate Hm.
  destruct s as [| | | | | |ds]; try discriminate Hs.
  simpl in Hc, Hm, Hs, Ec, Em, Es.
  unfold collect_risks. cbn [fold_left].
  rewrite Ec, Em, Es, Hc, Hm, Hs, Hnone. cbn [app].
  exists (VStr lc).
  destruct (dict_mem "error" entries).
  - eexists. split; [reflexivity|].
    repeat constructor; eexists; split; try reflexivity; assumption.
  - eexists. split; [reflexivity|].
    repeat (constructor; [eexists; split; [reflexivity | assumption]|]).
    apply Forall_forall. intros x Hx. apply in_flat_map in Hx.
    destruct Hx as ([name e] & Hin & Hx).
    rewrite Forall_forall in Hentries.
    destruct (Hentries _ Hin) as (d & -> & [Hl|(level & Hl & Hg)]);
      rewrite Hl in Hx; [destruct Hx|].
    destruct Hx as [<-|[]].
    exists level. split; [reflexivity | exact Hg].
Qed.

End ManagerExhaustion.

(** X17: the manager's exhaustion report.  When sensing fails (a probe of
    the host raises, or the disk has size zero) the report is the error
    dictionary for a TypeError and the history is left as it was: nothing is
    recorded.  When sensing gives a sample, the history after the report is
    the history before it with that sample appended to the telemetry under
    the cap, the entries for cpu, memory and storage each carry one of the
    four risk levels and no error, and, unless a queue is itself named
    risk_level, the overall risk level is one of the four levels as well,
    never UNKNOWN. *)
Theorem X17_manager_exhaustion_report :
  forall float_of_str int_of_str probe now history,
  match (readings <- probe ;; build_resources now readings) with
  | Ok resources =>
      exists r,
        AdvancedResourceManager.predict_resource_exhaustion float_of_str
          int_of_str probe now history
        = (r,
           {| job_history := job_history history;
              resource_usage :=
                append_capped (resource_usage history) resources |}) /\
        Forall
          (fun resource =>
             exists o,
               Spec.resource_prediction r resource = Some o /\
               Props.graded_entry o)
          ["cpu"; "memory"; "storage"] /\
        (dict_mem "risk_level" (lsf resources) = false ->
         exists overall level,
           Props.field "overall_risk" r = Some overall /\
           Props.field "overall_risk_level" overall = Some (VStr level) /\
           Props.graded level)
  | Raise _ =>
      AdvancedResourceManager.predict_resource_exhaustion float_of_str
        int_of_str probe now history
      = (VDict [("error", VStr "TypeError")], history)
  end.
Proof.
  intros fos ios probe now history.
  unfold AdvancedResourceManager.predict_resource_exhaustion,
    get_current_resources.
  destruct (readings <- probe ;; build_resources now readings) as [res|e];
    [|reflexivity].
  cbv beta iota delta [AdvancedResourceManager.format_resources bind
                         try_except_all].
  pose proof (cpu_entry_of_sample fos ios (cpu_usage_percent res)
                (cpu_available res)) as Hc.
  pose proof (memory_entry_of_sample fos (memory_usage_percent res)
                (memory_available_gb res)) as Hm.
  pose proof (storage_entry_of_sample fos (storage_usage_percent res)
                (storage_free_gb res)) as Hs.
  eexists. split; [reflexivity|]. split.
  - repeat apply Forall_cons; try apply Forall_nil;
      (eexists; split; [reflexivity | assumption]).
  - intro Hno.
    destruct (queue_entries_of_sample ios (lsf res))
      as (entries & Eq & Hall & Hnone).
    specialize (Hnone Hno).
    destruct (collect_risks_of_sample _ _ _ entries Hc Hm Hs Hall Hnone)
      as (r & rs & Ec & Hg).
    destruct (overall_risk_highest _ r rs Ec Hg)
      as (level & Hl & _ & Hin & _).
    eexists. exists level. split; [|split; [exact Hl|]].
    + rewrite <- Eq. reflexivity.
    + rewrite Forall_forall in Hg.
      destruct (Hg _ Hin) as (l' & El & Gl). inversion El; subst l'.
      exact Gl.
Qed.

(** X17 on a host that answers with one queue, [normal]: the overall level
    is graded and the sample is the one record of the telemetry. *)
Lemma X17_manager_exhaustion_report_witness :
  exists r history',
    AdvancedResourceManager.predict_resource_exhaustion
      (fun _ => None) (fun _ => None) (Ok Props.one_queue_host)
      "2025-01-01T00:00:00" Spec.empty_history = (r, history') /\
    (exists overall level,
       Props.field "overall_risk" r = Some overall /\
       Props.field "overall_risk_level" overall = Some (VStr level) /\
       Props.graded level) /\
    List.length (resource_usage history') = 1%nat.
Proof.
  pose proof (X17_manager_exhaustion_report (fun _ => None) (fun _ => None)
                (Ok Props.one_queue_host) "2025-01-01T00:00:00"
                Spec.empty_history) as H.
  cbv beta iota zeta delta [bind build_resources Qdiv_py
                              Props.one_queue_host disk_total disk_used]
    in H.
  change (Qeq_bool (inject_Z 1000) 0) with false in H.
  cbv beta iota in H.
  destruct H as (r & E & _ & Hoverall).
  destruct (Hoverall eq_refl) as (overall & level & Ho & Hl & Hg).
  eexists. eexists. split; [exact E|]. split; [|reflexivity].
  exists overall, level. split; [exact Ho|]. split; assumption.
Defined.

(** The report on a host whose disk reports size zero: sensing fails on
    the division, and the history keeps its records. *)
Example manager_report_without_sample :
  forall history,
  AdvancedResourceManager.predict_resource_exhaustion
    (fun _ => None) (fun _ => None)
    (Ok {| cpu_count := 64; cpu_percent := 55;
           memory_total := 2 ^ 40; memory_available := 2 ^ 39;
           memory_percent := 50;
           disk_total := 0; disk_used := 0; disk_free := 0;
           lsf_info := []; network_info := [] |})
    "2025-01-01T00:00:00" history
  = (VDict [("error", VStr "TypeError")], history).
Proof.
  intro history. reflexivity.
Qed.

(** ** Cutting the manifest into chunks *)

Section Chunks.
Context {A : Type}.
Import Run.

Lemma firstn_plus (a b : nat) (l : list A) :
  firstn (a + b) l = (firstn a l ++ firstn b (skipn a l))%list.
Proof.
  revert l. induction a as [|a IH]; intro l; [reflexivity|].
  destruct l as [|x l]; simpl.
  - now rewrite firstn_nil.
  - now rewrite IH.
Qed.

Lemma firstn_min_length (m : nat) (l : list A) :
  firstn (Nat.min m (List.length l)) l = firstn m l.
Proof.
  destruct (Nat.le_ge_cases m (List.length l)) as [H|H].
  - now rewrite Nat.min_l.
  - rewrite Nat.min_r by exact H.
    now rewrite firstn_all, firstn_all2.
Qed.

(** Consecutive pieces of [s] elements make up the front of the list. *)
Lemma concat_pieces (l : list A) (s m : nat) :
  List.concat (map (fun i => firstn s (skipn (i * s) l)) (seq 0 m))
  = firstn (m * s) l.
Proof.
  induction m as [|m IH]; [reflexivity|].
  rewrite seq_S, map_app, concat_app, IH. simpl map. simpl List.concat.
  rewrite app_nil_r.
  replace (S m * s)%nat with (m * s + s)%nat by lia.
  now rewrite firstn_plus.
Qed.

Lemma slice_in_range (l : list A) (a b : Z) :
  0 <= a <= b -> b <= Z.of_nat (List.length l) ->
  py_slice l a b = firstn (Z.to_nat (b - a)) (skipn (Z.to_nat a) l).
Proof.
  intros [Ha Hab] Hb. unfold py_slice.
  destruct (Z.ltb_spec a 0); [lia|]. destruct (Z.ltb_spec b 0); [lia|].
  now rewrite !Z.min_l by lia.
Qed.

(** The rows of the chunk of index [k]. *)
Lemma chunk_rows (samples : list A) (size k : Z) :
  0 < size -> 0 <= k -> k * size < Z.of_nat (List.length samples) ->
  let rows :=
    py_slice samples (k * size)
      (Z.min (k * size + size) (Z.of_nat (List.length samples))) in
  rows
  = firstn (Z.to_nat size) (skipn (Z.to_nat k * Z.to_nat size) samples) /\
  Z.of_nat (List.length rows)
  = Z.min (k * size + size) (Z.of_nat (List.length samples)) - k * size.
Proof.
  intros Hs Hk Hlt rows. subst rows.
  set (T := Z.of_nat (List.length samples)) in *.
  rewrite slice_in_range by (fold T; lia).
  rewrite Z2Nat.inj_mul by lia.
  set (L := skipn (Z.to_nat k * Z.to_nat size) samples).
  assert (HL : List.length L = Z.to_nat (T - k * size)).
  { subst L. rewrite length_skipn. subst T.
    rewrite <- Z2Nat.inj_mul by lia. lia. }
  split.
  - rewrite <- (firstn_min_length (Z.to_nat size) L). f_equal.
    rewrite HL. lia.
  - rewrite length_firstn, HL. lia.
Qed.

End Chunks.

(** X18: for a manifest that is not empty and a positive chunk size, the
    chunks written by create_chunks, taken in order, make up the manifest
    exactly: no sample is lost, duplicated or reordered.  There are
    ceil(total / size) chunks, each holds at least one and at most size
    samples, and its status entry counts them: sample_count is the number
    of rows and equals end_idx - start_idx + 1. *)
Theorem X18_chunks_partition_manifest :
  forall (A : Type) (samples : list A) (size : Z),
  samples <> [] -> 0 < size ->
  exists chunks,
    Run.create_chunks samples size = Ok chunks /\
    List.concat (map fst chunks) = samples /\
    Z.of_nat (List.length chunks)
    = (Z.of_nat (List.length samples) + size - 1) / size /\
    Forall
      (fun chunk =>
         1 <= Z.of_nat (List.length (fst chunk)) <= size /\
         Run.sample_count (snd chunk) = Z.of_nat (List.length (fst chunk)) /\
         Run.sample_count (snd chunk)
         = Run.end_idx (snd chunk) - Run.start_idx (snd chunk) + 1)
      chunks.
Proof.
  intros A samples size Hne Hs.
  set (T := Z.of_nat (List.length samples)).
  assert (HT : 0 < T).
  { subst T. destruct samples; [contradiction|]. simpl. lia. }
  set (n := (T + size - 1) / size).
  assert (Hn : size * n <= T + size - 1 < size * n + size).
  { subst n. pose proof (Z.div_mod (T + size - 1) size ltac:(lia)).
    pose proof (Z.mod_pos_bound (T + size - 1) size Hs). lia. }
  assert (Hn0 : 0 <= n) by nia.
  unfold Run.create_chunks. fold T.
  destruct (Z.eqb_spec T 0); [lia|]. destruct (Z.eqb_spec size 0); [lia|].
  fold n. eexists. split; [reflexivity|].
  assert (Hk : forall i, In i (seq 0 (Z.to_nat n)) ->
                         0 <= Z.of_nat i /\ Z.of_nat i * size < T).
  { intros i Hi. apply in_seq in Hi. split; [lia|]. nia. }
  split; [|split].
  - unfold Run.range. rewrite !map_map.
    rewrite (map_ext_in _
               (fun i => firstn (Z.to_nat size)
                           (skipn (i * Z.to_nat size) samples))).
    + rewrite concat_pieces. apply firstn_all2.
      rewrite <- Z2Nat.inj_mul by lia. fold T in HT. 
      apply Nat2Z.inj_le. rewrite Z2Nat.id by nia. fold T. nia.
    + intros i Hi. destruct (Hk i Hi) as [H0 Hlt]. cbn [fst].
      destruct (chunk_rows samples size (Z.of_nat i) Hs H0 Hlt) as [E _].
      fold T in E. rewrite E. now rewrite Nat2Z.id.
  - unfold Run.range. rewrite !length_map, length_seq. lia.
  - unfold Run.range. rewrite map_map. apply Forall_forall.
    intros chunk Hin. apply in_map_iff in Hin.
    destruct Hin as (i & <- & Hi). destruct (Hk i Hi) as [H0 Hlt].
    destruct (chunk_rows samples size (Z.of_nat i) Hs H0 Hlt) as [_ E].
    fold T in E. cbn [fst snd Run.sample_count Run.end_idx Run.start_idx].
    rewrite E. lia.
Qed.

(** X18 on five samples cut into chunks of two. *)
Lemma X18_chunks_partition_manifest_witness :
  exists chunks,
    Run.create_chunks ["s1"; "s2"; "s3"; "s4"; "s5"] 2 = Ok chunks /\
    List.concat (map fst chunks) = ["s1"; "s2"; "s3"; "s4"; "s5"].
Proof.
  destruct (X18_chunks_partition_manifest string
              ["s1"; "s2"; "s3"; "s4"; "s5"] 2)
    as (chunks & E & Hc & _).
  - discriminate.
  - lia.
  - exists chunks. split; assumption.
Defined.

(** X21: a negative chunk size is accepted without any error and loses
    samples: for a manifest that is not empty the chunks that are written
    hold fewer samples than the manifest, at most one chunk is written and
    often none. *)
Theorem X21_negative_chunk_size_loses_samples :
  forall (A : Type) (samples : list A) (size : Z),
  samples <> [] -> size < 0 ->
  exists chunks,
    Run.create_chunks samples size = Ok chunks /\
    (List.length chunks <= 1)%nat /\
    (List.length (List.concat (map fst chunks)) < List.length samples)%nat.
Proof.
  intros A samples size Hne Hs.
  set (T := Z.of_nat (List.length samples)).
  assert (HT : 0 < T).
  { subst T. destruct samples; [contradiction|]. simpl. lia. }
  set (n := (T + size - 1) / size).
  assert (Hn : n <= 1).
  { subst n. pose proof (Z.div_mod (T + size - 1) size ltac:(lia)).
    pose proof (Z.mod_neg_bound (T + size - 1) size Hs). nia. }
  unfold Run.create_chunks. fold T.
  destruct (Z.eqb_spec T 0); [lia|]. destruct (Z.eqb_spec size 0); [lia|].
  fold n. eexists. split; [reflexivity|]. unfold Run.range.
  destruct (Z.to_nat n) as [|[|m]] eqn:En; [| |lia].
  - simpl. split; [lia|]. subst T. lia.
  - cbn [seq map List.concat fst List.length]. split; [lia|].
    rewrite app_nil_r. unfold Run.py_slice. fold T.
    change (Z.of_nat 0 * size) with 0.
    rewrite (Z.min_l (0 + size) T) by lia.
    destruct (Z.ltb_spec 0 0); [lia|].
    destruct (Z.ltb_spec (0 + size) 0); [|lia].
    rewrite length_firstn. cbn [skipn Z.to_nat]. subst T. lia.
Qed.

(** X21 on three samples and a chunk size of -1. *)
Lemma X21_negative_chunk_size_loses_samples_witness :
  exists chunks,
    Run.create_chunks ["s1"; "s2"; "s3"] (-1) = Ok chunks /\
    (List.length (List.concat (map fst chunks)) < 3)%nat.
Proof.
  destruct (X21_negative_chunk_size_loses_samples string
              ["s1"; "s2"; "s3"] (-1))
    as (chunks & E & _ & Hc).
  - discriminate.
  - lia.
  - exists chunks. split; assumption.
Defined.

(** ** Telemetry *)

Section Telemetry.
Local Open Scope Q_scope.

Lemma Qtrunc_nonneg (q : Q) : 0 <= q -> (0 <= Qtrunc q)%Z.
Proof.
  intro H. unfold Qtrunc. apply Z.quot_pos; [|lia].
  unfold Qle in H. simpl in H. lia.
Qed.

End Telemetry.

(** X20: a file system that reports a total size of 0 makes the whole
    sample fail: nothing is recorded in the history.  Every sample that is
    obtained from a host with a cpu count and a cpu usage that are not
    negative reports a number of available cpus between 0 and the cpu
    count. *)
Theorem X20_sample_edges :
  forall now (readings : HostReadings) (history : History),
  (disk_total readings = 0 ->
   get_current_resources (Ok readings) now history = (None, history)) /\
  (forall resources history',
     get_current_resources (Ok readings) now history
     = (Some resources, history') ->
     0 <= cpu_count readings -> (0 <= cpu_percent readings)%Q ->
     0 <= cpu_available resources <= cpu_count readings).
Proof.
  intros now r history. split.
  - intro H0. unfold get_current_resources, build_resources, Qdiv_py.
    cbv beta iota delta [bind]. rewrite H0. reflexivity.
  - intros res h' E Hc Hp.
    unfold get_current_resources, build_resources in E.
    cbv beta iota delta [bind] in E.
    destruct (Qdiv_py _ _) as [f|]; [|discriminate E].
    inversion E; subst res; clear E. cbn [cpu_available].
    assert (Hq : (0 <= inject_Z (cpu_count r) * cpu_percent r / 100)%Q).
    { unfold Qdiv. change (/ 100)%Q with (1 # 100).
      assert (0 <= inject_Z (cpu_count r))%Q
        by (change 0%Q with (inject_Z 0); now rewrite <- Zle_Qle).
      assert (0 <= inject_Z (cpu_count r) * cpu_percent r)%Q
        by (apply Qmult_le_0_compat; assumption).
      lra. }
    pose proof (Qtrunc_nonneg _ Hq). lia.
Qed.

(** X20 on a host whose disk reports a total of 0 bytes. *)
Lemma X20_sample_edges_witness :
  get_current_resources
    (Ok {| cpu_count := 64; cpu_percent := 10;
           memory_total := 2 ^ 40; memory_available := 2 ^ 39;
           memory_percent := 50;
           disk_total := 0; disk_used := 0; disk_free := 0;
           lsf_info := []; network_info := [] |})
    "2025-01-01T00:00:00" Spec.empty_history
  = (None, Spec.empty_history).
Proof.
  apply (proj1 (X20_sample_edges "2025-01-01T00:00:00"
                  {| cpu_count := 64; cpu_percent := 10;
                     memory_total := 2 ^ 40; memory_available := 2 ^ 39;
                     memory_percent := 50;
                     disk_total := 0; disk_used := 0; disk_free := 0;
                     lsf_info := []; network_info := [] |}
                  Spec.empty_history)).
  reflexivity.
Defined.

(** ** Success probability *)

Section SuccessProbability.
Local Open Scope Q_scope.

Lemma queue_reliability_bounds (queue : string) :
  0 <= _get_queue_reliability queue <= 1.
Proof.
  unfold _get_queue_reliability, dict_get_default. simpl dict_get.
  destruct (String.eqb queue "normal");
    [split; vm_compute; discriminate|].
  destruct (String.eqb queue "hiprio");
    [split; vm_compute; discriminate|].
  destruct (String.eqb queue "long"); [split; vm_compute; discriminate|].
  destruct (String.eqb queue "gpu"); split; vm_compute; discriminate.
Qed.

(** The adequacy of a granted amount against a positive requirement. *)
Lemma adequacy_bounds (granted required : Z) :
  (0 <= granted)%Z -> (0 < required)%Z ->
  exists ratio,
    Qdiv_py (inject_Z granted) (inject_Z required) = Ok ratio /\
    0 <= Qmin 1.0 ratio <= 1.
Proof.
  intros Hg Hr. unfold Qdiv_py.
  rewrite inject_Z_nonzero by lia. eexists. split; [reflexivity|].
  assert (H0 : 0 <= inject_Z granted / inject_Z required).
  { apply Qle_shift_div_l.
    - change 0 with (inject_Z 0). now rewrite <- Zlt_Qlt.
    - rewrite Qmult_0_l. change 0 with (inject_Z 0). now rewrite <- Zle_Qle. }
  split.
  - apply Q.min_glb; [discriminate | exact H0].
  - apply Qle_trans with 1.0; [apply Q.le_min_l | discriminate].
Qed.

End SuccessProbability.

(** X22: for a requirement with positive cpus and memory and granted
    amounts that are not negative, the predicted success probability is a
    probability: it lies between 0 and 1, and it never exceeds the
    reliability of the queue. *)
Theorem X22_success_probability_in_range :
  forall (requirements : JobRequirements) (cpus memory_gb : Z)
         (queue : string),
  0 < req_cpus requirements -> 0 < req_memory_gb requirements ->
  0 <= cpus -> 0 <= memory_gb ->
  exists p,
    predict_job_success_probability requirements cpus memory_gb queue
    = Ok p /\
    (0 <= p <= 1)%Q /\
    (p <= _get_queue_reliability queue)%Q.
Proof.
  intros requirements cpus memory_gb queue Hrc Hrm Hc Hm.
  unfold predict_job_success_probability.
  destruct (adequacy_bounds cpus (req_cpus requirements) Hc Hrc)
    as (rc & Ec & Hbc).
  destruct (adequacy_bounds memory_gb (req_memory_gb requirements) Hm Hrm)
    as (rm & Em & Hbm).
  rewrite Ec. cbv beta iota delta [bind]. rewrite Em.
  cbv beta iota delta [bind].
  eexists. split; [reflexivity|].
  pose proof (queue_reliability_bounds queue) as Hrel.
  set (a := Qmin 1.0 rc) in *. set (b := Qmin 1.0 rm) in *.
  set (rel := _get_queue_reliability queue) in *.
  assert (Havg : (0 <= (a + b) / 2 <= 1)%Q).
  { unfold Qdiv. change (/ 2)%Q with (1 # 2). lra. }
  set (avg := ((a + b) / 2)%Q) in *.
  assert (H0 : (0 <= avg * rel)%Q) by (apply Qmult_le_0_compat; lra).
  assert (H1 : (avg * rel <= 1 * rel)%Q)
    by (apply Qmult_le_compat_r; lra).
  split; [split|]; lra.
Qed.

(** X22 on the request of the test in [main], granted in full on
    [hiprio]. *)
Lemma X22_success_probability_in_range_witness :
  exists p,
    predict_job_success_probability Spec.test_requirements 8 128 "hiprio"
    = Ok p /\
    (0 <= p <= 1)%Q.
Proof.
  destruct (X22_success_probability_in_range Spec.test_requirements 8 128
              "hiprio") as (p & E & H & _); try (simpl; lia).
  exists p. split; assumption.
Defined.
